(** * GPS Rescue (betaflight, src/main/flight/gps_rescue.c)

    A shallow embedding of the GPS return-to-home module: the sensor
    aggregator, the phase machine, the sanity watchdog, the attitude and
    throttle controller and the outer dispatcher, followed by the properties
    of the specification that were checked against them.

    C [float] is IEEE-754 binary32, modelled with the Standard Library's
    [SpecFloat] at precision 24 and maximal exponent 128 (round to nearest
    even, as the FPU does).  C integers are [Z] with the narrowing of every
    assignment written out. *)

From Stdlib Require Import ZArith Bool List Lia.
From Stdlib Require Import Floats.SpecFloat.
Import ListNotations.

Local Open Scope Z_scope.

(** ** Single-precision floats *)

Module f32.

Definition prec : Z := 24.
Definition emax : Z := 128.

Definition t : Type := spec_float.

Definition add : t -> t -> t := SFadd prec emax.
Definition sub : t -> t -> t := SFsub prec emax.
Definition mul : t -> t -> t := SFmul prec emax.
Definition div : t -> t -> t := SFdiv prec emax.
Definition sqrt : t -> t := SFsqrt prec emax.
Definition neg : t -> t := SFopp.
Definition fabsf : t -> t := SFabs.

Definition ltb : t -> t -> bool := SFltb.
Definition leb : t -> t -> bool := SFleb.
Definition gtb (x y : t) : bool := SFltb y x.

Definition valid : t -> bool := valid_binary prec emax.

Definition is_nan (x : t) : bool :=
  match x with S754_nan => true | _ => false end.

(** Conversion of a C integer to [float] (rounds above 2^24). *)
Definition of_int (z : Z) : t := binary_normalize prec emax z 0 false.

(** A decimal literal [n/d] with [n] and [d] exactly representable: the
    correctly rounded quotient is the nearest binary32 value, which is what
    the compiler stores for the literal ([lit 1 10] is [0.1f]). *)
Definition lit (n d : Z) : t := div (of_int n) (of_int d).

Definition zero : t := S754_zero false.

(** Integral part of a float, towards zero.  [None] for NaN and the
    infinities. *)
Definition trunc (x : t) : option Z :=
  match x with
  | S754_zero _ => Some 0
  | S754_finite s m e =>
      let a := match e with
               | Zneg p => Z.shiftr (Zpos m) (Zpos p)
               | _ => Z.shiftl (Zpos m) e
               end in
      Some (if s then - a else a)
  | _ => None
  end.

Definition in_range (lo hi x : t) : bool := leb lo x && leb x hi.

(** The comparison a clamp can guarantee: a NaN passes through any clamp,
    every other value ends inside the bounds. *)
Definition nan_or_in_range (lo hi x : t) : Prop :=
  is_nan x = true \/ in_range lo hi x = true.
End f32.

Declare Scope f32_scope.
Delimit Scope f32_scope with f32.
Bind Scope f32_scope with f32.t.
Infix "+" := f32.add : f32_scope.
Infix "-" := f32.sub : f32_scope.
Infix "*" := f32.mul : f32_scope.
Infix "/" := f32.div : f32_scope.
Infix "<?" := f32.ltb : f32_scope.
Infix "<=?" := f32.leb : f32_scope.
Infix ">?" := f32.gtb : f32_scope.
Notation "- x" := (f32.neg x) : f32_scope.

(** ** C integers *)

Definition wrap_unsigned (bits z : Z) : Z := z mod 2 ^ bits.
Definition wrap_signed (bits z : Z) : Z :=
  (z + 2 ^ (bits - 1)) mod 2 ^ bits - 2 ^ (bits - 1).

Definition to_uint8 : Z -> Z := wrap_unsigned 8.
Definition to_int8 : Z -> Z := wrap_signed 8.
Definition to_uint16 : Z -> Z := wrap_unsigned 16.
Definition to_int16 : Z -> Z := wrap_signed 16.
Definition to_uint32 : Z -> Z := wrap_unsigned 32.
Definition to_int32 : Z -> Z := wrap_signed 32.

(** Conversion of a float to a 32-bit integer.  C leaves a value outside the
    target type undefined; the model follows the VCVT instruction of the
    flight controllers this code is built for (ARMv7-M with FPU): the
    result saturates and NaN gives 0.  Narrower targets take the low bits. *)
Definition sat (lo hi z : Z) : Z := Z.max lo (Z.min hi z).

Definition float_to_int32 (x : f32.t) : Z :=
  match x with
  | S754_nan => 0
  | S754_infinity s => if s then - 2 ^ 31 else 2 ^ 31 - 1
  | _ => match f32.trunc x with
         | Some z => sat (- 2 ^ 31) (2 ^ 31 - 1) z
         | None => 0
         end
  end.

Definition float_to_uint32 (x : f32.t) : Z :=
  match x with
  | S754_nan => 0
  | S754_infinity s => if s then 0 else 2 ^ 32 - 1
  | _ => match f32.trunc x with
         | Some z => sat 0 (2 ^ 32 - 1) z
         | None => 0
         end
  end.

Definition float_to_int16 (x : f32.t) : Z := to_int16 (float_to_int32 x).
Definition float_to_int8 (x : f32.t) : Z := to_int8 (float_to_int32 x).
Definition float_to_uint16 (x : f32.t) : Z := to_uint16 (float_to_uint32 x).

(** Integer division.  A zero divisor is undefined behaviour in C (and the
    generated code is not predictable either: the hardware divide yields 0,
    a compiler that folds [x / x] yields 1), so the model reports it. *)
Inductive undefined : Type :=
| DivisionByZero.

Inductive result (A : Type) : Type :=
| Ok (a : A)
| Undefined (u : undefined).
Arguments Ok {A} a.
Arguments Undefined {A} u.

Definition bind {A B : Type} (r : result A) (k : A -> result B) : result B :=
  match r with
  | Ok a => k a
  | Undefined u => Undefined u
  end.

Notation "x <- r ;; k" := (bind r (fun x => k))
  (at level 61, r at next level, right associativity).

Definition int_div (a b : Z) : result Z :=
  if b =? 0 then Undefined DivisionByZero else Ok (Z.quot a b).

(** ** Helpers of common/maths.h, common/filter.h and drivers/time.h *)

(** Modelled from the spec: [constrain] and [constrainf] are declared in
    common/maths.h, outside the sources at hand; they are the spec's
    [clamp(x, lo, hi)], which tests the lower bound first. *)
Definition constrain (amt low high : Z) : Z :=
  if amt <? low then low else if amt >? high then high else amt.

Definition constrainf (amt low high : f32.t) : f32.t :=
  if (amt <? low)%f32 then low else if (amt >? high)%f32 then high else amt.

(** Modelled from the spec: the macros [MAX], [MIN] and [ABS] of
    common/utils.h and common/maths.h (the spec's [max] and [| |]); each
    is one comparison and a choice. *)
Definition MAX (a b : Z) : Z := if a >? b then a else b.
Definition MIN (a b : Z) : Z := if a <? b then a else b.
Definition MAXf (a b : f32.t) : f32.t := if (a >? b)%f32 then a else b.
Definition ABSf (x : f32.t) : f32.t :=
  if (x >? f32.of_int 0)%f32 then x else (- x)%f32.

Definition sq (x : f32.t) : f32.t := (x * x)%f32.

(** Modelled from the spec: [GET_DIRECTION] of fc/rc_controls.h, the
    "configured yaw reversal sign". *)
Definition GET_DIRECTION (isInverted : bool) : Z := if isInverted then -1 else 1.

(** Modelled from the spec: [pt1FilterGain] of common/filter.c,
    [dt / (dt + 1/(2 pi f_cut))]; [M_PIf] is the binary32 value nearest
    to pi. *)
Definition M_PIf : f32.t := S754_finite false 13176795 (-22).

Definition pt1FilterGain (f_cut dT : f32.t) : f32.t :=
  let RC := (f32.of_int 1 / (f32.of_int 2 * M_PIf * f_cut))%f32 in
  (dT / (RC + dT))%f32.

(** Modelled from the spec: [cmpTimeUs] of drivers/time.h, "nowMicros -
    prevMicros": the difference of two 32-bit microsecond counters read as
    a signed 32-bit delta. *)
Definition cmpTimeUs (a b : Z) : Z := to_int32 (to_uint32 (a - b)).

(** ** Enumerations *)

Inductive gpsRescueSanity_e : Type :=
| RESCUE_SANITY_OFF
| RESCUE_SANITY_ON
| RESCUE_SANITY_FS_ONLY.

Inductive rescuePhase_e : Type :=
| RESCUE_IDLE
| RESCUE_INITIALIZE
| RESCUE_ATTAIN_ALT
| RESCUE_ROTATE
| RESCUE_FLY_HOME
| RESCUE_DESCENT
| RESCUE_LANDING
| RESCUE_ABORT
| RESCUE_COMPLETE
| RESCUE_DO_NOTHING.

(** The enumerators count from 0; [gpsRescueDisableMag] compares them. *)
Definition rescuePhase_index (p : rescuePhase_e) : Z :=
  match p with
  | RESCUE_IDLE => 0
  | RESCUE_INITIALIZE => 1
  | RESCUE_ATTAIN_ALT => 2
  | RESCUE_ROTATE => 3
  | RESCUE_FLY_HOME => 4
  | RESCUE_DESCENT => 5
  | RESCUE_LANDING => 6
  | RESCUE_ABORT => 7
  | RESCUE_COMPLETE => 8
  | RESCUE_DO_NOTHING => 9
  end.

Inductive rescueFailureState_e : Type :=
| RESCUE_HEALTHY
| RESCUE_FLYAWAY
| RESCUE_GPSLOST
| RESCUE_LOWSATS
| RESCUE_CRASH_FLIP_DETECTED
| RESCUE_STALLED
| RESCUE_TOO_CLOSE
| RESCUE_NO_HOME_POINT.

Inductive altitudeMode_e : Type :=
| MAX_ALT
| FIXED_ALT
| CURRENT_ALT.

Definition phase_eqb (p q : rescuePhase_e) : bool :=
  rescuePhase_index p =? rescuePhase_index q.

Definition failure_is_healthy (f : rescueFailureState_e) : bool :=
  match f with RESCUE_HEALTHY => true | _ => false end.

(** Calls into the arming subsystem, in the order they are made. *)
Inductive call : Type :=
| setArmingDisabled_ARM_SWITCH
| disarm_GPS_RESCUE.

(** ** Constants *)

Definition GPS_RESCUE_MAX_YAW_RATE : Z := 90.
Definition GPS_RESCUE_MIN_DESCENT_DIST_M : Z := 10.
Definition GPS_RESCUE_MAX_ITERM_VELOCITY : Z := 1000.
Definition GPS_RESCUE_MAX_ITERM_THROTTLE : Z := 200.
Definition GPS_RESCUE_MAX_PITCH_RATE : Z := 3000.

(** ** Configuration

    The fields of [gpsRescueConfig_t] (gps_rescue.h) are unsigned integers;
    the two mode fields are kept as their enumerations. *)

Module gpsRescueConfig.
Record t : Type := {
  angle : Z;
  initialAltitudeM : Z;
  descentDistanceM : Z;
  rescueGroundspeed : Z;
  throttleP : Z;
  throttleI : Z;
  throttleD : Z;
  velP : Z;
  velI : Z;
  velD : Z;
  yawP : Z;
  throttleMin : Z;
  throttleMax : Z;
  throttleHover : Z;
  sanityChecks : gpsRescueSanity_e;
  minRescueDth : Z;
  allowArmingWithoutFix : bool;
  useMag : bool;
  targetLandingAltitudeM : Z;
  altitudeMode : altitudeMode_e;
  ascendRate : Z;
  descendRate : Z;
  rescueAltitudeBufferM : Z;
  rollMix : Z
}.
End gpsRescueConfig.

(** [PG_RESET_TEMPLATE]; [GPS_RESCUE_USE_MAG] is [USE_MAG]. *)
Definition gpsRescueConfig_reset (USE_MAG : bool) : gpsRescueConfig.t := {|
  gpsRescueConfig.angle := 32;
  gpsRescueConfig.initialAltitudeM := 30;
  gpsRescueConfig.descentDistanceM := 20;
  gpsRescueConfig.rescueGroundspeed := 500;
  gpsRescueConfig.throttleP := 20;
  gpsRescueConfig.throttleI := 20;
  gpsRescueConfig.throttleD := 10;
  gpsRescueConfig.velP := 6;
  gpsRescueConfig.velI := 20;
  gpsRescueConfig.velD := 70;
  gpsRescueConfig.yawP := 25;
  gpsRescueConfig.throttleMin := 1100;
  gpsRescueConfig.throttleMax := 1600;
  gpsRescueConfig.throttleHover := 1275;
  gpsRescueConfig.sanityChecks := RESCUE_SANITY_FS_ONLY;
  gpsRescueConfig.minRescueDth := 30;
  gpsRescueConfig.allowArmingWithoutFix := false;
  gpsRescueConfig.useMag := USE_MAG;
  gpsRescueConfig.targetLandingAltitudeM := 5;
  gpsRescueConfig.altitudeMode := MAX_ALT;
  gpsRescueConfig.ascendRate := 500;
  gpsRescueConfig.descendRate := 125;
  gpsRescueConfig.rescueAltitudeBufferM := 10;
  gpsRescueConfig.rollMix := 100
|}.

(** ** What a tick reads from the rest of the firmware *)

Record inputs : Type := {
  FLIGHT_MODE_GPS_RESCUE : bool;     (* FLIGHT_MODE(GPS_RESCUE_MODE) *)
  ARMING_FLAG_ARMED : bool;          (* ARMING_FLAG(ARMED) *)
  isAltitudeOffset : bool;
  STATE_GPS_FIX_HOME : bool;
  STATE_GPS_FIX : bool;
  rxIsReceivingSignal : bool;
  crashRecoveryModeActive : bool;
  sensors_SENSOR_MAG : bool;         (* sensors(SENSOR_MAG) *)
  yaw_control_reversed : bool;       (* rcControlsConfig()->yaw_control_reversed *)
  rcCommand_THROTTLE : f32.t;
  getEstimatedAltitudeCm : Z;        (* int32_t *)
  gpsIsHealthy : bool;
  accADC_X : f32.t;
  accADC_Y : f32.t;
  accADC_Z : f32.t;
  acc_1G_rec : f32.t;
  GPS_distanceToHomeCm : Z;          (* uint32_t *)
  gpsSol_groundSpeed : Z;            (* uint16_t *)
  gpsSol_numSat : Z;                 (* uint8_t *)
  gpsMinimumSats : Z;                (* gpsConfig()->gpsMinimumSats *)
  GPS_directionToHome : Z;           (* int16_t, degrees * 10 *)
  attitude_yaw : Z;                  (* attitude.values.yaw, degrees * 10 *)
  getCosTiltAngle : f32.t;
  micros_start : Z;                  (* micros() in the watchdog run at rescue start *)
  micros_sensor : Z;                 (* micros() in sensorUpdate *)
  micros_available : Z;              (* micros() in checkGPSRescueIsAvailable *)
  micros_sanity : Z                  (* micros() in the watchdog run of the tick *)
}.

(** ** Module state *)

Record rescueIntent_s : Type := {
  returnAltitudeCm : f32.t;
  targetAltitudeCm : f32.t;
  targetVelocityCmS : Z;             (* uint16_t *)
  pitchAngleLimitDeg : Z;            (* uint8_t *)
  rollAngleLimitDeg : Z;             (* int8_t *)
  updateYaw : bool;
  descentDistanceM : f32.t;
  secondsFailing : Z                 (* int8_t *)
}.

Record rescueSensorData_s : Type := {
  maxAltitudeCm : Z;                 (* int32_t *)
  currentAltitudeCm : Z;             (* int32_t *)
  distanceToHomeCm : f32.t;
  distanceToHomeM : f32.t;
  groundSpeedCmS : Z;                (* uint16_t *)
  directionToHome : Z;               (* int16_t *)
  accMagnitude : f32.t;
  healthy : bool;
  errorAngle : f32.t;
  gpsDataIntervalSeconds : f32.t;
  velocityToHomeCmS : f32.t;
  ascendStepCm : f32.t;
  descendStepCm : f32.t;
  maxPitchStep : f32.t;
  filterK : f32.t;
  absErrorAngle : f32.t
}.

Record rescueState_s : Type := {
  phase : rescuePhase_e;
  failure : rescueFailureState_e;
  sensor : rescueSensorData_s;
  intent : rescueIntent_s;
  isAvailable : bool
}.

(** The function-local statics of [rescueAttainPosition]. *)
Record attainPosition_statics : Type := {
  previousVelocityError : f32.t;
  velocityI : f32.t;
  previousVelocityD : f32.t;
  previousPitchAdjustment : f32.t;
  previousAltitudeError : f32.t;
  throttleI : f32.t;
  previousThrottleD : f32.t;
  previousThrottleDVal : f32.t;
  previousThrottleD2 : f32.t;
  throttleAdjustment : Z             (* int16_t *)
}.

(** The function-local statics of [performSanityChecks]. *)
Module sanity.
Record statics : Type := {
  previousTimeUs : Z;              (* timeUs_t *)
  prevAltitudeCm : Z;              (* int32_t *)
  secondsLowSats : Z;              (* int8_t *)
  secondsDoingNothing : Z          (* int8_t *)
}.
End sanity.

(** The function-local statics of [sensorUpdate]. *)
Record sensorUpdate_statics : Type := {
  previousDataTimeUs : Z;
  prevDistanceToHomeCm : f32.t
}.

(** The function-local statics of [checkGPSRescueIsAvailable]. *)
Module available.
Record statics : Type := {
  previousTimeUs : Z;
  secondsLowSats : Z;
  lowsats : bool;
  noGPSfix : bool
}.
End available.

(** Every variable of static storage duration in the file. *)
Record gps_rescue : Type := {
  rescueThrottle : f32.t;
  rescueYaw : f32.t;
  gpsRescueAngle_PITCH : f32.t;
  gpsRescueAngle_ROLL : f32.t;
  magForceDisable : bool;
  newGPSData : bool;
  rescueState : rescueState_s;
  attain : attainPosition_statics;
  sanityMem : sanity.statics;
  sensorMem : sensorUpdate_statics;
  availableMem : available.statics
}.

(** *** Field updates *)

Definition set_returnAltitudeCm (v : f32.t) (i : rescueIntent_s) : rescueIntent_s :=
  {| returnAltitudeCm := v; targetAltitudeCm := targetAltitudeCm i;
     targetVelocityCmS := targetVelocityCmS i; pitchAngleLimitDeg := pitchAngleLimitDeg i;
     rollAngleLimitDeg := rollAngleLimitDeg i; updateYaw := updateYaw i;
     descentDistanceM := descentDistanceM i; secondsFailing := secondsFailing i |}.

Definition set_targetAltitudeCm (v : f32.t) (i : rescueIntent_s) : rescueIntent_s :=
  {| returnAltitudeCm := returnAltitudeCm i; targetAltitudeCm := v;
     targetVelocityCmS := targetVelocityCmS i; pitchAngleLimitDeg := pitchAngleLimitDeg i;
     rollAngleLimitDeg := rollAngleLimitDeg i; updateYaw := updateYaw i;
     descentDistanceM := descentDistanceM i; secondsFailing := secondsFailing i |}.

Definition set_targetVelocityCmS (v : Z) (i : rescueIntent_s) : rescueIntent_s :=
  {| returnAltitudeCm := returnAltitudeCm i; targetAltitudeCm := targetAltitudeCm i;
     targetVelocityCmS := v; pitchAngleLimitDeg := pitchAngleLimitDeg i;
     rollAngleLimitDeg := rollAngleLimitDeg i; updateYaw := updateYaw i;
     descentDistanceM := descentDistanceM i; secondsFailing := secondsFailing i |}.

Definition set_pitchAngleLimitDeg (v : Z) (i : rescueIntent_s) : rescueIntent_s :=
  {| returnAltitudeCm := returnAltitudeCm i; targetAltitudeCm := targetAltitudeCm i;
     targetVelocityCmS := targetVelocityCmS i; pitchAngleLimitDeg := v;
     rollAngleLimitDeg := rollAngleLimitDeg i; updateYaw := updateYaw i;
     descentDistanceM := descentDistanceM i; secondsFailing := secondsFailing i |}.

Definition set_rollAngleLimitDeg (v : Z) (i : rescueIntent_s) : rescueIntent_s :=
  {| returnAltitudeCm := returnAltitudeCm i; targetAltitudeCm := targetAltitudeCm i;
     targetVelocityCmS := targetVelocityCmS i; pitchAngleLimitDeg := pitchAngleLimitDeg i;
     rollAngleLimitDeg := v; updateYaw := updateYaw i;
     descentDistanceM := descentDistanceM i; secondsFailing := secondsFailing i |}.

Definition set_updateYaw (v : bool) (i : rescueIntent_s) : rescueIntent_s :=
  {| returnAltitudeCm := returnAltitudeCm i; targetAltitudeCm := targetAltitudeCm i;
     targetVelocityCmS := targetVelocityCmS i; pitchAngleLimitDeg := pitchAngleLimitDeg i;
     rollAngleLimitDeg := rollAngleLimitDeg i; updateYaw := v;
     descentDistanceM := descentDistanceM i; secondsFailing := secondsFailing i |}.

Definition set_descentDistanceM (v : f32.t) (i : rescueIntent_s) : rescueIntent_s :=
  {| returnAltitudeCm := returnAltitudeCm i; targetAltitudeCm := targetAltitudeCm i;
     targetVelocityCmS := targetVelocityCmS i; pitchAngleLimitDeg := pitchAngleLimitDeg i;
     rollAngleLimitDeg := rollAngleLimitDeg i; updateYaw := updateYaw i;
     descentDistanceM := v; secondsFailing := secondsFailing i |}.

Definition set_secondsFailing (v : Z) (i : rescueIntent_s) : rescueIntent_s :=
  {| returnAltitudeCm := returnAltitudeCm i; targetAltitudeCm := targetAltitudeCm i;
     targetVelocityCmS := targetVelocityCmS i; pitchAngleLimitDeg := pitchAngleLimitDeg i;
     rollAngleLimitDeg := rollAngleLimitDeg i; updateYaw := updateYaw i;
     descentDistanceM := descentDistanceM i; secondsFailing := v |}.

Definition set_maxAltitudeCm (v : Z) (d : rescueSensorData_s) : rescueSensorData_s :=
  {| maxAltitudeCm := v; currentAltitudeCm := currentAltitudeCm d;
     distanceToHomeCm := distanceToHomeCm d; distanceToHomeM := distanceToHomeM d;
     groundSpeedCmS := groundSpeedCmS d; directionToHome := directionToHome d;
     accMagnitude := accMagnitude d; healthy := healthy d; errorAngle := errorAngle d;
     gpsDataIntervalSeconds := gpsDataIntervalSeconds d;
     velocityToHomeCmS := velocityToHomeCmS d; ascendStepCm := ascendStepCm d;
     descendStepCm := descendStepCm d; maxPitchStep := maxPitchStep d;
     filterK := filterK d; absErrorAngle := absErrorAngle d |}.

Definition set_phase (v : rescuePhase_e) (r : rescueState_s) : rescueState_s :=
  {| phase := v; failure := failure r; sensor := sensor r; intent := intent r;
     isAvailable := isAvailable r |}.

Definition set_failure (v : rescueFailureState_e) (r : rescueState_s) : rescueState_s :=
  {| phase := phase r; failure := v; sensor := sensor r; intent := intent r;
     isAvailable := isAvailable r |}.

Definition set_sensor (v : rescueSensorData_s) (r : rescueState_s) : rescueState_s :=
  {| phase := phase r; failure := failure r; sensor := v; intent := intent r;
     isAvailable := isAvailable r |}.

Definition set_intent (v : rescueIntent_s) (r : rescueState_s) : rescueState_s :=
  {| phase := phase r; failure := failure r; sensor := sensor r; intent := v;
     isAvailable := isAvailable r |}.

Definition set_isAvailable (v : bool) (r : rescueState_s) : rescueState_s :=
  {| phase := phase r; failure := failure r; sensor := sensor r; intent := intent r;
     isAvailable := v |}.

Definition set_rescueState (v : rescueState_s) (g : gps_rescue) : gps_rescue :=
  {| rescueThrottle := rescueThrottle g; rescueYaw := rescueYaw g;
     gpsRescueAngle_PITCH := gpsRescueAngle_PITCH g;
     gpsRescueAngle_ROLL := gpsRescueAngle_ROLL g;
     magForceDisable := magForceDisable g; newGPSData := newGPSData g;
     rescueState := v; attain := attain g; sanityMem := sanityMem g;
     sensorMem := sensorMem g; availableMem := availableMem g |}.

Definition set_newGPSData (v : bool) (g : gps_rescue) : gps_rescue :=
  {| rescueThrottle := rescueThrottle g; rescueYaw := rescueYaw g;
     gpsRescueAngle_PITCH := gpsRescueAngle_PITCH g;
     gpsRescueAngle_ROLL := gpsRescueAngle_ROLL g;
     magForceDisable := magForceDisable g; newGPSData := v;
     rescueState := rescueState g; attain := attain g; sanityMem := sanityMem g;
     sensorMem := sensorMem g; availableMem := availableMem g |}.

Definition set_magForceDisable (v : bool) (g : gps_rescue) : gps_rescue :=
  {| rescueThrottle := rescueThrottle g; rescueYaw := rescueYaw g;
     gpsRescueAngle_PITCH := gpsRescueAngle_PITCH g;
     gpsRescueAngle_ROLL := gpsRescueAngle_ROLL g;
     magForceDisable := v; newGPSData := newGPSData g;
     rescueState := rescueState g; attain := attain g; sanityMem := sanityMem g;
     sensorMem := sensorMem g; availableMem := availableMem g |}.

Definition set_sanityMem (v : sanity.statics) (g : gps_rescue) : gps_rescue :=
  {| rescueThrottle := rescueThrottle g; rescueYaw := rescueYaw g;
     gpsRescueAngle_PITCH := gpsRescueAngle_PITCH g;
     gpsRescueAngle_ROLL := gpsRescueAngle_ROLL g;
     magForceDisable := magForceDisable g; newGPSData := newGPSData g;
     rescueState := rescueState g; attain := attain g; sanityMem := v;
     sensorMem := sensorMem g; availableMem := availableMem g |}.

Definition set_sensorMem (v : sensorUpdate_statics) (g : gps_rescue) : gps_rescue :=
  {| rescueThrottle := rescueThrottle g; rescueYaw := rescueYaw g;
     gpsRescueAngle_PITCH := gpsRescueAngle_PITCH g;
     gpsRescueAngle_ROLL := gpsRescueAngle_ROLL g;
     magForceDisable := magForceDisable g; newGPSData := newGPSData g;
     rescueState := rescueState g; attain := attain g; sanityMem := sanityMem g;
     sensorMem := v; availableMem := availableMem g |}.

Definition set_availableMem (v : available.statics) (g : gps_rescue) : gps_rescue :=
  {| rescueThrottle := rescueThrottle g; rescueYaw := rescueYaw g;
     gpsRescueAngle_PITCH := gpsRescueAngle_PITCH g;
     gpsRescueAngle_ROLL := gpsRescueAngle_ROLL g;
     magForceDisable := magForceDisable g; newGPSData := newGPSData g;
     rescueState := rescueState g; attain := attain g; sanityMem := sanityMem g;
     sensorMem := sensorMem g; availableMem := v |}.

(** Updates of [rescueState.phase], [.failure], [.intent] and [.sensor]
    through the module state. *)
Definition with_phase (v : rescuePhase_e) (g : gps_rescue) : gps_rescue :=
  set_rescueState (set_phase v (rescueState g)) g.
Definition with_failure (v : rescueFailureState_e) (g : gps_rescue) : gps_rescue :=
  set_rescueState (set_failure v (rescueState g)) g.
Definition with_intent (f : rescueIntent_s -> rescueIntent_s) (g : gps_rescue) : gps_rescue :=
  set_rescueState (set_intent (f (intent (rescueState g))) (rescueState g)) g.
Definition with_sensor (f : rescueSensorData_s -> rescueSensorData_s) (g : gps_rescue) : gps_rescue :=
  set_rescueState (set_sensor (f (sensor (rescueState g))) (rescueState g)) g.

(** Zero-initialised static storage, with the two explicit initialisers. *)
Definition gps_rescue_init : gps_rescue := {|
  rescueThrottle := f32.zero;
  rescueYaw := f32.zero;
  gpsRescueAngle_PITCH := f32.zero;
  gpsRescueAngle_ROLL := f32.zero;
  magForceDisable := false;
  newGPSData := false;
  rescueState := {|
    phase := RESCUE_IDLE;
    failure := RESCUE_HEALTHY;
    sensor := {|
      maxAltitudeCm := 0; currentAltitudeCm := 0;
      distanceToHomeCm := f32.zero; distanceToHomeM := f32.zero;
      groundSpeedCmS := 0; directionToHome := 0;
      accMagnitude := f32.zero; healthy := false; errorAngle := f32.zero;
      gpsDataIntervalSeconds := f32.zero; velocityToHomeCmS := f32.zero;
      ascendStepCm := f32.zero; descendStepCm := f32.zero;
      maxPitchStep := f32.zero; filterK := f32.zero; absErrorAngle := f32.zero |};
    intent := {|
      returnAltitudeCm := f32.zero; targetAltitudeCm := f32.zero;
      targetVelocityCmS := 0; pitchAngleLimitDeg := 0; rollAngleLimitDeg := 0;
      updateYaw := false; descentDistanceM := f32.zero; secondsFailing := 0 |};
    isAvailable := false |};
  attain := {|
    previousVelocityError := f32.zero; velocityI := f32.zero;
    previousVelocityD := f32.zero; previousPitchAdjustment := f32.zero;
    previousAltitudeError := f32.zero; throttleI := f32.zero;
    previousThrottleD := f32.zero; previousThrottleDVal := f32.zero;
    previousThrottleD2 := f32.zero; throttleAdjustment := 0 |};
  sanityMem := {|
    sanity.previousTimeUs := 0; sanity.prevAltitudeCm := 0;
    sanity.secondsLowSats := 0; sanity.secondsDoingNothing := 0 |};
  sensorMem := {| previousDataTimeUs := 0; prevDistanceToHomeCm := f32.zero |};
  availableMem := {|
    available.previousTimeUs := 0; available.secondsLowSats := 0;
    available.lowsats := false; available.noGPSfix := false |}
|}.

(** ** The module's functions *)

Section GpsRescue.

(** [gpsRescueConfig()] and the build option [USE_MAG]. *)
Variable cfg : gpsRescueConfig.t.
Variable USE_MAG : bool.

Definition rescueNewGpsData (g : gps_rescue) : gps_rescue :=
  set_newGPSData true g.

Definition rescueStart (g : gps_rescue) : gps_rescue :=
  with_phase RESCUE_INITIALIZE g.

Definition rescueStop (g : gps_rescue) : gps_rescue :=
  with_phase RESCUE_IDLE g.

(** *** idleTasks *)

Definition idle_returnAltitudeCm (d : rescueSensorData_s) : f32.t :=
  let initialAltitudeCm :=
    (f32.of_int (gpsRescueConfig.initialAltitudeM cfg) * f32.of_int 100)%f32 in
  let rescueAltitudeBufferCm :=
    (f32.of_int (gpsRescueConfig.rescueAltitudeBufferM cfg) * f32.of_int 100)%f32 in
  match gpsRescueConfig.altitudeMode cfg with
  | FIXED_ALT => initialAltitudeCm
  | CURRENT_ALT => (f32.of_int (currentAltitudeCm d) + rescueAltitudeBufferCm)%f32
  | MAX_ALT => (f32.of_int (maxAltitudeCm d) + rescueAltitudeBufferCm)%f32
  end.

Definition idleTasks (e : inputs) (g : gps_rescue) : gps_rescue :=
  if negb (ARMING_FLAG_ARMED e) then
    with_sensor (set_maxAltitudeCm 0) g
  else if negb (isAltitudeOffset e) then
    g
  else
    let g1 :=
      with_sensor
        (fun d => set_maxAltitudeCm (MAX (currentAltitudeCm d) (maxAltitudeCm d)) d) g in
    if newGPSData g1 then
      let d := sensor (rescueState g1) in
      with_intent
        (fun i =>
           set_returnAltitudeCm (idle_returnAltitudeCm d)
             (set_descentDistanceM
                (constrainf (distanceToHomeM d)
                   (f32.of_int GPS_RESCUE_MIN_DESCENT_DIST_M)
                   (f32.of_int (gpsRescueConfig.descentDistanceM cfg)))
                (set_targetAltitudeCm (f32.of_int (currentAltitudeCm d)) i)))
        g1
    else
      g1.

(** *** rescueAttainPosition *)

(** The statics as [RESCUE_INITIALIZE] leaves them. *)
Definition attain_reset : attainPosition_statics := {|
  previousVelocityError := f32.zero;
  velocityI := f32.zero;
  previousVelocityD := f32.zero;
  previousPitchAdjustment := f32.zero;
  previousAltitudeError := f32.zero;
  throttleI := f32.zero;
  previousThrottleD := f32.zero;
  previousThrottleDVal := f32.zero;
  previousThrottleD2 := f32.zero;
  throttleAdjustment := 0
|}.

Definition set_outputs (pitch roll throttle : f32.t) (g : gps_rescue) : gps_rescue :=
  {| rescueThrottle := throttle; rescueYaw := rescueYaw g;
     gpsRescueAngle_PITCH := pitch; gpsRescueAngle_ROLL := roll;
     magForceDisable := magForceDisable g; newGPSData := newGPSData g;
     rescueState := rescueState g; attain := attain g; sanityMem := sanityMem g;
     sensorMem := sensorMem g; availableMem := availableMem g |}.

Definition set_attain (v : attainPosition_statics) (g : gps_rescue) : gps_rescue :=
  {| rescueThrottle := rescueThrottle g; rescueYaw := rescueYaw g;
     gpsRescueAngle_PITCH := gpsRescueAngle_PITCH g;
     gpsRescueAngle_ROLL := gpsRescueAngle_ROLL g;
     magForceDisable := magForceDisable g; newGPSData := newGPSData g;
     rescueState := rescueState g; attain := v; sanityMem := sanityMem g;
     sensorMem := sensorMem g; availableMem := availableMem g |}.

(** Heading / yaw controller: the yaw rate before the reversal sign. *)
Definition attain_yawRate (g : gps_rescue) : f32.t :=
  constrainf
    (errorAngle (sensor (rescueState g)) * f32.of_int (gpsRescueConfig.yawP cfg)
     * f32.lit 1 10)%f32
    (f32.of_int (- GPS_RESCUE_MAX_YAW_RATE)) (f32.of_int GPS_RESCUE_MAX_YAW_RATE).

Definition attain_roll (g : gps_rescue) : f32.t :=
  let yaw := attain_yawRate g in
  let limit := rollAngleLimitDeg (intent (rescueState g)) in
  let rollMixAttenuator :=
    constrainf (f32.of_int 1 - ABSf yaw * f32.lit 1 100)%f32 f32.zero (f32.of_int 1) in
  let rollAdjustment :=
    (- yaw * f32.of_int (gpsRescueConfig.rollMix cfg) * rollMixAttenuator)%f32 in
  constrainf rollAdjustment
    (f32.of_int (- limit) * f32.of_int 100)%f32 (f32.of_int limit * f32.of_int 100)%f32.

Definition attain_rescueYaw (e : inputs) (g : gps_rescue) : f32.t :=
  let yaw :=
    (attain_yawRate g * f32.of_int (GET_DIRECTION (yaw_control_reversed e)))%f32 in
  if negb (updateYaw (intent (rescueState g))) then f32.zero else yaw.

Definition sampleIntervalNormaliseFactor (g : gps_rescue) : f32.t :=
  (gpsDataIntervalSeconds (sensor (rescueState g)) * f32.of_int 10)%f32.

Definition attain_velocityError (g : gps_rescue) : f32.t :=
  let sn := sensor (rescueState g) in
  let velocityTargetLimiter :=
    constrainf ((f32.of_int 60 - absErrorAngle sn) / f32.of_int 60)%f32
      f32.zero (f32.of_int 1) in
  (f32.of_int (targetVelocityCmS (intent (rescueState g))) * velocityTargetLimiter
   - velocityToHomeCmS sn)%f32.

(** [velocityI += 0.01f * velI * velocityError * sampleIntervalNormaliseFactor] *)
Definition attain_velocityI_sum (g : gps_rescue) : f32.t :=
  (velocityI (attain g)
   + f32.lit 1 100 * f32.of_int (gpsRescueConfig.velI cfg) * attain_velocityError g
     * sampleIntervalNormaliseFactor g)%f32.

(** [velocityI *= targetVelocityCmS / targetVelocityCmS]: both operands
    are [uint16_t], so the quotient is an integer division. *)
Definition attain_velocityI_attenuated (g : gps_rescue) : result f32.t :=
  let tv := targetVelocityCmS (intent (rescueState g)) in
  q <- int_div tv tv ;;
  Ok (attain_velocityI_sum g * f32.of_int q)%f32.

Definition iterm_limit (max : Z) (x : f32.t) : f32.t :=
  constrainf x (- f32.of_int 1 * f32.of_int max)%f32 (f32.of_int 1 * f32.of_int max)%f32.

Definition attain_altitudeError (g : gps_rescue) : f32.t :=
  ((targetAltitudeCm (intent (rescueState g))
    - f32.of_int (currentAltitudeCm (sensor (rescueState g)))) * f32.lit 1 100)%f32.

Definition attain_throttleI (g : gps_rescue) : f32.t :=
  iterm_limit GPS_RESCUE_MAX_ITERM_THROTTLE
    (throttleI (attain g)
     + f32.lit 1 100 * f32.of_int (gpsRescueConfig.throttleI cfg) * attain_altitudeError g
       * sampleIntervalNormaliseFactor g)%f32.

(** The part of the function below the early returns: one controller update
    on a new GPS sample. *)
Definition attain_update (e : inputs) (g : gps_rescue) : result gps_rescue :=
  let sn := sensor (rescueState g) in
  let it := intent (rescueState g) in
  let st := attain g in
  let k := sampleIntervalNormaliseFactor g in
  (* pitch / velocity controller *)
  let velocityError := attain_velocityError g in
  let velocityP := (velocityError * f32.of_int (gpsRescueConfig.velP cfg))%f32 in
  velocityI_att <- attain_velocityI_attenuated g ;;
  let velocityI' := iterm_limit GPS_RESCUE_MAX_ITERM_VELOCITY velocityI_att in
  let velocityD_raw := ((velocityError - previousVelocityError st) / k)%f32 in
  let velocityD_smooth :=
    (previousVelocityD st + filterK sn * (velocityD_raw - previousVelocityD st))%f32 in
  let velocityD := (velocityD_smooth * f32.of_int (gpsRescueConfig.velD cfg))%f32 in
  let pitchAdjustment := (velocityP + velocityD + velocityI')%f32 in
  let pitchAdjustmentDelta := (pitchAdjustment - previousPitchAdjustment st)%f32 in
  let pitchAdjustment_limited :=
    if (pitchAdjustmentDelta >? maxPitchStep sn)%f32 then
      (previousPitchAdjustment st + maxPitchStep sn)%f32
    else if (pitchAdjustmentDelta <? - maxPitchStep sn)%f32 then
      (previousPitchAdjustment st - maxPitchStep sn)%f32
    else pitchAdjustment in
  let movingAvgPitchAdjustment :=
    (f32.lit 1 2 * (previousPitchAdjustment st + pitchAdjustment_limited))%f32 in
  let pitch :=
    constrainf movingAvgPitchAdjustment
      (f32.of_int (- pitchAngleLimitDeg it) * f32.of_int 100)%f32
      (f32.of_int (pitchAngleLimitDeg it) * f32.of_int 100)%f32 in
  (* altitude (throttle) controller *)
  let altitudeError := attain_altitudeError g in
  let throttleP := (f32.of_int (gpsRescueConfig.throttleP cfg) * altitudeError)%f32 in
  let throttleI' := attain_throttleI g in
  let throttleD_raw := ((altitudeError - previousAltitudeError st) / k)%f32 in
  let throttleDJerk := (f32.of_int 2 * (throttleD_raw - previousThrottleD st))%f32 in
  let throttleD_jerked := (throttleD_raw + throttleDJerk)%f32 in
  let movingAvgAltitudeD := (f32.lit 1 2 * (previousThrottleDVal st + throttleD_jerked))%f32 in
  let throttleD_smooth :=
    (previousThrottleD2 st + filterK sn * (movingAvgAltitudeD - previousThrottleD2 st))%f32 in
  let throttleD :=
    (f32.of_int 10 * f32.of_int (gpsRescueConfig.throttleD cfg) * throttleD_smooth)%f32 in
  let tiltAdjustment :=
    ((f32.of_int 1 - getCosTiltAngle e)
     * f32.of_int (gpsRescueConfig.throttleHover cfg - 1000))%f32 in
  let throttleAdjustment' :=
    float_to_int16 (throttleP + throttleI' + throttleD + tiltAdjustment)%f32 in
  let throttle :=
    constrainf
      (f32.of_int (gpsRescueConfig.throttleHover cfg + throttleAdjustment'))
      (f32.of_int (gpsRescueConfig.throttleMin cfg))
      (f32.of_int (gpsRescueConfig.throttleMax cfg)) in
  Ok {| rescueThrottle := throttle;
        rescueYaw := attain_rescueYaw e g;
        gpsRescueAngle_PITCH := pitch;
        gpsRescueAngle_ROLL := attain_roll g;
        magForceDisable := magForceDisable g;
        newGPSData := newGPSData g;
        rescueState := rescueState g;
        attain := {|
          previousVelocityError := velocityError;
          velocityI := velocityI';
          previousVelocityD := velocityD_smooth;
          previousPitchAdjustment := pitchAdjustment_limited;
          previousAltitudeError := altitudeError;
          throttleI := throttleI';
          previousThrottleD := throttleD_raw;
          previousThrottleDVal := throttleD_jerked;
          previousThrottleD2 := throttleD_smooth;
          throttleAdjustment := throttleAdjustment' |};
        sanityMem := sanityMem g;
        sensorMem := sensorMem g;
        availableMem := availableMem g |}.

Definition rescueAttainPosition (e : inputs) (g : gps_rescue) : result gps_rescue :=
  match phase (rescueState g) with
  | RESCUE_IDLE =>
      Ok (set_outputs f32.zero f32.zero (rcCommand_THROTTLE e) g)
  | RESCUE_INITIALIZE =>
      Ok (set_attain attain_reset g)
  | RESCUE_DO_NOTHING =>
      Ok (set_outputs f32.zero f32.zero
            (f32.of_int (gpsRescueConfig.throttleHover cfg)) g)
  | _ =>
      if negb (newGPSData g) then Ok g else attain_update e g
  end.

(** *** performSanityChecks *)

(** "Handle rescue failures": the phase the policy selects. *)
Definition sanity_policy_phase (hardFailsafe : bool) : rescuePhase_e :=
  match gpsRescueConfig.sanityChecks cfg with
  | RESCUE_SANITY_ON => RESCUE_ABORT
  | RESCUE_SANITY_FS_ONLY => if hardFailsafe then RESCUE_ABORT else RESCUE_DO_NOTHING
  | RESCUE_SANITY_OFF => RESCUE_DO_NOTHING
  end.

Definition sanity_handle_failure (e : inputs) (g : gps_rescue) : gps_rescue :=
  let hardFailsafe := negb (rxIsReceivingSignal e) in
  if negb (failure_is_healthy (failure (rescueState g))) then
    with_phase (sanity_policy_phase hardFailsafe) g
  else g.

Definition sanity_detect (e : inputs) (g : gps_rescue) : gps_rescue :=
  let g1 :=
    if crashRecoveryModeActive e then with_failure RESCUE_CRASH_FLIP_DETECTED g else g in
  if negb (healthy (sensor (rescueState g1))) then with_failure RESCUE_GPSLOST g1 else g1.

(** The stall counter of [RESCUE_FLY_HOME].  The source compares the float
    velocity with the double [0.5 * targetVelocityCmS]; half of a 16-bit
    integer is exact in binary32 too, so the comparison is the same. *)
Definition sanity_flyHome_count (g : gps_rescue) : Z :=
  let it := intent (rescueState g) in
  let stalled :=
    (velocityToHomeCmS (sensor (rescueState g))
     <? f32.lit 1 2 * f32.of_int (targetVelocityCmS it))%f32 in
  to_int8 (constrain (to_int8 (secondsFailing it + (if stalled then 1 else -1))) 0 20).

Definition sanity_flyHome (e : inputs) (g : gps_rescue) : gps_rescue :=
  let g1 := with_intent (set_secondsFailing (sanity_flyHome_count g)) g in
  if secondsFailing (intent (rescueState g1)) =? 20 then
    if USE_MAG && sensors_SENSOR_MAG e && gpsRescueConfig.useMag cfg
       && negb (magForceDisable g1)
    then with_intent (set_secondsFailing 0) (set_magForceDisable true g1)
    else with_failure RESCUE_STALLED g1
  else g1.

(** The climb and descent counters share the slot and the bound of 10. *)
Definition sanity_altitude_count (progress : bool) (g : gps_rescue) : gps_rescue :=
  let sf := secondsFailing (intent (rescueState g)) in
  let g1 :=
    with_intent
      (set_secondsFailing
         (to_int8 (constrain (to_int8 (sf + (if progress then -1 else 1))) 0 10))) g in
  if secondsFailing (intent (rescueState g1)) =? 10 then with_phase RESCUE_ABORT g1 else g1.

Definition set_secondsDoingNothing (v : Z) (m : sanity.statics) : sanity.statics :=
  {| sanity.previousTimeUs := sanity.previousTimeUs m;
     sanity.prevAltitudeCm := sanity.prevAltitudeCm m;
     sanity.secondsLowSats := sanity.secondsLowSats m;
     sanity.secondsDoingNothing := v |}.

Definition set_sanity_previousTimeUs (v : Z) (m : sanity.statics) : sanity.statics :=
  {| sanity.previousTimeUs := v;
     sanity.prevAltitudeCm := sanity.prevAltitudeCm m;
     sanity.secondsLowSats := sanity.secondsLowSats m;
     sanity.secondsDoingNothing := sanity.secondsDoingNothing m |}.

Definition set_prevAltitudeCm (v : Z) (m : sanity.statics) : sanity.statics :=
  {| sanity.previousTimeUs := sanity.previousTimeUs m;
     sanity.prevAltitudeCm := v;
     sanity.secondsLowSats := sanity.secondsLowSats m;
     sanity.secondsDoingNothing := sanity.secondsDoingNothing m |}.

Definition set_sanity_secondsLowSats (v : Z) (m : sanity.statics) : sanity.statics :=
  {| sanity.previousTimeUs := sanity.previousTimeUs m;
     sanity.prevAltitudeCm := sanity.prevAltitudeCm m;
     sanity.secondsLowSats := v;
     sanity.secondsDoingNothing := sanity.secondsDoingNothing m |}.

(** The if / else-if chain on the phase that follows the stall counter. *)
Definition sanity_special (g : gps_rescue) : gps_rescue :=
  let current := currentAltitudeCm (sensor (rescueState g)) in
  let prev := sanity.prevAltitudeCm (sanityMem g) in
  match phase (rescueState g) with
  | RESCUE_ATTAIN_ALT =>
      sanity_altitude_count
        (f32.of_int (to_int32 (current - prev))
         >? f32.lit 1 2 * f32.of_int (gpsRescueConfig.ascendRate cfg))%f32 g
  | RESCUE_LANDING | RESCUE_DESCENT =>
      sanity_altitude_count
        (f32.of_int (to_int32 (prev - current))
         >? f32.lit 1 2 * f32.of_int (gpsRescueConfig.descendRate cfg))%f32 g
  | RESCUE_DO_NOTHING =>
      let n := to_int8 (MIN (sanity.secondsDoingNothing (sanityMem g) + 1) 10) in
      let g1 := set_sanityMem (set_secondsDoingNothing n (sanityMem g)) g in
      if n =? 10 then with_phase RESCUE_ABORT g1 else g1
  | _ => g
  end.

Definition sanity_lowSats_count (e : inputs) (g : gps_rescue) : Z :=
  let n0 :=
    to_int8 (sanity.secondsLowSats (sanityMem g)
             + (if gpsSol_numSat e <? gpsMinimumSats e then 1 else -1)) in
  to_int8 (constrain n0 0 10).

Definition sanity_lowSats (e : inputs) (g : gps_rescue) : gps_rescue :=
  let n := sanity_lowSats_count e g in
  let g1 := set_sanityMem (set_sanity_secondsLowSats n (sanityMem g)) g in
  if n =? 10 then with_failure RESCUE_LOWSATS g1 else g1.

(** The part that runs once a second. *)
Definition sanity_1hz (currentTimeUs : Z) (e : inputs) (g : gps_rescue) : gps_rescue :=
  let g1 := set_sanityMem (set_sanity_previousTimeUs currentTimeUs (sanityMem g)) g in
  let g2 :=
    match phase (rescueState g1) with
    | RESCUE_FLY_HOME => sanity_flyHome e g1
    | _ => g1
    end in
  let g3 := sanity_special g2 in
  let g4 :=
    set_sanityMem
      (set_prevAltitudeCm (currentAltitudeCm (sensor (rescueState g3))) (sanityMem g3)) g3 in
  sanity_lowSats e g4.

(** [currentTimeUs] is the value [micros()] returns at the call. *)
Definition performSanityChecks (currentTimeUs : Z) (e : inputs) (g : gps_rescue)
  : gps_rescue :=
  match phase (rescueState g) with
  | RESCUE_IDLE => with_failure RESCUE_HEALTHY g
  | RESCUE_INITIALIZE =>
      set_sanityMem
        {| sanity.previousTimeUs := currentTimeUs;
           sanity.prevAltitudeCm := currentAltitudeCm (sensor (rescueState g));
           sanity.secondsLowSats := 5;
           sanity.secondsDoingNothing := 0 |} g
  | _ =>
      let g1 := sanity_detect e (sanity_handle_failure e g) in
      let dTime := cmpTimeUs currentTimeUs (sanity.previousTimeUs (sanityMem g1)) in
      if dTime <? 1000000 then g1 else sanity_1hz currentTimeUs e g1
  end.

(** *** sensorUpdate *)

Definition normalised_errorAngle (e : inputs) : f32.t :=
  let a := (f32.of_int (attitude_yaw e - GPS_directionToHome e) * f32.lit 1 10)%f32 in
  if (a <=? f32.of_int (-180))%f32 then (a + f32.of_int 360)%f32
  else if (a >? f32.of_int 180)%f32 then (a - f32.of_int 360)%f32
  else a.

Definition landing_accMagnitude (e : inputs) : f32.t :=
  (f32.sqrt (sq (accADC_Z e) + sq (accADC_X e) + sq (accADC_Y e)) * acc_1G_rec e)%f32.

Definition sensorUpdate (e : inputs) (g : gps_rescue) : gps_rescue :=
  let rs := rescueState g in
  let d := sensor rs in
  let acc :=
    match phase rs with
    | RESCUE_LANDING => landing_accMagnitude e
    | _ => accMagnitude d
    end in
  if negb (newGPSData g) then
    set_rescueState
      (set_sensor
         {| maxAltitudeCm := maxAltitudeCm d;
            currentAltitudeCm := getEstimatedAltitudeCm e;
            distanceToHomeCm := distanceToHomeCm d;
            distanceToHomeM := distanceToHomeM d;
            groundSpeedCmS := groundSpeedCmS d;
            directionToHome := directionToHome d;
            accMagnitude := acc;
            healthy := gpsIsHealthy e;
            errorAngle := errorAngle d;
            gpsDataIntervalSeconds := gpsDataIntervalSeconds d;
            velocityToHomeCmS := velocityToHomeCmS d;
            ascendStepCm := ascendStepCm d;
            descendStepCm := descendStepCm d;
            maxPitchStep := maxPitchStep d;
            filterK := filterK d;
            absErrorAngle := absErrorAngle d |} rs) g
  else
    let distCm := f32.of_int (GPS_distanceToHomeCm e) in
    let err := normalised_errorAngle e in
    let currentTimeUs := micros_sensor e in
    let gpsDataIntervalUs := cmpTimeUs currentTimeUs (previousDataTimeUs (sensorMem g)) in
    let interval :=
      constrainf (f32.of_int gpsDataIntervalUs * f32.lit 1 1000000)%f32
        (f32.lit 1 100) (f32.of_int 1) in
    set_sensorMem
      {| previousDataTimeUs := currentTimeUs; prevDistanceToHomeCm := distCm |}
      (set_rescueState
         (set_sensor
            {| maxAltitudeCm := maxAltitudeCm d;
               currentAltitudeCm := getEstimatedAltitudeCm e;
               distanceToHomeCm := distCm;
               distanceToHomeM := (distCm / f32.of_int 100)%f32;
               groundSpeedCmS := gpsSol_groundSpeed e;
               directionToHome := GPS_directionToHome e;
               accMagnitude := acc;
               healthy := gpsIsHealthy e;
               errorAngle := err;
               gpsDataIntervalSeconds := interval;
               velocityToHomeCmS :=
                 ((prevDistanceToHomeCm (sensorMem g) - distCm) / interval)%f32;
               ascendStepCm :=
                 (interval * f32.of_int (gpsRescueConfig.ascendRate cfg))%f32;
               descendStepCm :=
                 (interval * f32.of_int (gpsRescueConfig.descendRate cfg))%f32;
               maxPitchStep := (interval * f32.of_int GPS_RESCUE_MAX_PITCH_RATE)%f32;
               filterK := pt1FilterGain (f32.lit 8 10) interval;
               absErrorAngle := f32.fabsf err |} rs) g).

(** *** checkGPSRescueIsAvailable *)

Definition checkGPSRescueIsAvailable (e : inputs) (g : gps_rescue) : bool * gps_rescue :=
  let m := availableMem g in
  if negb (gpsIsHealthy e) || negb (STATE_GPS_FIX_HOME e) then (false, g)
  else
    let currentTimeUs := micros_available e in
    let dTime := cmpTimeUs currentTimeUs (available.previousTimeUs m) in
    if dTime <? 1000000 then
      (negb (available.noGPSfix m || available.lowsats m), g)
    else
      let noFix := negb (STATE_GPS_FIX e) in
      let n :=
        to_int8
          (constrain
             (available.secondsLowSats m
              + (if gpsSol_numSat e <? gpsMinimumSats e then 1 else -1)) 0 2) in
      let low := n =? 2 in
      (negb noFix && negb low,
       set_availableMem
         {| available.previousTimeUs := currentTimeUs;
            available.secondsLowSats := n;
            available.lowsats := low;
            available.noGPSfix := noFix |} g).

(** *** updateGPSRescueState *)

(** The [switch] on the phase.  [halfAngle] and [startedLow] are the two
    locals declared just before it; the result carries the final value of
    [startedLow] and the calls made. *)
Definition rescuePhaseSwitch (e : inputs) (halfAngle : Z) (startedLow : bool)
  (g : gps_rescue) : gps_rescue * bool * list call :=
  let rs := rescueState g in
  let sn := sensor rs in
  let it := intent rs in
  match phase rs with
  | RESCUE_IDLE => (idleTasks e g, startedLow, [])

  | RESCUE_INITIALIZE =>
      if negb (STATE_GPS_FIX_HOME e) then
        (with_failure RESCUE_NO_HOME_POINT g, startedLow, [])
      else if (distanceToHomeM sn <? f32.of_int (gpsRescueConfig.minRescueDth cfg))%f32 then
        (with_phase RESCUE_LANDING
           (with_intent
              (set_targetAltitudeCm
                 (f32.of_int (currentAltitudeCm sn) - descendStepCm sn)%f32) g),
         startedLow, [])
      else
        (with_intent
           (fun i =>
              set_rollAngleLimitDeg 0
                (set_pitchAngleLimitDeg halfAngle
                   (set_targetVelocityCmS 0
                      (set_updateYaw true (set_secondsFailing 0 i)))))
           (with_phase RESCUE_ATTAIN_ALT g),
         (f32.of_int (currentAltitudeCm sn) <=? returnAltitudeCm it)%f32, [])

  | RESCUE_ATTAIN_ALT =>
      if newGPSData g then
        if startedLow then
          if (targetAltitudeCm it <? returnAltitudeCm it)%f32 then
            (with_intent
               (set_targetAltitudeCm (targetAltitudeCm it + ascendStepCm sn)%f32) g,
             startedLow, [])
          else if (f32.of_int (currentAltitudeCm sn) >? returnAltitudeCm it)%f32 then
            (with_phase RESCUE_ROTATE
               (with_intent (set_targetAltitudeCm (returnAltitudeCm it)) g),
             startedLow, [])
          else (g, startedLow, [])
        else
          if (targetAltitudeCm it >? returnAltitudeCm it)%f32 then
            (with_intent
               (set_targetAltitudeCm (targetAltitudeCm it - descendStepCm sn)%f32) g,
             startedLow, [])
          else if (f32.of_int (currentAltitudeCm sn) <? returnAltitudeCm it)%f32 then
            (with_phase RESCUE_ROTATE
               (with_intent (set_targetAltitudeCm (returnAltitudeCm it)) g),
             startedLow, [])
          else (g, startedLow, [])
      else (g, startedLow, [])

  | RESCUE_ROTATE =>
      if newGPSData g && (absErrorAngle sn <? f32.of_int 60)%f32 then
        let g1 :=
          with_intent
            (fun i =>
               set_pitchAngleLimitDeg (to_uint8 (gpsRescueConfig.angle cfg))
                 (set_targetVelocityCmS (gpsRescueConfig.rescueGroundspeed cfg) i)) g in
        if (absErrorAngle sn <? f32.of_int 15)%f32 then
          (with_intent
             (fun i =>
                set_rollAngleLimitDeg (to_int8 (gpsRescueConfig.angle cfg))
                  (set_secondsFailing 0 i))
             (with_phase RESCUE_FLY_HOME g1),
           startedLow, [])
        else (g1, startedLow, [])
      else (g, startedLow, [])

  | RESCUE_FLY_HOME =>
      if newGPSData g && (distanceToHomeM sn <=? descentDistanceM it)%f32 then
        (with_intent (set_secondsFailing 0) (with_phase RESCUE_DESCENT g),
         startedLow, [])
      else (g, startedLow, [])

  | RESCUE_DESCENT =>
      if newGPSData g then
        let targetLandingAltitudeCm :=
          float_to_int32
            (f32.of_int 100 * f32.of_int (gpsRescueConfig.targetLandingAltitudeM cfg))%f32 in
        if currentAltitudeCm sn <? targetLandingAltitudeCm then
          (with_intent
             (fun i =>
                set_rollAngleLimitDeg 0
                  (set_pitchAngleLimitDeg halfAngle
                     (set_targetVelocityCmS 0
                        (set_secondsFailing 0
                           (set_targetAltitudeCm
                              (targetAltitudeCm i - descendStepCm sn)%f32 i)))))
             (with_phase RESCUE_LANDING g),
           startedLow, [])
        else
          let distanceToLandingAreaM :=
            MAXf (distanceToHomeM sn - f32.of_int 2)%f32 f32.zero in
          let proximityToLandingArea :=
            constrainf (distanceToLandingAreaM / descentDistanceM it)%f32
              f32.zero (f32.of_int 1) in
          (with_intent
             (fun i =>
                set_rollAngleLimitDeg
                  (float_to_int8
                     (f32.of_int (gpsRescueConfig.angle cfg) * proximityToLandingArea)%f32)
                  (set_targetVelocityCmS
                     (float_to_uint16
                        (f32.of_int (gpsRescueConfig.rescueGroundspeed cfg)
                         * proximityToLandingArea)%f32)
                     (set_targetAltitudeCm
                        (targetAltitudeCm i
                         - descendStepCm sn * (f32.of_int 1 + proximityToLandingArea))%f32
                        i)))
             g,
           startedLow, [])
      else (g, startedLow, [])

  | RESCUE_LANDING =>
      let g1 :=
        if newGPSData g then
          with_intent
            (fun i => set_targetAltitudeCm (targetAltitudeCm i - descendStepCm sn)%f32 i) g
        else g in
      if (accMagnitude sn >? f32.of_int 2)%f32 then
        (with_phase RESCUE_COMPLETE g1, startedLow,
         [setArmingDisabled_ARM_SWITCH; disarm_GPS_RESCUE])
      else (g1, startedLow, [])

  | RESCUE_COMPLETE => (rescueStop g, startedLow, [])

  | RESCUE_ABORT =>
      (rescueStop g, startedLow, [setArmingDisabled_ARM_SWITCH; disarm_GPS_RESCUE])

  | RESCUE_DO_NOTHING => (g, startedLow, [])
  end.

(** The first statement: leave or enter a rescue. *)
Definition rescueEnter (e : inputs) (g : gps_rescue) : result gps_rescue :=
  if negb (FLIGHT_MODE_GPS_RESCUE e) then
    Ok (rescueStop g)
  else if FLIGHT_MODE_GPS_RESCUE e && phase_eqb (phase (rescueState g)) RESCUE_IDLE then
    g1 <- rescueAttainPosition e (rescueStart g) ;;
    Ok (performSanityChecks (micros_start e) e g1)
  else
    Ok g.

(** Sensors, availability and the phase switch. *)
Definition rescueAdvance (e : inputs) (g : gps_rescue) : gps_rescue * list call :=
  let g1 := sensorUpdate e g in
  let halfAngle := to_uint8 (gpsRescueConfig.angle cfg / 2) in
  let startedLow := true in
  let '(available, g2) := checkGPSRescueIsAvailable e g1 in
  let g3 := set_rescueState (set_isAvailable available (rescueState g2)) g2 in
  let '(g4, _, calls) := rescuePhaseSwitch e halfAngle startedLow g3 in
  (g4, calls).

(** The tick up to and including the watchdog: everything that precedes the
    final call of the controller. *)
Definition rescueUpToController (e : inputs) (g : gps_rescue)
  : result (gps_rescue * list call) :=
  g0 <- rescueEnter e g ;;
  let '(g1, calls) := rescueAdvance e g0 in
  Ok (performSanityChecks (micros_sanity e) e g1, calls).

Definition updateGPSRescueState (e : inputs) (g : gps_rescue)
  : result (gps_rescue * list call) :=
  r <- rescueUpToController e g ;;
  g3 <- rescueAttainPosition e (fst r) ;;
  Ok (set_newGPSData false g3, snd r).

(** *** Accessors *)

Definition gpsRescueGetYawRate (g : gps_rescue) : f32.t := rescueYaw g.

Definition gpsRescueIsAvailable (g : gps_rescue) : bool :=
  isAvailable (rescueState g).

Definition gpsRescueIsDisabled (e : inputs) : bool := negb (STATE_GPS_FIX_HOME e).

(** Compiled only with [USE_MAG]. *)
Definition gpsRescueDisableMag (g : gps_rescue) : bool :=
  (negb (gpsRescueConfig.useMag cfg) || magForceDisable g)
  && (rescuePhase_index (phase (rescueState g)) >=? rescuePhase_index RESCUE_INITIALIZE)
  && (rescuePhase_index (phase (rescueState g)) <=? rescuePhase_index RESCUE_LANDING).

End GpsRescue.

(** A run of the module: before each tick the GPS driver may have called
    [rescueNewGpsData]. *)
Record tick_input : Type := {
  gps_sample : bool;
  readings : inputs
}.

Definition tick (cfg : gpsRescueConfig.t) (USE_MAG : bool) (i : tick_input)
  (g : gps_rescue) : result (gps_rescue * list call) :=
  updateGPSRescueState cfg USE_MAG (readings i)
    (if gps_sample i then rescueNewGpsData g else g).

Fixpoint run (cfg : gpsRescueConfig.t) (USE_MAG : bool) (ticks : list tick_input)
  (g : gps_rescue) : result (gps_rescue * list call) :=
  match ticks with
  | [] => Ok (g, [])
  | i :: rest =>
      r <- tick cfg USE_MAG i g ;;
      r' <- run cfg USE_MAG rest (fst r) ;;
      Ok (fst r', snd r ++ snd r')
  end.

(** ** Concrete configurations, readings and states

    The flights the properties below are run on. *)

Definition set_altitudeMode (m : altitudeMode_e) (c : gpsRescueConfig.t)
  : gpsRescueConfig.t := {|
  gpsRescueConfig.angle := gpsRescueConfig.angle c;
  gpsRescueConfig.initialAltitudeM := gpsRescueConfig.initialAltitudeM c;
  gpsRescueConfig.descentDistanceM := gpsRescueConfig.descentDistanceM c;
  gpsRescueConfig.rescueGroundspeed := gpsRescueConfig.rescueGroundspeed c;
  gpsRescueConfig.throttleP := gpsRescueConfig.throttleP c;
  gpsRescueConfig.throttleI := gpsRescueConfig.throttleI c;
  gpsRescueConfig.throttleD := gpsRescueConfig.throttleD c;
  gpsRescueConfig.velP := gpsRescueConfig.velP c;
  gpsRescueConfig.velI := gpsRescueConfig.velI c;
  gpsRescueConfig.velD := gpsRescueConfig.velD c;
  gpsRescueConfig.yawP := gpsRescueConfig.yawP c;
  gpsRescueConfig.throttleMin := gpsRescueConfig.throttleMin c;
  gpsRescueConfig.throttleMax := gpsRescueConfig.throttleMax c;
  gpsRescueConfig.throttleHover := gpsRescueConfig.throttleHover c;
  gpsRescueConfig.sanityChecks := gpsRescueConfig.sanityChecks c;
  gpsRescueConfig.minRescueDth := gpsRescueConfig.minRescueDth c;
  gpsRescueConfig.allowArmingWithoutFix := gpsRescueConfig.allowArmingWithoutFix c;
  gpsRescueConfig.useMag := gpsRescueConfig.useMag c;
  gpsRescueConfig.targetLandingAltitudeM := gpsRescueConfig.targetLandingAltitudeM c;
  gpsRescueConfig.altitudeMode := m;
  gpsRescueConfig.ascendRate := gpsRescueConfig.ascendRate c;
  gpsRescueConfig.descendRate := gpsRescueConfig.descendRate c;
  gpsRescueConfig.rescueAltitudeBufferM := gpsRescueConfig.rescueAltitudeBufferM c;
  gpsRescueConfig.rollMix := gpsRescueConfig.rollMix c
|}.

Definition set_sanityChecks (v : gpsRescueSanity_e) (c : gpsRescueConfig.t)
  : gpsRescueConfig.t := {|
  gpsRescueConfig.angle := gpsRescueConfig.angle c;
  gpsRescueConfig.initialAltitudeM := gpsRescueConfig.initialAltitudeM c;
  gpsRescueConfig.descentDistanceM := gpsRescueConfig.descentDistanceM c;
  gpsRescueConfig.rescueGroundspeed := gpsRescueConfig.rescueGroundspeed c;
  gpsRescueConfig.throttleP := gpsRescueConfig.throttleP c;
  gpsRescueConfig.throttleI := gpsRescueConfig.throttleI c;
  gpsRescueConfig.throttleD := gpsRescueConfig.throttleD c;
  gpsRescueConfig.velP := gpsRescueConfig.velP c;
  gpsRescueConfig.velI := gpsRescueConfig.velI c;
  gpsRescueConfig.velD := gpsRescueConfig.velD c;
  gpsRescueConfig.yawP := gpsRescueConfig.yawP c;
  gpsRescueConfig.throttleMin := gpsRescueConfig.throttleMin c;
  gpsRescueConfig.throttleMax := gpsRescueConfig.throttleMax c;
  gpsRescueConfig.throttleHover := gpsRescueConfig.throttleHover c;
  gpsRescueConfig.sanityChecks := v;
  gpsRescueConfig.minRescueDth := gpsRescueConfig.minRescueDth c;
  gpsRescueConfig.allowArmingWithoutFix := gpsRescueConfig.allowArmingWithoutFix c;
  gpsRescueConfig.useMag := gpsRescueConfig.useMag c;
  gpsRescueConfig.targetLandingAltitudeM := gpsRescueConfig.targetLandingAltitudeM c;
  gpsRescueConfig.altitudeMode := gpsRescueConfig.altitudeMode c;
  gpsRescueConfig.ascendRate := gpsRescueConfig.ascendRate c;
  gpsRescueConfig.descendRate := gpsRescueConfig.descendRate c;
  gpsRescueConfig.rescueAltitudeBufferM := gpsRescueConfig.rescueAltitudeBufferM c;
  gpsRescueConfig.rollMix := gpsRescueConfig.rollMix c
|}.

(** The defaults, on a build with magnetometer support. *)
Definition default_config : gpsRescueConfig.t := gpsRescueConfig_reset true.

(** Readings of an armed craft with a home point, a GPS fix, a live radio
    link and level attitude, home due north: the rescue switch, the health
    of the GPS receiver, the heading (degrees * 10), the vertical
    accelerometer reading (2048 per g), the estimated altitude, the
    distance to home and the clock vary. *)
Definition flight_readings (rescueMode gpsHealthy : bool)
  (yaw accZ altitudeCm distanceCm nowUs : Z) : inputs := {|
  FLIGHT_MODE_GPS_RESCUE := rescueMode;
  ARMING_FLAG_ARMED := true;
  isAltitudeOffset := true;
  STATE_GPS_FIX_HOME := true;
  STATE_GPS_FIX := true;
  rxIsReceivingSignal := true;
  crashRecoveryModeActive := false;
  sensors_SENSOR_MAG := true;
  yaw_control_reversed := false;
  rcCommand_THROTTLE := f32.of_int 1000;
  getEstimatedAltitudeCm := altitudeCm;
  gpsIsHealthy := gpsHealthy;
  accADC_X := f32.zero;
  accADC_Y := f32.zero;
  accADC_Z := f32.of_int accZ;
  acc_1G_rec := f32.lit 1 2048;
  GPS_distanceToHomeCm := distanceCm;
  gpsSol_groundSpeed := 0;
  gpsSol_numSat := 12;
  gpsMinimumSats := 8;
  GPS_directionToHome := 0;
  attitude_yaw := yaw;
  getCosTiltAngle := f32.of_int 1;
  micros_start := nowUs;
  micros_sensor := nowUs;
  micros_available := nowUs;
  micros_sanity := nowUs
|}.

(** The same with a healthy GPS, pointing at home, at rest. *)
Definition readings_at (rescueMode : bool) (altitudeCm distanceCm nowUs : Z) : inputs :=
  flight_readings rescueMode true 0 2048 altitudeCm distanceCm nowUs.

Definition tick_at (sample rescueMode : bool) (altitudeCm distanceCm nowUs : Z)
  : tick_input :=
  {| gps_sample := sample; readings := readings_at rescueMode altitudeCm distanceCm nowUs |}.

(** A craft cruising at 50 m, 200 m from home, with the return altitude
    fixed at 30 m: one GPS sample while idle, then the rescue switch. *)
Definition fixed_alt_config : gpsRescueConfig.t := set_altitudeMode FIXED_ALT default_config.

Definition high_start : list tick_input :=
  [ tick_at true false 5000 20000 100000;
    tick_at false true 5000 20000 110000 ].

(** A craft flying home at the default ground speed: the state is the
    idle state after one GPS sample, put into [RESCUE_FLY_HOME] with the
    intent that [RESCUE_ROTATE] leaves, and a new GPS sample has arrived. *)
Definition after_idle_sample : gps_rescue :=
  match run default_config true [tick_at true false 3500 20000 100000] gps_rescue_init with
  | Ok (g, _) => g
  | Undefined _ => gps_rescue_init
  end.

(** 2 m/s towards home, 1 m below the target altitude, 30 degrees off the
    bearing to home. *)
Definition fly_home_readings : inputs :=
  flight_readings true true 300 2048 3400 19980 200000.

Definition fly_home_state : gps_rescue :=
  sensorUpdate default_config fly_home_readings
    (rescueNewGpsData
       (with_phase RESCUE_FLY_HOME
          (with_intent
             (fun i =>
                set_rollAngleLimitDeg 32
                  (set_pitchAngleLimitDeg 32
                     (set_targetVelocityCmS 500 (set_updateYaw true i))))
             after_idle_sample))).

(** The same flight with sanity checks on, 10 ms later, when the GPS
    driver reports the receiver lost: the state the watchdog sees. *)
Definition sanity_on_config : gpsRescueConfig.t :=
  set_sanityChecks RESCUE_SANITY_ON default_config.

Definition gps_lost_readings : inputs :=
  flight_readings true false 0 2048 3400 19980 210000.

Definition gps_lost_state : gps_rescue :=
  sensorUpdate sanity_on_config gps_lost_readings
    (set_newGPSData false fly_home_state).

(** The other two settings of the sanity checks (the default is
    failsafe-only), the readings 10 ms later with the radio link lost as
    well, and two passes of the watchdog over the lost receiver. *)
Definition sanity_off_config : gpsRescueConfig.t :=
  set_sanityChecks RESCUE_SANITY_OFF default_config.

Definition link_lost_readings : inputs := {|
  FLIGHT_MODE_GPS_RESCUE := true;
  ARMING_FLAG_ARMED := true;
  isAltitudeOffset := true;
  STATE_GPS_FIX_HOME := true;
  STATE_GPS_FIX := true;
  rxIsReceivingSignal := false;
  crashRecoveryModeActive := false;
  sensors_SENSOR_MAG := true;
  yaw_control_reversed := false;
  rcCommand_THROTTLE := f32.of_int 1000;
  getEstimatedAltitudeCm := 3400;
  gpsIsHealthy := false;
  accADC_X := f32.zero;
  accADC_Y := f32.zero;
  accADC_Z := f32.of_int 2048;
  acc_1G_rec := f32.lit 1 2048;
  GPS_distanceToHomeCm := 19980;
  gpsSol_groundSpeed := 0;
  gpsSol_numSat := 12;
  gpsMinimumSats := 8;
  GPS_directionToHome := 0;
  attitude_yaw := 0;
  getCosTiltAngle := f32.of_int 1;
  micros_start := 220000;
  micros_sensor := 220000;
  micros_available := 220000;
  micros_sanity := 220000
|}.

Definition two_passes (cfg : gpsRescueConfig.t) (e2 : inputs) : gps_rescue :=
  performSanityChecks cfg true 220000 e2
    (performSanityChecks cfg true 210000 gps_lost_readings gps_lost_state).

(** The flight a little later, in [RESCUE_DESCENT]. *)
Definition descent_state : gps_rescue :=
  rescueNewGpsData (with_phase RESCUE_DESCENT fly_home_state).

Definition descent_readings : inputs := readings_at true 3400 19900 300000.

(** A rescue switched on 200 m from home at 10 m, with the defaults: one
    GPS sample while idle, then the rescue switch. *)
Definition rescue_start : list tick_input :=
  [ tick_at true false 1000 20000 100000;
    tick_at false true 1000 20000 110000 ].

(** The end of the flight: [RESCUE_LANDING] 5 m from home with the target
    velocity at zero, and a tick without a GPS sample on which the
    accelerometer reads 3 g. *)
Definition landing_state : gps_rescue :=
  set_newGPSData false
    (with_phase RESCUE_LANDING
       (with_intent
          (fun i =>
             set_rollAngleLimitDeg 0
               (set_pitchAngleLimitDeg 16 (set_targetVelocityCmS 0 i)))
          fly_home_state)).

Definition impact_readings : inputs :=
  flight_readings true true 0 6144 10 500 310000.

(** The flight home after 19 seconds of too little progress (2 m/s against
    a target of 5 m/s), at the next once-a-second evaluation. *)
Definition stalled_state : gps_rescue :=
  set_newGPSData false (with_intent (set_secondsFailing 19) fly_home_state).

Definition stalled_readings : inputs := readings_at true 3400 19980 1200000.

(** A rescue that cannot climb: after the start of [rescue_start] the
    altitude stays at 10 m for nine once-a-second watchdog evaluations (no
    GPS sample is processed meanwhile).  The pilot then switches the rescue
    off, flies to 10 m from home, where an idle GPS sample is taken, and
    switches it on again. *)
Definition climb_stuck : list tick_input :=
  rescue_start
  ++ [ tick_at false true 1000 20000 1200000;
       tick_at false true 1000 20000 2200000;
       tick_at false true 1000 20000 3200000;
       tick_at false true 1000 20000 4200000;
       tick_at false true 1000 20000 5200000;
       tick_at false true 1000 20000 6200000;
       tick_at false true 1000 20000 7200000;
       tick_at false true 1000 20000 8200000;
       tick_at false true 1000 20000 9200000 ].

Definition restart_close_to_home : list tick_input :=
  [ tick_at true false 1000 1000 9300000;
    tick_at false true 1000 1000 9400000 ].

(** The state after the watchdog pass that gave up the magnetometer. *)
Definition mag_given_up_state : gps_rescue :=
  performSanityChecks default_config true 1200000 stalled_readings stalled_state.

(** ** Vocabulary of the properties *)

Section Vocabulary.

Variable cfg : gpsRescueConfig.t.
Variable USE_MAG : bool.

(** The state the first statement leaves: idle when the mode flag is off, a
    freshly initialised rescue when the flag is on and the module was idle,
    the old state otherwise. *)
Definition entered (e : inputs) (g : gps_rescue) : gps_rescue :=
  if negb (FLIGHT_MODE_GPS_RESCUE e) then rescueStop g
  else if phase_eqb (phase (rescueState g)) RESCUE_IDLE then
    performSanityChecks cfg USE_MAG (micros_start e) e
      (set_attain attain_reset (rescueStart g))
  else g.

(** The phase the [switch] of the tick dispatches on. *)
Definition dispatched_phase (e : inputs) (g : gps_rescue) : rescuePhase_e :=
  if negb (FLIGHT_MODE_GPS_RESCUE e) then RESCUE_IDLE
  else match phase (rescueState g) with
       | RESCUE_IDLE => RESCUE_INITIALIZE
       | p => p
       end.

(** The state the [switch] of a tick runs on. *)
Definition sensed (e : inputs) (g : gps_rescue) : gps_rescue :=
  let g1 := sensorUpdate cfg e (entered e g) in
  let r := checkGPSRescueIsAvailable e g1 in
  set_rescueState (set_isAvailable (fst r) (rescueState (snd r))) (snd r).

(** The watchdog never touches the altitude targets, the sensor data, the
    controller or the GPS flag. *)
Definition watchdog_frame (g g' : gps_rescue) : Prop :=
  targetAltitudeCm (intent (rescueState g')) = targetAltitudeCm (intent (rescueState g))
  /\ returnAltitudeCm (intent (rescueState g')) = returnAltitudeCm (intent (rescueState g))
  /\ targetVelocityCmS (intent (rescueState g')) = targetVelocityCmS (intent (rescueState g))
  /\ sensor (rescueState g') = sensor (rescueState g)
  /\ newGPSData g' = newGPSData g
  /\ attain g' = attain g
  /\ rescueThrottle g' = rescueThrottle g
  /\ rescueYaw g' = rescueYaw g.

(** The controller's outputs and statics, and the flag that gates it. *)
Definition controller_frame (g g' : gps_rescue) : Prop :=
  newGPSData g' = newGPSData g
  /\ attain g' = attain g
  /\ rescueThrottle g' = rescueThrottle g
  /\ rescueYaw g' = rescueYaw g.

(** What the once-a-second part can do to the phase and to the failure:
    abort, and report a stall or low satellites. *)
Definition watchdog_1hz_effect (g g' : gps_rescue) : Prop :=
  (phase (rescueState g') = phase (rescueState g)
   \/ phase (rescueState g') = RESCUE_ABORT)
  /\ (failure (rescueState g') = failure (rescueState g)
      \/ failure (rescueState g') = RESCUE_STALLED
      \/ failure (rescueState g') = RESCUE_LOWSATS).

(** The pass outside [RESCUE_IDLE] and [RESCUE_INITIALIZE]. *)
Definition active_phase (p : rescuePhase_e) : Prop :=
  p <> RESCUE_IDLE /\ p <> RESCUE_INITIALIZE.

Definition yaw_bound (x : f32.t) : Prop :=
  f32.nan_or_in_range (f32.of_int (- GPS_RESCUE_MAX_YAW_RATE))
    (f32.of_int GPS_RESCUE_MAX_YAW_RATE) x.

Definition velocityI_bound (x : f32.t) : Prop :=
  f32.nan_or_in_range (f32.of_int (- GPS_RESCUE_MAX_ITERM_VELOCITY))
    (f32.of_int GPS_RESCUE_MAX_ITERM_VELOCITY) x.

Definition throttleI_bound (x : f32.t) : Prop :=
  f32.nan_or_in_range (f32.of_int (- GPS_RESCUE_MAX_ITERM_THROTTLE))
    (f32.of_int GPS_RESCUE_MAX_ITERM_THROTTLE) x.

Definition throttle_in_limits (x : f32.t) : Prop :=
  f32.in_range (f32.of_int (gpsRescueConfig.throttleMin cfg))
    (f32.of_int (gpsRescueConfig.throttleMax cfg)) x = true.

(** The proximity factor of [RESCUE_DESCENT]. *)
Definition proximityToLandingArea (g : gps_rescue) : f32.t :=
  constrainf
    (MAXf (distanceToHomeM (sensor (rescueState g)) - f32.of_int 2)%f32 f32.zero
     / descentDistanceM (intent (rescueState g)))%f32
    f32.zero (f32.of_int 1).



(** One more second without half the target velocity towards home. *)
Definition fly_home_stalled (g : gps_rescue) : bool :=
  (velocityToHomeCmS (sensor (rescueState g))
   <? f32.lit 1 2 * f32.of_int (targetVelocityCmS (intent (rescueState g))))%f32.

(** The magnetometer can still be given up: it is compiled in, present,
    configured and not yet force-disabled. *)
Definition mag_in_use (e : inputs) (g : gps_rescue) : bool :=
  USE_MAG && sensors_SENSOR_MAG e && gpsRescueConfig.useMag cfg
  && negb (magForceDisable g).

End Vocabulary.

(** ** More flights *)

(** The flight home interrupted: the policy has put the rescue into
    [RESCUE_DO_NOTHING], where it has hovered for nine watchdog seconds. *)
Definition hovering_state : gps_rescue :=
  set_sanityMem
    (set_secondsDoingNothing 9 (sanityMem fly_home_state))
    (with_phase RESCUE_DO_NOTHING (set_newGPSData false fly_home_state)).

(** The rescue of [rescue_start] under way: [RESCUE_ATTAIN_ALT] at 10 m,
    and the readings one second later, still at 10 m. *)
Definition climbing_state : gps_rescue :=
  match run default_config true rescue_start gps_rescue_init with
  | Ok (g, _) => g
  | Undefined _ => gps_rescue_init
  end.

Definition no_climb_readings : inputs := readings_at true 1000 20000 1200000.

(** The flight home with a failure on record. *)
Definition failed_state : gps_rescue :=
  with_failure RESCUE_GPSLOST (set_newGPSData false fly_home_state).

(** A rescue that has been aborted, before the tick that disarms. *)
Definition aborted_state : gps_rescue :=
  with_phase RESCUE_ABORT (set_newGPSData false fly_home_state).

(** An armed craft that has never had a home point, with the rescue
    switch on. *)
Definition homeless_readings (nowUs : Z) : inputs := {|
  FLIGHT_MODE_GPS_RESCUE := true;
  ARMING_FLAG_ARMED := true;
  isAltitudeOffset := true;
  STATE_GPS_FIX_HOME := false;
  STATE_GPS_FIX := true;
  rxIsReceivingSignal := true;
  crashRecoveryModeActive := false;
  sensors_SENSOR_MAG := true;
  yaw_control_reversed := false;
  rcCommand_THROTTLE := f32.of_int 1000;
  getEstimatedAltitudeCm := 1000;
  gpsIsHealthy := true;
  accADC_X := f32.zero;
  accADC_Y := f32.zero;
  accADC_Z := f32.of_int 2048;
  acc_1G_rec := f32.lit 1 2048;
  GPS_distanceToHomeCm := 0;
  gpsSol_groundSpeed := 0;
  gpsSol_numSat := 12;
  gpsMinimumSats := 8;
  GPS_directionToHome := 0;
  attitude_yaw := 0;
  getCosTiltAngle := f32.of_int 1;
  micros_start := nowUs;
  micros_sensor := nowUs;
  micros_available := nowUs;
  micros_sanity := nowUs
|}.

Definition homeless_ticks : list tick_input :=
  [ {| gps_sample := true; readings := homeless_readings 100000 |};
    {| gps_sample := false; readings := homeless_readings 1200000 |};
    {| gps_sample := true; readings := homeless_readings 2300000 |} ].

(** ** Vocabulary of the tick as a whole *)

Section TickVocabulary.

Variable cfg : gpsRescueConfig.t.
Variable USE_MAG : bool.

(** The state the [switch] of a tick leaves, and the state the watchdog
    leaves after it: the one the final call of the controller runs on. *)
Definition switched (e : inputs) (g : gps_rescue) : gps_rescue :=
  fst (fst (rescuePhaseSwitch cfg e (to_uint8 (gpsRescueConfig.angle cfg / 2)) true
              (sensed cfg USE_MAG e g))).

Definition watched (e : inputs) (g : gps_rescue) : gps_rescue :=
  performSanityChecks cfg USE_MAG (micros_sanity e) e (switched e g).

(** The readings that only a GPS sample refreshes, and the statics of
    [sensorUpdate]. *)
Definition gps_data_kept (g g' : gps_rescue) : Prop :=
  let d := sensor (rescueState g) in
  let d' := sensor (rescueState g') in
  distanceToHomeCm d' = distanceToHomeCm d
  /\ distanceToHomeM d' = distanceToHomeM d
  /\ groundSpeedCmS d' = groundSpeedCmS d
  /\ directionToHome d' = directionToHome d
  /\ errorAngle d' = errorAngle d
  /\ absErrorAngle d' = absErrorAngle d
  /\ gpsDataIntervalSeconds d' = gpsDataIntervalSeconds d
  /\ velocityToHomeCmS d' = velocityToHomeCmS d
  /\ ascendStepCm d' = ascendStepCm d
  /\ descendStepCm d' = descendStepCm d
  /\ maxPitchStep d' = maxPitchStep d
  /\ filterK d' = filterK d
  /\ sensorMem g' = sensorMem g.

(** The four values the module hands to the flight controller. *)
Definition outputs_kept (g g' : gps_rescue) : Prop :=
  rescueThrottle g' = rescueThrottle g
  /\ rescueYaw g' = rescueYaw g
  /\ gpsRescueAngle_PITCH g' = gpsRescueAngle_PITCH g
  /\ gpsRescueAngle_ROLL g' = gpsRescueAngle_ROLL g.

(** The four [int8_t] counters, inside the bounds their clamps give them. *)
Definition counters_in_range (g : gps_rescue) : Prop :=
  0 <= secondsFailing (intent (rescueState g)) <= 20
  /\ 0 <= sanity.secondsLowSats (sanityMem g) <= 10
  /\ 0 <= sanity.secondsDoingNothing (sanityMem g) <= 10
  /\ 0 <= available.secondsLowSats (availableMem g) <= 2.

(** The phases a tick can end in, by the phase its [switch] dispatches on. *)
Definition tick_successor (p q : rescuePhase_e) : bool :=
  match p, q with
  | RESCUE_IDLE, RESCUE_IDLE
  | RESCUE_INITIALIZE, (RESCUE_INITIALIZE | RESCUE_ATTAIN_ALT | RESCUE_LANDING)
  | RESCUE_ATTAIN_ALT, (RESCUE_ATTAIN_ALT | RESCUE_ROTATE)
  | RESCUE_ROTATE, (RESCUE_ROTATE | RESCUE_FLY_HOME)
  | RESCUE_FLY_HOME, (RESCUE_FLY_HOME | RESCUE_DESCENT)
  | RESCUE_DESCENT, (RESCUE_DESCENT | RESCUE_LANDING)
  | RESCUE_LANDING, (RESCUE_LANDING | RESCUE_COMPLETE)
  | RESCUE_COMPLETE, RESCUE_IDLE
  | RESCUE_ABORT, RESCUE_IDLE
  | RESCUE_DO_NOTHING, RESCUE_DO_NOTHING => true
  | (RESCUE_IDLE | RESCUE_COMPLETE | RESCUE_ABORT), _ => false
  | _, (RESCUE_ABORT | RESCUE_DO_NOTHING) => true
  | _, _ => false
  end.

(** A tick disarms through these two calls, in this order. *)
Definition disarm_calls : list call :=
  [setArmingDisabled_ARM_SWITCH; disarm_GPS_RESCUE].

(** The altitude the craft has gained, or lost, since the last
    once-a-second evaluation, against half the configured rate. *)
Definition climbing (g : gps_rescue) : bool :=
  (f32.of_int (to_int32 (currentAltitudeCm (sensor (rescueState g))
                         - sanity.prevAltitudeCm (sanityMem g)))
   >? f32.lit 1 2 * f32.of_int (gpsRescueConfig.ascendRate cfg))%f32.

Definition descending (g : gps_rescue) : bool :=
  (f32.of_int (to_int32 (sanity.prevAltitudeCm (sanityMem g)
                         - currentAltitudeCm (sensor (rescueState g))))
   >? f32.lit 1 2 * f32.of_int (gpsRescueConfig.descendRate cfg))%f32.

(** The watchdog's once-a-second part is due at [now]. *)
Definition watchdog_due (now : Z) (g : gps_rescue) : bool :=
  negb (cmpTimeUs now (sanity.previousTimeUs (sanityMem g)) <? 1000000).

(** The limits at which the once-a-second part aborts, read on the state
    [g'] it leaves: ten seconds without progress in the climb, the descent
    or the landing, ten seconds of doing nothing.  [p] is the phase the
    part starts in. *)
Definition abort_limit_reached (p : rescuePhase_e) (g' : gps_rescue) : bool :=
  match p with
  | RESCUE_ATTAIN_ALT | RESCUE_DESCENT | RESCUE_LANDING =>
      secondsFailing (intent (rescueState g')) =? 10
  | RESCUE_DO_NOTHING => sanity.secondsDoingNothing (sanityMem g') =? 10
  | _ => false
  end.

(** The failure the once-a-second part leaves, started in phase [p] with
    the failure [f]: low satellites when its counter is at 10, else a
    stall when the flight home leaves [secondsFailing] at 20, else [f]. *)
Definition failure_after_1hz (p : rescuePhase_e) (f : rescueFailureState_e)
  (g' : gps_rescue) : rescueFailureState_e :=
  if sanity.secondsLowSats (sanityMem g') =? 10 then RESCUE_LOWSATS
  else match p with
       | RESCUE_FLY_HOME =>
           if secondsFailing (intent (rescueState g')) =? 20 then RESCUE_STALLED else f
       | _ => f
       end.

End TickVocabulary.

(** The once-a-second evaluations the watchdog makes along a run of ticks
    during which it stays active, counted from its last one at [prev]. *)
Fixpoint evaluations (prev : Z) (ticks : list tick_input) : nat :=
  match ticks with
  | [] => 0
  | i :: rest =>
      if cmpTimeUs (micros_sanity (readings i)) prev <? 1000000
      then evaluations prev rest
      else S (evaluations (micros_sanity (readings i)) rest)
  end.

(** The rescue mode stays switched on. *)
Definition mode_stays_on (ticks : list tick_input) : Prop :=
  Forall (fun i => FLIGHT_MODE_GPS_RESCUE (readings i) = true) ticks.

(** The rescue mode is on and the craft has no home point. *)
Definition without_home_point (ticks : list tick_input) : Prop :=
  Forall (fun i => FLIGHT_MODE_GPS_RESCUE (readings i) = true
                   /\ STATE_GPS_FIX_HOME (readings i) = false) ticks.

(** Everything in the module state that is not one of the five things the
    watchdog writes: the phase, the failure, [secondsFailing],
    [magForceDisable] and its own statics. *)
Definition watchdog_leaves (g g' : gps_rescue) : Prop :=
  let i := intent (rescueState g) in
  let i' := intent (rescueState g') in
  outputs_kept g g'
  /\ newGPSData g' = newGPSData g
  /\ sensor (rescueState g') = sensor (rescueState g)
  /\ isAvailable (rescueState g') = isAvailable (rescueState g)
  /\ attain g' = attain g
  /\ sensorMem g' = sensorMem g
  /\ availableMem g' = availableMem g
  /\ returnAltitudeCm i' = returnAltitudeCm i
  /\ targetAltitudeCm i' = targetAltitudeCm i
  /\ targetVelocityCmS i' = targetVelocityCmS i
  /\ pitchAngleLimitDeg i' = pitchAngleLimitDeg i
  /\ rollAngleLimitDeg i' = rollAngleLimitDeg i
  /\ updateYaw i' = updateYaw i
  /\ descentDistanceM i' = descentDistanceM i.

(** * Properties *)

(** ** Facts about binary32 values *)

Module f32_facts.

Lemma compare_antisym (x y : f32.t) :
  SFcompare y x = option_map CompOpp (SFcompare x y).
Proof.
  destruct x as [sx|sx| |sx mx ex], y as [sy|sy| |sy my ey]; simpl;
    try destruct sx; try destruct sy; simpl; try reflexivity;
    rewrite (Z.compare_antisym ey ex);
    destruct (ey ?= ex); simpl; try reflexivity;
    rewrite (Pos.compare_cont_antisym mx my Eq); reflexivity.
Qed.

Lemma compare_refl (x : f32.t) :
  f32.is_nan x = false -> SFcompare x x = Some Eq.
Proof.
  destruct x as [s|s| |s m e]; simpl; intros H; try discriminate;
    try (destruct s; reflexivity).
  rewrite Z.compare_refl.
  pose proof (Pos.compare_cont_refl m Eq) as Hm.
  destruct s; rewrite Hm; reflexivity.
Qed.

Lemma leb_not_nan (x y : f32.t) :
  f32.leb x y = true -> f32.is_nan x = false /\ f32.is_nan y = false.
Proof.
  unfold f32.leb, SFleb.
  destruct x, y; simpl; intros H; try discriminate; auto.
Qed.

Lemma leb_refl (x : f32.t) : f32.is_nan x = false -> f32.leb x x = true.
Proof.
  intros H. unfold f32.leb, SFleb. rewrite (compare_refl x H). reflexivity.
Qed.

Lemma not_ltb_leb (x y : f32.t) :
  f32.is_nan x = false -> f32.is_nan y = false ->
  f32.ltb x y = false -> f32.leb y x = true.
Proof.
  unfold f32.ltb, f32.leb, SFltb, SFleb. intros Hx Hy.
  rewrite (compare_antisym x y).
  destruct (SFcompare x y) as [[ | | ]|] eqn:E; simpl; try discriminate; auto.
  destruct x, y; simpl in *; discriminate.
Qed.

Lemma constrainf_in_range (x lo hi : f32.t) :
  f32.leb lo hi = true -> f32.is_nan x = false ->
  f32.in_range lo hi (constrainf x lo hi) = true.
Proof.
  intros Hlh Hx. destruct (leb_not_nan _ _ Hlh) as [Hlo Hhi].
  unfold constrainf, f32.in_range, f32.gtb.
  destruct (f32.ltb x lo) eqn:E1.
  - rewrite (leb_refl lo Hlo), Hlh. reflexivity.
  - change (SFltb hi x) with (f32.ltb hi x).
    destruct (f32.ltb hi x) eqn:E2.
    + rewrite Hlh, (leb_refl hi Hhi). reflexivity.
    + rewrite (not_ltb_leb x lo Hx Hlo E1), (not_ltb_leb hi x Hhi Hx E2).
      reflexivity.
Qed.

Lemma constrainf_nan_or_in_range (x lo hi : f32.t) :
  f32.leb lo hi = true -> f32.nan_or_in_range lo hi (constrainf x lo hi).
Proof.
  intros Hlh. destruct (f32.is_nan x) eqn:Hx.
  - left. destruct x; try discriminate.
    unfold constrainf, f32.gtb, f32.ltb, SFltb. simpl. destruct hi; reflexivity.
  - right. apply constrainf_in_range; assumption.
Qed.

(** *** Integer conversions never produce a NaN *)

Lemma iter_pos_invariant {A : Type} (P : A -> Prop) (f : A -> A) :
  (forall a, P a -> P (f a)) -> forall p a, P a -> P (iter_pos f p a).
Proof.
  intros Hf. induction p as [p IH|p IH|]; simpl; intros a Ha; auto.
Qed.

Lemma shr_1_nonneg (mrs : shr_record) :
  0 <= shr_m mrs -> 0 <= shr_m (shr_1 mrs).
Proof.
  destruct mrs as [m r s]. simpl.
  destruct m as [|[p|p|]|[p|p|]]; simpl; lia.
Qed.

Lemma shr_nonneg (mrs : shr_record) (e n : Z) :
  0 <= shr_m mrs -> 0 <= shr_m (fst (shr mrs e n)).
Proof.
  intros H. destruct n; simpl; auto.
  apply (iter_pos_invariant (fun r => 0 <= shr_m r)); auto using shr_1_nonneg.
Qed.

Lemma round_nearest_even_nonneg (m : Z) (l : location) :
  0 <= m -> 0 <= round_nearest_even m l.
Proof.
  intros H. destruct l as [|[ | | ]]; simpl; try lia.
  destruct (Z.even m); lia.
Qed.

Lemma binary_round_aux_not_nan (sx : bool) (mx ex : Z) (lx : location) :
  0 <= mx ->
  f32.is_nan (binary_round_aux f32.prec f32.emax sx mx ex lx) = false.
Proof.
  intros H. unfold binary_round_aux.
  destruct (shr_fexp f32.prec f32.emax mx ex lx) as [mrs' e'] eqn:E1.
  destruct (shr_fexp f32.prec f32.emax
              (round_nearest_even (shr_m mrs') (loc_of_shr_record mrs')) e' loc_Exact)
    as [mrs'' e''] eqn:E2.
  assert (H1 : 0 <= shr_m mrs').
  { unfold shr_fexp in E1.
    pose proof (shr_nonneg (shr_record_of_loc mx lx) ex
                  (fexp f32.prec f32.emax (Zdigits2 mx + ex) - ex)) as Hn.
    rewrite E1 in Hn. apply Hn.
    destruct lx as [|[ | | ]]; exact H. }
  assert (H2 : 0 <= shr_m mrs'').
  { unfold shr_fexp in E2.
    match type of E2 with
    | shr ?a ?b ?c = _ => pose proof (shr_nonneg a b c) as Hn
    end.
    rewrite E2 in Hn. apply Hn. simpl.
    apply round_nearest_even_nonneg. exact H1. }
  destruct (shr_m mrs''); try lia; try reflexivity.
  destruct (e'' <=? f32.emax - f32.prec); reflexivity.
Qed.

Lemma of_int_not_nan (z : Z) : f32.is_nan (f32.of_int z) = false.
Proof.
  unfold f32.of_int, binary_normalize. destruct z; simpl; auto;
    unfold binary_round; destruct (shl_align _ _ _) as [mz ez];
    apply binary_round_aux_not_nan; lia.
Qed.

(** *** Multiplication by 1 and -1 is exact *)

Lemma mul_pow23 (m : positive) :
  (m * 8388608)%positive
  = (m~0~0~0~0~0~0~0~0~0~0~0~0~0~0~0~0~0~0~0~0~0~0~0)%positive.
Proof. rewrite Pos.mul_comm. reflexivity. Qed.

Lemma mul_unit_finite (s t : bool) (m : positive) (e : Z) :
  bounded f32.prec f32.emax m e = true ->
  f32.mul (S754_finite s m e) (S754_finite t 8388608 (-23))
  = S754_finite (xorb s t) m e.
Proof.
  intros Hb. unfold bounded, canonical_mantissa in Hb.
  apply andb_prop in Hb. destruct Hb as [Hc He].
  apply Z.eqb_eq in Hc.
  unfold f32.mul, SFmul. rewrite mul_pow23.
  unfold binary_round_aux, shr_fexp.
  set (m' := (m~0~0~0~0~0~0~0~0~0~0~0~0~0~0~0~0~0~0~0~0~0~0~0)%positive).
  assert (Hd : Zdigits2 (Zpos m') + (e + -23) = Zpos (digits2_pos m) + e).
  { unfold m', Zdigits2. cbn [digits2_pos]. rewrite !Pos2Z.inj_succ. lia. }
  rewrite Hd, Hc.
  replace (e - (e + -23)) with 23 by lia.
  unfold m'. cbn [shr shr_record_of_loc iter_pos shr_1 orb fst snd].
  cbn [shr_m loc_of_shr_record round_nearest_even Zdigits2].
  replace (e + -23 + 23) with e by lia.
  rewrite Hc, Z.sub_diag. cbn [shr shr_m].
  rewrite He. reflexivity.
Qed.

Lemma mul_one (x : f32.t) :
  f32.valid x = true -> f32.mul x (f32.of_int 1) = x.
Proof.
  change (f32.of_int 1) with (S754_finite false 8388608 (-23)).
  destruct x as [s|s| |s m e]; intros H;
    try reflexivity; try (destruct s; reflexivity).
  rewrite mul_unit_finite by exact H. rewrite xorb_false_r. reflexivity.
Qed.

Lemma mul_minus_one (x : f32.t) :
  f32.valid x = true -> f32.mul x (f32.of_int (-1)) = f32.neg x.
Proof.
  change (f32.of_int (-1)) with (S754_finite true 8388608 (-23)).
  destruct x as [s|s| |s m e]; intros H;
    try reflexivity; try (destruct s; reflexivity).
  rewrite mul_unit_finite by exact H. rewrite xorb_true_r. reflexivity.
Qed.

(** Negation mirrors a symmetric range. *)
Lemma compare_neg (x y : f32.t) :
  SFcompare (f32.neg x) (f32.neg y) = SFcompare y x.
Proof.
  destruct x as [sx|sx| |sx mx ex], y as [sy|sy| |sy my ey]; simpl;
    try destruct sx; try destruct sy; simpl; try reflexivity;
    rewrite (Z.compare_antisym ex ey);
    destruct (ex ?= ey); simpl; try reflexivity.
  - f_equal. symmetry. apply (Pos.compare_cont_antisym my mx Eq).
  - f_equal. apply (Pos.compare_cont_antisym mx my Eq).
Qed.

Lemma in_range_neg (b x : f32.t) :
  f32.in_range (f32.neg b) b x = true -> f32.in_range (f32.neg b) b (f32.neg x) = true.
Proof.
  unfold f32.in_range, f32.leb, SFleb. intros H.
  apply andb_prop in H. destruct H as [H1 H2].
  assert (Hb : f32.neg (f32.neg b) = b) by (destruct b as [[]|[]| |[] ? ?]; reflexivity).
  pose proof (compare_neg x (f32.neg b)) as E2. rewrite Hb in E2.
  rewrite (compare_neg b x), E2, H2, H1. reflexivity.
Qed.

(** *** The arithmetic returns canonically encoded values *)

Lemma fexp_eq (x : Z) : fexp f32.prec f32.emax x = Z.max (x - 24) (-149).
Proof. reflexivity. Qed.

Lemma pow2_pos (a : Z) : 0 <= a -> 0 < 2 ^ a.
Proof. intros H. apply Z.pow_pos_nonneg; lia. Qed.

Lemma pow2_le (a b : Z) : 0 <= a <= b -> 2 ^ a <= 2 ^ b.
Proof. intros H. apply Z.pow_le_mono_r; lia. Qed.

Lemma pow2_lt (a b : Z) : 0 <= a < b -> 2 ^ a < 2 ^ b.
Proof. intros H. apply Z.pow_lt_mono_r; lia. Qed.

Lemma pow2_succ (a : Z) : 0 <= a -> 2 ^ (a + 1) = 2 * 2 ^ a.
Proof. intros H. rewrite Z.pow_add_r by lia. lia. Qed.

Lemma digits2_pos_bounds (p : positive) :
  2 ^ (Zpos (digits2_pos p) - 1) <= Zpos p < 2 ^ Zpos (digits2_pos p).
Proof.
  induction p as [p IH|p IH|]; cbn [digits2_pos].
  - rewrite Pos2Z.inj_succ.
    replace (Z.succ (Zpos (digits2_pos p)) - 1) with (Zpos (digits2_pos p) - 1 + 1) by lia.
    unfold Z.succ. rewrite !pow2_succ by lia. lia.
  - rewrite Pos2Z.inj_succ.
    replace (Z.succ (Zpos (digits2_pos p)) - 1) with (Zpos (digits2_pos p) - 1 + 1) by lia.
    unfold Z.succ. rewrite !pow2_succ by lia. lia.
  - cbn. lia.
Qed.

(** The number of binary digits against a power of two. *)
Lemma digits2_pos_le (p : positive) (k : Z) :
  0 <= k -> Zpos p <= 2 ^ k -> Zpos (digits2_pos p) <= k + 1.
Proof.
  intros Hk H. pose proof (digits2_pos_bounds p) as [L _].
  destruct (Z_le_gt_dec (Zpos (digits2_pos p)) (k + 1)) as [|G]; [assumption|].
  assert (2 ^ (k + 1) <= 2 ^ (Zpos (digits2_pos p) - 1)) by (apply pow2_le; lia).
  rewrite pow2_succ in H0 by lia. pose proof (pow2_pos k Hk). lia.
Qed.

Lemma digits2_pos_top (p : positive) (k : Z) :
  0 <= k -> Zpos p <= 2 ^ k -> Zpos (digits2_pos p) = k + 1 -> Zpos p = 2 ^ k.
Proof.
  intros Hk H E. pose proof (digits2_pos_bounds p) as [L _].
  rewrite E in L. replace (k + 1 - 1) with k in L by lia. lia.
Qed.

Lemma digits2_pos_ge (p : positive) (k : Z) :
  1 <= k -> 2 ^ (k - 1) <= Zpos p -> k <= Zpos (digits2_pos p).
Proof.
  intros Hk H. pose proof (digits2_pos_bounds p) as [_ U].
  destruct (Z_le_gt_dec k (Zpos (digits2_pos p))) as [|G]; [assumption|].
  assert (2 ^ (Zpos (digits2_pos p)) <= 2 ^ (k - 1)) by (apply pow2_le; lia).
  lia.
Qed.

Lemma shr_1_div2 (r : shr_record) :
  0 <= shr_m r -> shr_m (shr_1 r) = shr_m r / 2.
Proof.
  destruct r as [m b c]. cbn [shr_m]. intros H.
  destruct m as [|[p|p|]|p]; cbn [shr_1 shr_m]; try lia; try reflexivity.
  - change (Zpos p~1) with (2 * Zpos p + 1).
    apply Z.div_unique with (r := 1); lia.
  - change (Zpos p~0) with (2 * Zpos p).
    apply Z.div_unique with (r := 0); lia.
Qed.

Lemma div_pow2_twice (a n : Z) : 0 <= n -> a / 2 ^ n / 2 ^ n = a / 2 ^ (n + n).
Proof.
  intros H. rewrite Z.pow_add_r by lia.
  pose proof (pow2_pos n H).
  rewrite Z.div_div by lia. reflexivity.
Qed.

Lemma shr_iter_div (n : positive) (r : shr_record) :
  0 <= shr_m r -> shr_m (iter_pos shr_1 n r) = shr_m r / 2 ^ Zpos n.
Proof.
  revert r. induction n as [n IH|n IH|]; intros r H; cbn [iter_pos].
  - assert (H1 : 0 <= shr_m (shr_1 r)) by (apply shr_1_nonneg; exact H).
    assert (H2 : 0 <= shr_m (iter_pos shr_1 n (shr_1 r))).
    { apply (iter_pos_invariant (fun x => 0 <= shr_m x));
        auto using shr_1_nonneg. }
    rewrite IH by exact H2. rewrite IH by exact H1. rewrite shr_1_div2 by exact H.
    rewrite div_pow2_twice by lia.
    pose proof (pow2_pos (Zpos n + Zpos n) ltac:(lia)).
    rewrite Z.div_div by lia.
    rewrite <- (pow2_succ (Zpos n + Zpos n)) by lia.
    f_equal. f_equal. lia.
  - assert (H2 : 0 <= shr_m (iter_pos shr_1 n r)).
    { apply (iter_pos_invariant (fun x => 0 <= shr_m x));
        auto using shr_1_nonneg. }
    rewrite IH by exact H2. rewrite IH by exact H.
    rewrite div_pow2_twice by lia. f_equal. f_equal. lia.
  - rewrite shr_1_div2 by exact H. reflexivity.
Qed.

Lemma shr_record_of_loc_m (m : Z) (l : location) : shr_m (shr_record_of_loc m l) = m.
Proof. destruct l as [|[ | | ]]; reflexivity. Qed.

Lemma shr_spec (mrs : shr_record) (e n : Z) :
  0 <= shr_m mrs -> 0 <= n ->
  shr_m (fst (shr mrs e n)) = shr_m mrs / 2 ^ n /\ snd (shr mrs e n) = e + n.
Proof.
  intros Hm Hn. destruct n as [|n|n]; cbn [shr fst snd].
  - rewrite Z.pow_0_r, Z.div_1_r. lia.
  - split; [apply shr_iter_div; exact Hm | reflexivity].
  - lia.
Qed.

Lemma shr_noop (mrs : shr_record) (e n : Z) : n <= 0 -> shr mrs e n = (mrs, e).
Proof. intros H. destruct n; try reflexivity. lia. Qed.

Lemma round_nearest_even_step (m : Z) (l : location) :
  m <= round_nearest_even m l <= m + 1.
Proof.
  destruct l as [|[ | | ]]; cbn [round_nearest_even]; try lia.
  destruct (Z.even m); lia.
Qed.

(** The first shift leaves at most 24 digits, and exactly 24 above the
    subnormal exponent. *)
Lemma shr_fexp_first (p : positive) (e : Z) (l : location) :
  e <= fexp f32.prec f32.emax (Zpos (digits2_pos p) + e) ->
  0 <= shr_m (fst (shr_fexp f32.prec f32.emax (Zpos p) e l)) < 2 ^ 24
  /\ -149 <= snd (shr_fexp f32.prec f32.emax (Zpos p) e l)
  /\ (snd (shr_fexp f32.prec f32.emax (Zpos p) e l) = -149
      \/ 2 ^ 23 <= shr_m (fst (shr_fexp f32.prec f32.emax (Zpos p) e l))).
Proof.
  intros He. unfold shr_fexp. cbn [Zdigits2].
  rewrite fexp_eq in *.
  set (d := Zpos (digits2_pos p)) in *.
  set (n := Z.max (d + e - 24) (-149) - e).
  assert (Hn : 0 <= n) by (unfold n; lia).
  destruct (shr_spec (shr_record_of_loc (Zpos p) l) e n) as [Hm Hs];
    [rewrite shr_record_of_loc_m; lia | exact Hn |].
  rewrite shr_record_of_loc_m in Hm. rewrite Hm, Hs.
  pose proof (digits2_pos_bounds p) as [Lo Hi]. fold d in Lo, Hi.
  pose proof (pow2_pos n Hn) as Hp.
  assert (Hd : 1 <= d) by (unfold d; lia).
  split; [split|split].
  - apply Z.div_pos; lia.
  - apply Z.div_lt_upper_bound; [exact Hp|].
    assert (2 ^ d <= 2 ^ (n + 24)) by (apply pow2_le; unfold n; lia).
    rewrite Z.pow_add_r in H by lia. lia.
  - unfold n. lia.
  - destruct (Z_le_gt_dec (d + e - 24) (-149)) as [C|C].
    + left. unfold n. lia.
    + right. apply Z.div_le_lower_bound; [exact Hp|].
      assert (n = d - 24) by (unfold n; lia).
      assert (2 ^ (n + 23) <= 2 ^ (d - 1)) by (apply pow2_le; lia).
      rewrite Z.pow_add_r in H0 by lia. lia.
Qed.

Lemma finite_valid (s : bool) (m : positive) (e : Z) :
  Z.max (Zpos (digits2_pos m) + e - 24) (-149) = e ->
  f32.valid (if e <=? f32.emax - f32.prec then S754_finite s m e else S754_infinity s)
  = true.
Proof.
  intros H. destruct (e <=? f32.emax - f32.prec) eqn:E; [|reflexivity].
  unfold f32.valid, valid_binary, bounded, canonical_mantissa.
  rewrite fexp_eq, H, Z.eqb_refl, E. reflexivity.
Qed.

(** The second shift renormalises a mantissa that rounding carried to
    [2 ^ 24]. *)
Lemma second_shift_valid (s : bool) (m e : Z) :
  0 <= m <= 2 ^ 24 -> -149 <= e -> (e = -149 \/ 2 ^ 23 <= m) ->
  f32.valid
    (let '(mrs, e2) := shr_fexp f32.prec f32.emax m e loc_Exact in
     match shr_m mrs with
     | Z0 => S754_zero s
     | Zpos q =>
         if e2 <=? f32.emax - f32.prec then S754_finite s q e2 else S754_infinity s
     | Zneg _ => S754_nan
     end) = true.
Proof.
  intros Hm He Hc. unfold shr_fexp. rewrite fexp_eq.
  destruct m as [|q|q]; [| |lia].
  - cbn [Zdigits2]. rewrite shr_noop by lia. reflexivity.
  - cbn [Zdigits2]. set (d := Zpos (digits2_pos q)).
    pose proof (digits2_pos_bounds q) as [Lo Hi]. fold d in Lo, Hi.
    assert (Hd : 1 <= d) by (unfold d; lia).
    destruct (Z.eq_dec (Zpos q) (2 ^ 24)) as [T|T].
    + assert (Eq : q = 16777216%positive) by (apply Pos2Z.inj; exact T).
      subst q. cbn in d. subst d.
      replace (Z.max (25 + e - 24) (-149) - e) with 1 by lia.
      cbn [shr shr_record_of_loc iter_pos shr_1 orb shr_m].
      apply finite_valid.
      change (Zpos (digits2_pos 8388608)) with 24. lia.
    + assert (Hd24 : d <= 24).
      { pose proof (digits2_pos_le q 24 ltac:(lia) ltac:(lia)) as H1. fold d in H1.
        destruct (Z.eq_dec d 25) as [E|E]; [|lia].
        exfalso. apply T. apply (digits2_pos_top q 24); [lia|lia|exact E]. }
      rewrite shr_noop by lia.
      cbn [shr_record_of_loc shr_m].
      apply finite_valid. fold d.
      destruct Hc as [Hc|Hc]; [lia|].
      pose proof (digits2_pos_ge q 24 ltac:(lia) Hc) as H2. fold d in H2. lia.
Qed.

(** Rounding a mantissa that reaches down to its canonical exponent gives
    a canonically encoded value. *)
Lemma binary_round_aux_valid (s : bool) (p : positive) (e : Z) (l : location) :
  e <= fexp f32.prec f32.emax (Zpos (digits2_pos p) + e) ->
  f32.valid (binary_round_aux f32.prec f32.emax s (Zpos p) e l) = true.
Proof.
  intros H. unfold binary_round_aux.
  pose proof (shr_fexp_first p e l H) as Hf.
  destruct (shr_fexp f32.prec f32.emax (Zpos p) e l) as [mrs e1].
  cbn [fst snd] in Hf. destruct Hf as [Hm [He Hc]].
  pose proof (round_nearest_even_step (shr_m mrs) (loc_of_shr_record mrs)) as Hr.
  apply second_shift_valid; [lia | exact He |].
  destruct Hc as [Hc|Hc]; [left; exact Hc | right; lia].
Qed.

Lemma digits2_pos_shift (m d : positive) :
  Zpos (digits2_pos (Pos.iter xO m d)) = Zpos (digits2_pos m) + Zpos d.
Proof.
  induction d as [|d IH] using Pos.peano_ind.
  - cbn [Pos.iter digits2_pos]. rewrite Pos2Z.inj_succ. lia.
  - rewrite Pos.iter_succ. cbn [digits2_pos].
    rewrite !Pos2Z.inj_succ, IH. lia.
Qed.

Lemma binary_round_valid (s : bool) (m : positive) (e : Z) :
  f32.valid (binary_round f32.prec f32.emax s m e) = true.
Proof.
  unfold binary_round, shl_align.
  destruct (fexp f32.prec f32.emax (Zpos (digits2_pos m) + e) - e) as [|k|k] eqn:E;
    apply binary_round_aux_valid.
  - lia.
  - lia.
  - rewrite digits2_pos_shift.
    replace (Zpos (digits2_pos m) + Zpos k
             + fexp f32.prec f32.emax (Zpos (digits2_pos m) + e))
      with (Zpos (digits2_pos m) + e) by lia.
    lia.
Qed.

Lemma binary_normalize_valid (m e : Z) (szero : bool) :
  f32.valid (binary_normalize f32.prec f32.emax m e szero) = true.
Proof.
  destruct m; cbn [binary_normalize]; [reflexivity| |]; apply binary_round_valid.
Qed.

Lemma of_int_valid (z : Z) : f32.valid (f32.of_int z) = true.
Proof. apply binary_normalize_valid. Qed.

Lemma add_valid (x y : f32.t) :
  f32.valid x = true -> f32.valid y = true -> f32.valid (f32.add x y) = true.
Proof.
  intros Hx Hy. unfold f32.add, SFadd.
  destruct x as [sx|sx| |sx mx ex], y as [sy|sy| |sy my ey];
    try reflexivity; try assumption;
    try (destruct sx, sy; reflexivity).
  apply binary_normalize_valid.
Qed.

Lemma sub_valid (x y : f32.t) :
  f32.valid x = true -> f32.valid y = true -> f32.valid (f32.sub x y) = true.
Proof.
  intros Hx Hy. unfold f32.sub, SFsub.
  destruct x as [sx|sx| |sx mx ex], y as [sy|sy| |sy my ey];
    try reflexivity; try assumption;
    try (destruct sx, sy; reflexivity).
  apply binary_normalize_valid.
Qed.

Lemma bounded_inv (m : positive) (e : Z) :
  bounded f32.prec f32.emax m e = true ->
  Z.max (Zpos (digits2_pos m) + e - 24) (-149) = e /\ e <= 104.
Proof.
  unfold bounded, canonical_mantissa. rewrite fexp_eq.
  intros H. apply andb_prop in H. destruct H as [H1 H2].
  apply Z.eqb_eq in H1. apply Z.leb_le in H2.
  change (f32.emax - f32.prec) with 104 in H2. split; assumption.
Qed.

Lemma digits2_pos_mul (a b : positive) :
  Zpos (digits2_pos a) + Zpos (digits2_pos b) - 1 <= Zpos (digits2_pos (a * b)).
Proof.
  pose proof (digits2_pos_bounds a) as [La _].
  pose proof (digits2_pos_bounds b) as [Lb _].
  apply digits2_pos_ge; [lia|].
  replace (Zpos (digits2_pos a) + Zpos (digits2_pos b) - 1 - 1)
    with ((Zpos (digits2_pos a) - 1) + (Zpos (digits2_pos b) - 1)) by lia.
  rewrite Z.pow_add_r by lia. rewrite Pos2Z.inj_mul.
  apply Z.mul_le_mono_nonneg; try assumption; apply Z.lt_le_incl, pow2_pos; lia.
Qed.

Lemma mul_valid (x y : f32.t) :
  f32.valid x = true -> f32.valid y = true -> f32.valid (f32.mul x y) = true.
Proof.
  intros Hx Hy. unfold f32.mul, SFmul.
  destruct x as [sx|sx| |sx mx ex], y as [sy|sy| |sy my ey]; try reflexivity.
  apply binary_round_aux_valid. rewrite fexp_eq.
  destruct (bounded_inv mx ex Hx) as [Cx _].
  destruct (bounded_inv my ey Hy) as [Cy _].
  pose proof (digits2_pos_mul mx my). lia.
Qed.

Lemma neg_valid (x : f32.t) : f32.valid x = true -> f32.valid (f32.neg x) = true.
Proof. destruct x; intros H; try reflexivity. exact H. Qed.

Lemma constrainf_valid (x lo hi : f32.t) :
  f32.valid x = true -> f32.valid lo = true -> f32.valid hi = true ->
  f32.valid (constrainf x lo hi) = true.
Proof.
  intros Hx Hlo Hhi. unfold constrainf.
  destruct (f32.ltb x lo); [exact Hlo|].
  destruct (f32.gtb x hi); assumption.
Qed.

End f32_facts.

(** ** What each stage of a tick leaves alone *)

(** Reduction of record projections over the field updates, and nothing
    else: float operations stay folded. *)
Ltac fields :=
  cbn [fst snd
       rescueState phase failure sensor intent isAvailable
       magForceDisable newGPSData attain sanityMem sensorMem availableMem
       rescueThrottle rescueYaw
       returnAltitudeCm targetAltitudeCm targetVelocityCmS pitchAngleLimitDeg
       rollAngleLimitDeg updateYaw descentDistanceM secondsFailing
       currentAltitudeCm maxAltitudeCm descendStepCm ascendStepCm accMagnitude
       healthy distanceToHomeM
       with_phase with_failure with_intent with_sensor
       set_rescueState set_phase set_failure set_sensor set_intent set_isAvailable
       set_newGPSData set_magForceDisable set_sanityMem set_sensorMem
       set_availableMem set_maxAltitudeCm
       set_returnAltitudeCm set_targetAltitudeCm set_targetVelocityCmS
       set_pitchAngleLimitDeg set_rollAngleLimitDeg set_updateYaw
       set_descentDistanceM set_secondsFailing
       rescueStart rescueStop] in *.

Section Frame.

Variable cfg : gpsRescueConfig.t.
Variable USE_MAG : bool.

Lemma sensorUpdate_frame (e : inputs) (g : gps_rescue) :
  let g' := sensorUpdate cfg e g in
  phase (rescueState g') = phase (rescueState g)
  /\ failure (rescueState g') = failure (rescueState g)
  /\ intent (rescueState g') = intent (rescueState g)
  /\ magForceDisable g' = magForceDisable g
  /\ newGPSData g' = newGPSData g
  /\ sanityMem g' = sanityMem g
  /\ attain g' = attain g
  /\ currentAltitudeCm (sensor (rescueState g')) = getEstimatedAltitudeCm e
  /\ healthy (sensor (rescueState g')) = gpsIsHealthy e
  /\ maxAltitudeCm (sensor (rescueState g')) = maxAltitudeCm (sensor (rescueState g)).
Proof.
  unfold sensorUpdate. destruct (newGPSData g) eqn:E; simpl; rewrite ?E; tauto.
Qed.

Lemma checkGPSRescueIsAvailable_frame (e : inputs) (g : gps_rescue) :
  let g' := snd (checkGPSRescueIsAvailable e g) in
  rescueState g' = rescueState g
  /\ magForceDisable g' = magForceDisable g
  /\ newGPSData g' = newGPSData g
  /\ sanityMem g' = sanityMem g
  /\ attain g' = attain g.
Proof.
  unfold checkGPSRescueIsAvailable.
  destruct (negb (gpsIsHealthy e) || negb (STATE_GPS_FIX_HOME e)); simpl; [tauto|].
  destruct (cmpTimeUs _ _ <? 1000000); simpl; tauto.
Qed.

(** The controller writes its outputs and its own statics only. *)
Lemma attain_update_frame (e : inputs) (g g' : gps_rescue) :
  attain_update cfg e g = Ok g' ->
  rescueState g' = rescueState g
  /\ magForceDisable g' = magForceDisable g
  /\ newGPSData g' = newGPSData g
  /\ sanityMem g' = sanityMem g.
Proof.
  unfold attain_update.
  destruct (attain_velocityI_attenuated cfg g) as [v|u]; cbn [bind]; intros H;
    [|discriminate].
  injection H as <-. repeat split; reflexivity.
Qed.

Lemma rescueAttainPosition_frame (e : inputs) (g g' : gps_rescue) :
  rescueAttainPosition cfg e g = Ok g' ->
  rescueState g' = rescueState g
  /\ magForceDisable g' = magForceDisable g
  /\ newGPSData g' = newGPSData g
  /\ sanityMem g' = sanityMem g.
Proof.
  unfold rescueAttainPosition.
  destruct (phase (rescueState g));
    try (intros H; injection H as <-; repeat split; reflexivity);
    (destruct (negb (newGPSData g));
     [ intros H; injection H as <-; repeat split; reflexivity
     | apply attain_update_frame ]).
Qed.

Lemma watchdog_frame_refl (g : gps_rescue) : watchdog_frame g g.
Proof. unfold watchdog_frame. tauto. Qed.

Lemma watchdog_frame_trans (g1 g2 g3 : gps_rescue) :
  watchdog_frame g1 g2 -> watchdog_frame g2 g3 -> watchdog_frame g1 g3.
Proof.
  unfold watchdog_frame. intros H1 H2.
  decompose [and] H1. decompose [and] H2.
  repeat split; etransitivity; eassumption.
Qed.

Lemma frame_with_phase (p : rescuePhase_e) (g : gps_rescue) :
  watchdog_frame g (with_phase p g).
Proof. repeat split. Qed.

Lemma frame_with_failure (f : rescueFailureState_e) (g : gps_rescue) :
  watchdog_frame g (with_failure f g).
Proof. repeat split. Qed.

Lemma frame_secondsFailing (n : Z) (g : gps_rescue) :
  watchdog_frame g (with_intent (set_secondsFailing n) g).
Proof. repeat split. Qed.

Lemma frame_set_sanityMem (m : sanity.statics) (g : gps_rescue) :
  watchdog_frame g (set_sanityMem m g).
Proof. repeat split. Qed.

Lemma frame_set_magForceDisable (b : bool) (g : gps_rescue) :
  watchdog_frame g (set_magForceDisable b g).
Proof. repeat split. Qed.

Create HintDb frame.
#[local] Hint Resolve watchdog_frame_refl frame_with_phase frame_with_failure
  frame_secondsFailing frame_set_sanityMem frame_set_magForceDisable : frame.

Lemma frame_sanity_handle_failure (e : inputs) (g : gps_rescue) :
  watchdog_frame g (sanity_handle_failure cfg e g).
Proof.
  unfold sanity_handle_failure.
  destruct (negb (failure_is_healthy (failure (rescueState g)))); auto with frame.
Qed.

Lemma frame_sanity_detect (e : inputs) (g : gps_rescue) :
  watchdog_frame g (sanity_detect e g).
Proof.
  unfold sanity_detect.
  destruct (crashRecoveryModeActive e).
  - destruct (negb (healthy _)); [|auto with frame].
    eapply watchdog_frame_trans; [apply frame_with_failure|].
    apply frame_with_failure.
  - destruct (negb (healthy _)); auto with frame.
Qed.

Lemma frame_sanity_flyHome (e : inputs) (g : gps_rescue) :
  watchdog_frame g (sanity_flyHome cfg USE_MAG e g).
Proof.
  unfold sanity_flyHome.
  destruct (_ =? 20); [|auto with frame].
  destruct (_ && _).
  - eapply watchdog_frame_trans; [apply frame_secondsFailing|].
    eapply watchdog_frame_trans; [apply frame_set_magForceDisable|].
    apply frame_secondsFailing.
  - eapply watchdog_frame_trans; [apply frame_secondsFailing|].
    apply frame_with_failure.
Qed.

Lemma frame_sanity_altitude_count (b : bool) (g : gps_rescue) :
  watchdog_frame g (sanity_altitude_count b g).
Proof.
  unfold sanity_altitude_count.
  destruct (_ =? 10); [|auto with frame].
  eapply watchdog_frame_trans; [apply frame_secondsFailing|].
  apply frame_with_phase.
Qed.

Lemma frame_sanity_special (g : gps_rescue) :
  watchdog_frame g (sanity_special cfg g).
Proof.
  unfold sanity_special.
  destruct (phase (rescueState g));
    auto using frame_sanity_altitude_count with frame.
  destruct (_ =? 10); [|auto with frame].
  eapply watchdog_frame_trans; [apply frame_set_sanityMem|].
  apply frame_with_phase.
Qed.

Lemma frame_sanity_lowSats (e : inputs) (g : gps_rescue) :
  watchdog_frame g (sanity_lowSats e g).
Proof.
  unfold sanity_lowSats.
  destruct (_ =? 10); [|auto with frame].
  eapply watchdog_frame_trans; [apply frame_set_sanityMem|].
  apply frame_with_failure.
Qed.

Lemma frame_sanity_1hz (now : Z) (e : inputs) (g : gps_rescue) :
  watchdog_frame g (sanity_1hz cfg USE_MAG now e g).
Proof.
  unfold sanity_1hz.
  eapply watchdog_frame_trans; [|apply frame_sanity_lowSats].
  eapply watchdog_frame_trans; [|apply frame_set_sanityMem].
  eapply watchdog_frame_trans; [|apply frame_sanity_special].
  eapply watchdog_frame_trans; [apply frame_set_sanityMem|].
  match goal with
  | |- context [match ?p with _ => _ end] => destruct p
  end; auto using frame_sanity_flyHome with frame.
Qed.

Lemma performSanityChecks_frame (now : Z) (e : inputs) (g : gps_rescue) :
  watchdog_frame g (performSanityChecks cfg USE_MAG now e g).
Proof.
  assert (H : watchdog_frame g (sanity_detect e (sanity_handle_failure cfg e g))).
  { eapply watchdog_frame_trans;
      [apply frame_sanity_handle_failure | apply frame_sanity_detect]. }
  unfold performSanityChecks.
  destruct (phase (rescueState g)); auto with frame;
    (destruct (_ <? 1000000);
     [ exact H
     | eapply watchdog_frame_trans; [exact H | apply frame_sanity_1hz] ]).
Qed.

(** None of the stages before the controller writes its outputs or its
    statics. *)
Lemma sensorUpdate_outputs (e : inputs) (g : gps_rescue) :
  controller_frame g (sensorUpdate cfg e g)
  /\ (newGPSData g = true ->
      errorAngle (sensor (rescueState (sensorUpdate cfg e g)))
      = normalised_errorAngle e).
Proof.
  unfold controller_frame, sensorUpdate.
  destruct (newGPSData g) eqn:E; cbn [negb]; fields;
    cbn [errorAngle]; rewrite ?E; repeat split; try reflexivity.
  discriminate.
Qed.

Lemma checkGPSRescueIsAvailable_outputs (e : inputs) (g : gps_rescue) :
  controller_frame g (snd (checkGPSRescueIsAvailable e g)).
Proof.
  unfold controller_frame, checkGPSRescueIsAvailable.
  destruct (negb (gpsIsHealthy e) || negb (STATE_GPS_FIX_HOME e)); fields; [tauto|].
  destruct (cmpTimeUs _ _ <? 1000000); fields; tauto.
Qed.

Lemma rescuePhaseSwitch_outputs (e : inputs) (halfAngle : Z) (startedLow : bool)
  (g : gps_rescue) :
  controller_frame g (fst (fst (rescuePhaseSwitch cfg e halfAngle startedLow g)))
  /\ errorAngle (sensor (rescueState
                   (fst (fst (rescuePhaseSwitch cfg e halfAngle startedLow g)))))
     = errorAngle (sensor (rescueState g)).
Proof.
  unfold controller_frame, rescuePhaseSwitch, idleTasks.
  destruct (phase (rescueState g)); cbv zeta;
    repeat match goal with
           | |- context [if ?c then _ else _] => destruct c eqn:?
           end; repeat split; try reflexivity; fields; assumption.
Qed.

End Frame.

(** ** The dispatcher's first statement always completes *)

Section Enter.

Variable cfg : gpsRescueConfig.t.
Variable USE_MAG : bool.

Lemma rescueEnter_ok (e : inputs) (g : gps_rescue) :
  rescueEnter cfg USE_MAG e g = Ok (entered cfg USE_MAG e g).
Proof.
  unfold rescueEnter, entered.
  destruct (FLIGHT_MODE_GPS_RESCUE e); simpl; [|reflexivity].
  destruct (phase_eqb (phase (rescueState g)) RESCUE_IDLE); reflexivity.
Qed.

(** What the watchdog does when a rescue starts. *)
Lemma entered_from_idle (e : inputs) (g : gps_rescue) :
  FLIGHT_MODE_GPS_RESCUE e = true ->
  phase (rescueState g) = RESCUE_IDLE ->
  entered cfg USE_MAG e g
  = set_sanityMem
      {| sanity.previousTimeUs := micros_start e;
         sanity.prevAltitudeCm := currentAltitudeCm (sensor (rescueState g));
         sanity.secondsLowSats := 5;
         sanity.secondsDoingNothing := 0 |}
      (set_attain attain_reset (rescueStart g)).
Proof.
  intros Hm Hp. unfold entered. rewrite Hm, Hp. reflexivity.
Qed.

Lemma entered_phase (e : inputs) (g : gps_rescue) :
  phase (rescueState (entered cfg USE_MAG e g)) = dispatched_phase e g.
Proof.
  unfold dispatched_phase.
  destruct (FLIGHT_MODE_GPS_RESCUE e) eqn:Hm; cbn [negb].
  - destruct (phase (rescueState g)) eqn:Hp;
      try (unfold entered; rewrite Hm, Hp; exact Hp).
    rewrite (entered_from_idle e g Hm Hp). reflexivity.
  - unfold entered. rewrite Hm. reflexivity.
Qed.

Lemma entered_frame (e : inputs) (g : gps_rescue) :
  intent (rescueState (entered cfg USE_MAG e g)) = intent (rescueState g)
  /\ failure (rescueState (entered cfg USE_MAG e g)) = failure (rescueState g)
  /\ sensor (rescueState (entered cfg USE_MAG e g)) = sensor (rescueState g)
  /\ magForceDisable (entered cfg USE_MAG e g) = magForceDisable g
  /\ newGPSData (entered cfg USE_MAG e g) = newGPSData g.
Proof.
  destruct (FLIGHT_MODE_GPS_RESCUE e) eqn:Hm.
  - destruct (phase (rescueState g)) eqn:Hp;
      unfold entered; rewrite Hm, Hp; repeat split; reflexivity.
  - unfold entered. rewrite Hm. repeat split; reflexivity.
Qed.

Lemma rescueUpToController_ok (e : inputs) (g : gps_rescue) :
  rescueUpToController cfg USE_MAG e g
  = Ok (performSanityChecks cfg USE_MAG (micros_sanity e) e
          (fst (rescueAdvance cfg e (entered cfg USE_MAG e g))),
        snd (rescueAdvance cfg e (entered cfg USE_MAG e g))).
Proof.
  unfold rescueUpToController. rewrite rescueEnter_ok. simpl.
  destruct (rescueAdvance cfg e (entered cfg USE_MAG e g)); reflexivity.
Qed.

Lemma rescueAdvance_sensed (e : inputs) (g : gps_rescue) :
  rescueAdvance cfg e (entered cfg USE_MAG e g)
  = (fst (fst (rescuePhaseSwitch cfg e
                 (to_uint8 (gpsRescueConfig.angle cfg / 2)) true (sensed cfg USE_MAG e g))),
     snd (rescuePhaseSwitch cfg e
            (to_uint8 (gpsRescueConfig.angle cfg / 2)) true (sensed cfg USE_MAG e g))).
Proof.
  unfold rescueAdvance, sensed.
  destruct (checkGPSRescueIsAvailable e _) as [a g2]. cbn [fst snd].
  destruct (rescuePhaseSwitch _ _ _ _ _) as [[g4 b] calls]. reflexivity.
Qed.

Lemma entered_outputs (e : inputs) (g : gps_rescue) :
  newGPSData (entered cfg USE_MAG e g) = newGPSData g
  /\ (attain (entered cfg USE_MAG e g) = attain g
      \/ attain (entered cfg USE_MAG e g) = attain_reset)
  /\ rescueThrottle (entered cfg USE_MAG e g) = rescueThrottle g
  /\ rescueYaw (entered cfg USE_MAG e g) = rescueYaw g.
Proof.
  unfold entered.
  destruct (negb (FLIGHT_MODE_GPS_RESCUE e)); [fields; tauto|].
  destruct (phase_eqb _ _); [|tauto].
  match goal with
  | |- context [performSanityChecks _ _ ?now _ ?x] =>
      destruct (performSanityChecks_frame cfg USE_MAG now e x)
        as [_ [_ [_ [_ [N [A [T Y]]]]]]]
  end.
  rewrite N, A, T, Y. fields. cbn [set_attain attain newGPSData rescueThrottle rescueYaw].
  fields. tauto.
Qed.

(** The state the final call of the controller runs on. *)
Lemma upToController_outputs (e : inputs) (g g1 : gps_rescue) (calls : list call) :
  rescueUpToController cfg USE_MAG e g = Ok (g1, calls) ->
  newGPSData g1 = newGPSData g
  /\ (attain g1 = attain g \/ attain g1 = attain_reset)
  /\ rescueThrottle g1 = rescueThrottle g
  /\ rescueYaw g1 = rescueYaw g
  /\ (newGPSData g = true ->
      errorAngle (sensor (rescueState g1)) = normalised_errorAngle e).
Proof.
  rewrite rescueUpToController_ok. intros H. injection H as <- _.
  rewrite (rescueAdvance_sensed e g). cbn [fst].
  match goal with
  | |- context [performSanityChecks _ _ ?now _ ?x] =>
      destruct (performSanityChecks_frame cfg USE_MAG now e x)
        as [_ [_ [_ [S [N [A [T Y]]]]]]]
  end.
  rewrite S, N, A, T, Y.
  destruct (rescuePhaseSwitch_outputs cfg e
              (to_uint8 (gpsRescueConfig.angle cfg / 2)) true (sensed cfg USE_MAG e g))
    as [[N1 [A1 [T1 Y1]]] E1].
  rewrite N1, A1, T1, Y1, E1.
  unfold sensed.
  destruct (checkGPSRescueIsAvailable_frame e
              (sensorUpdate cfg e (entered cfg USE_MAG e g))) as [R2 _].
  destruct (checkGPSRescueIsAvailable_outputs e
              (sensorUpdate cfg e (entered cfg USE_MAG e g))) as [N2 [A2 [T2 Y2]]].
  cbv zeta in R2. fields. rewrite R2, N2, A2, T2, Y2.
  destruct (sensorUpdate_outputs cfg e (entered cfg USE_MAG e g)) as [[N3 [A3 [T3 Y3]]] E3].
  rewrite N3, A3, T3, Y3.
  destruct (entered_outputs e g) as [N4 [A4 [T4 Y4]]].
  rewrite N4, T4, Y4 in *.
  repeat split; try assumption.
Qed.

End Enter.

(** ** Climbing or descending to the return altitude *)

(** C1.  A rescue that starts above the return altitude does not step its
    target down: the flag that records the start is a local re-initialised to
    [true] on every tick, so [RESCUE_ATTAIN_ALT] always takes the climbing
    branch.  Here the craft idles at 50 m with the return altitude at 30 m
    and the rescue is switched on: [RESCUE_INITIALIZE] computes a false
    [startedLow] and enters [RESCUE_ATTAIN_ALT] with the target at 5000 cm;
    on the next GPS sample the target is set to 3000 cm at once and the
    phase is [RESCUE_ROTATE], where the claim has the target at
    5000 - descendStepCm and the phase unchanged. *)
Theorem attain_alt_from_above_snaps_to_return_altitude :
  exists g2 calls2 g3 calls3,
    run fixed_alt_config true high_start gps_rescue_init = Ok (g2, calls2)
    /\ phase (rescueState g2) = RESCUE_ATTAIN_ALT
    /\ targetAltitudeCm (intent (rescueState g2)) = f32.of_int 5000
    /\ returnAltitudeCm (intent (rescueState g2)) = f32.of_int 3000
    /\ (f32.of_int (currentAltitudeCm (sensor (rescueState g2)))
        <=? returnAltitudeCm (intent (rescueState g2)))%f32 = false
    /\ rescueUpToController fixed_alt_config true
         (readings_at true 5000 20000 200000) (rescueNewGpsData g2)
       = Ok (g3, calls3)
    /\ phase (rescueState g3) = RESCUE_ROTATE
    /\ targetAltitudeCm (intent (rescueState g3)) = f32.of_int 3000
    /\ descendStepCm (sensor (rescueState g3)) = f32.lit 125 10
    /\ targetAltitudeCm (intent (rescueState g3))
       <> (f32.of_int 5000 - descendStepCm (sensor (rescueState g3)))%f32.
Proof.
  do 4 eexists.
  split; [vm_compute; reflexivity|].
  split; [reflexivity|].
  split; [vm_compute; reflexivity|].
  split; [vm_compute; reflexivity|].
  split; [vm_compute; reflexivity|].
  split; [vm_compute; reflexivity|].
  split; [reflexivity|].
  split; [vm_compute; reflexivity|].
  split; [vm_compute; reflexivity|].
  vm_compute. discriminate.
Qed.

(** ** Bounds on the controller's outputs and accumulators *)

Section Bounds.

Variable cfg : gpsRescueConfig.t.

Import f32_facts.

Lemma zero_in_bounds :
  yaw_bound f32.zero /\ velocityI_bound f32.zero /\ throttleI_bound f32.zero.
Proof. repeat split; right; reflexivity. Qed.

Lemma iterm_limit_velocity (x : f32.t) :
  velocityI_bound (iterm_limit GPS_RESCUE_MAX_ITERM_VELOCITY x).
Proof. apply constrainf_nan_or_in_range. reflexivity. Qed.

Lemma iterm_limit_throttle (x : f32.t) :
  throttleI_bound (iterm_limit GPS_RESCUE_MAX_ITERM_THROTTLE x).
Proof. apply constrainf_nan_or_in_range. reflexivity. Qed.

Lemma attain_yawRate_bound (g : gps_rescue) : yaw_bound (attain_yawRate cfg g).
Proof. apply constrainf_nan_or_in_range. reflexivity. Qed.

Lemma yaw_bound_neg (x : f32.t) : yaw_bound x -> yaw_bound (f32.neg x).
Proof.
  intros [H|H].
  - left. destruct x; try discriminate. reflexivity.
  - right. apply (in_range_neg (f32.of_int GPS_RESCUE_MAX_YAW_RATE)). exact H.
Qed.

Lemma attain_yawRate_valid (g : gps_rescue) :
  f32.valid (errorAngle (sensor (rescueState g))) = true ->
  f32.valid (attain_yawRate cfg g) = true.
Proof.
  intros H. unfold attain_yawRate.
  apply constrainf_valid; try apply of_int_valid.
  apply mul_valid; [|reflexivity].
  apply mul_valid; [exact H | apply of_int_valid].
Qed.

(** The reversal sign is exact on a canonically encoded yaw rate. *)
Lemma attain_rescueYaw_bound (e : inputs) (g : gps_rescue) :
  f32.valid (errorAngle (sensor (rescueState g))) = true ->
  yaw_bound (attain_rescueYaw cfg e g).
Proof.
  intros Hv. apply attain_yawRate_valid in Hv. unfold attain_rescueYaw.
  destruct (negb (updateYaw (intent (rescueState g)))); [apply zero_in_bounds|].
  unfold GET_DIRECTION. destruct (yaw_control_reversed e).
  - rewrite (mul_minus_one _ Hv). apply yaw_bound_neg, attain_yawRate_bound.
  - rewrite (mul_one _ Hv). apply attain_yawRate_bound.
Qed.

(** The heading error a GPS sample stores is canonically encoded,
    whatever the readings. *)
Lemma normalised_errorAngle_valid (e : inputs) :
  f32.valid (normalised_errorAngle e) = true.
Proof.
  unfold normalised_errorAngle.
  assert (Ha : f32.valid
    (f32.mul (f32.of_int (attitude_yaw e - GPS_directionToHome e)) (f32.lit 1 10))
    = true).
  { apply mul_valid; [apply of_int_valid | reflexivity]. }
  destruct (f32.leb _ _).
  - apply add_valid; [exact Ha | apply of_int_valid].
  - destruct (f32.gtb _ _); [|exact Ha].
    apply sub_valid; [exact Ha | apply of_int_valid].
Qed.

(** What one controller update stores. *)
Lemma attain_update_stores (e : inputs) (g g' : gps_rescue) :
  attain_update cfg e g = Ok g' ->
  (exists x, velocityI (attain g') = iterm_limit GPS_RESCUE_MAX_ITERM_VELOCITY x)
  /\ throttleI (attain g') = attain_throttleI cfg g
  /\ rescueYaw g' = attain_rescueYaw cfg e g
  /\ (exists z,
        rescueThrottle g'
        = constrainf (f32.of_int z)
            (f32.of_int (gpsRescueConfig.throttleMin cfg))
            (f32.of_int (gpsRescueConfig.throttleMax cfg))).
Proof.
  unfold attain_update.
  destruct (attain_velocityI_attenuated cfg g) as [v|u]; cbn [bind]; intros H;
    [|discriminate].
  injection H as <-.
  split; [eexists; reflexivity|].
  split; [reflexivity|].
  split; [reflexivity|].
  eexists; reflexivity.
Qed.

(** One run of the controller, on a state whose heading error is a
    canonically encoded value when a new GPS sample is pending. *)
Lemma rescueAttainPosition_bounds (e : inputs) (g g' : gps_rescue) :
  rescueAttainPosition cfg e g = Ok g' ->
  (f32.of_int (gpsRescueConfig.throttleMin cfg)
   <=? f32.of_int (gpsRescueConfig.throttleMax cfg))%f32 = true ->
  (newGPSData g = true -> f32.valid (errorAngle (sensor (rescueState g))) = true) ->
  yaw_bound (rescueYaw g) ->
  velocityI_bound (velocityI (attain g)) ->
  throttleI_bound (throttleI (attain g)) ->
  yaw_bound (rescueYaw g')
  /\ velocityI_bound (velocityI (attain g'))
  /\ throttleI_bound (throttleI (attain g'))
  /\ match phase (rescueState g) with
     | RESCUE_IDLE => rescueThrottle g' = rcCommand_THROTTLE e
     | RESCUE_DO_NOTHING =>
         rescueThrottle g' = f32.of_int (gpsRescueConfig.throttleHover cfg)
     | RESCUE_INITIALIZE => rescueThrottle g' = rescueThrottle g
     | _ =>
         if newGPSData g then throttle_in_limits cfg (rescueThrottle g')
         else rescueThrottle g' = rescueThrottle g
     end.
Proof.
  intros Hrun Hlim Hvalid Hyaw HvI HtI.
  assert (Hactive :
    (if negb (newGPSData g) then Ok g else attain_update cfg e g) = Ok g' ->
    yaw_bound (rescueYaw g')
    /\ velocityI_bound (velocityI (attain g'))
    /\ throttleI_bound (throttleI (attain g'))
    /\ (if newGPSData g then throttle_in_limits cfg (rescueThrottle g')
        else rescueThrottle g' = rescueThrottle g)).
  { destruct (newGPSData g); cbn [negb]; intros H.
    - destruct (attain_update_stores e g g' H) as [[x Hx] [Ht [Hy [z Hz]]]].
      rewrite Hx, Ht, Hy, Hz.
      split; [apply attain_rescueYaw_bound; apply Hvalid; reflexivity|].
      split; [apply iterm_limit_velocity|].
      split; [apply iterm_limit_throttle|].
      apply f32_facts.constrainf_in_range; [exact Hlim|].
      apply f32_facts.of_int_not_nan.
    - injection H as <-. auto. }
  unfold rescueAttainPosition in Hrun.
  destruct (phase (rescueState g)); try (apply Hactive; exact Hrun);
    injection Hrun as <-; cbn;
    pose proof zero_in_bounds as [Z1 [Z2 Z3]]; auto.
Qed.

End Bounds.

(** C2, as stated, fails in [RESCUE_IDLE]: the controller copies the pilot's
    throttle channel, here 1000, below [throttleMin] = 1100. *)
Lemma idle_throttle_is_outside_the_limits :
  exists g' calls,
    updateGPSRescueState default_config true
      (readings_at false 1000 20000 100000) gps_rescue_init = Ok (g', calls)
    /\ phase (rescueState g') = RESCUE_IDLE
    /\ rescueThrottle g' = f32.of_int 1000
    /\ f32.in_range
         (f32.of_int (gpsRescueConfig.throttleMin default_config))
         (f32.of_int (gpsRescueConfig.throttleMax default_config))
         (rescueThrottle g') = false.
Proof.
  do 2 eexists.
  split; [vm_compute; reflexivity|].
  split; [reflexivity|].
  split; vm_compute; reflexivity.
Qed.

(** C2, amended.  Every tick that completes keeps |rescueYaw| <= 90,
    |velocityI| <= 1000 and |throttleI| <= 200 (a NaN, which no clamp
    removes, aside).  The throttle is inside [throttleMin, throttleMax]
    after a tick with a new GPS sample that ends in a phase that reaches
    the throttle controller; after a tick that ends in [RESCUE_IDLE] it is
    the pilot's throttle channel and in [RESCUE_DO_NOTHING] the hover
    throttle, neither of them clamped. *)
Theorem every_tick_keeps_the_bounds (cfg : gpsRescueConfig.t) (USE_MAG : bool)
  (e : inputs) (g g' : gps_rescue) (calls : list call) :
  updateGPSRescueState cfg USE_MAG e g = Ok (g', calls) ->
  (f32.of_int (gpsRescueConfig.throttleMin cfg)
   <=? f32.of_int (gpsRescueConfig.throttleMax cfg))%f32 = true ->
  yaw_bound (rescueYaw g) ->
  velocityI_bound (velocityI (attain g)) ->
  throttleI_bound (throttleI (attain g)) ->
  yaw_bound (rescueYaw g')
  /\ velocityI_bound (velocityI (attain g'))
  /\ throttleI_bound (throttleI (attain g'))
  /\ match phase (rescueState g') with
     | RESCUE_IDLE => rescueThrottle g' = rcCommand_THROTTLE e
     | RESCUE_DO_NOTHING =>
         rescueThrottle g' = f32.of_int (gpsRescueConfig.throttleHover cfg)
     | RESCUE_INITIALIZE => rescueThrottle g' = rescueThrottle g
     | _ =>
         if newGPSData g then throttle_in_limits cfg (rescueThrottle g')
         else rescueThrottle g' = rescueThrottle g
     end.
Proof.
  intros Hupd Hlim Hyaw HvI HtI.
  unfold updateGPSRescueState in Hupd.
  destruct (rescueUpToController cfg USE_MAG e g) as [[g1 c1]|u] eqn:Hup;
    [|discriminate].
  cbn [bind fst snd] in Hupd.
  destruct (rescueAttainPosition cfg e g1) as [g2|u] eqn:Hctl; [|discriminate].
  cbn [bind] in Hupd. injection Hupd as <- _.
  destruct (upToController_outputs cfg USE_MAG e g g1 c1 Hup)
    as [N [A [T [Y E]]]].
  pose proof zero_in_bounds as [_ [Z2 Z3]].
  assert (B : velocityI_bound (velocityI (attain g1))
              /\ throttleI_bound (throttleI (attain g1))).
  { destruct A as [A|A]; rewrite A; split; assumption. }
  destruct B as [B1 B2].
  destruct (rescueAttainPosition_bounds cfg e g1 g2 Hctl Hlim) as [R1 [R2 [R3 R4]]];
    try assumption.
  - rewrite N. intros Hn. rewrite (E Hn). apply normalised_errorAngle_valid.
  - rewrite Y. exact Hyaw.
  - destruct (rescueAttainPosition_frame cfg e g1 g2 Hctl) as [S _].
    cbn [set_newGPSData rescueYaw attain rescueThrottle rescueState].
    rewrite S. rewrite N, T in R4.
    repeat split; assumption.
Qed.

Lemma every_tick_keeps_the_bounds_witness :
  exists g' calls,
    updateGPSRescueState default_config true fly_home_readings fly_home_state
    = Ok (g', calls)
    /\ newGPSData fly_home_state = true
    /\ phase (rescueState g') = RESCUE_FLY_HOME
    /\ yaw_bound (rescueYaw g')
    /\ velocityI_bound (velocityI (attain g'))
    /\ throttleI_bound (throttleI (attain g'))
    /\ throttle_in_limits default_config (rescueThrottle g').
Proof.
  do 2 eexists.
  split; [vm_compute; reflexivity|].
  split; [reflexivity|].
  split; [reflexivity|].
  match goal with
  | |- yaw_bound (rescueYaw ?g') /\ _ =>
      pose proof
        (every_tick_keeps_the_bounds default_config true
           fly_home_readings fly_home_state g' []) as H
  end.
  apply H.
  - vm_compute; reflexivity.
  - vm_compute; reflexivity.
  - right; vm_compute; reflexivity.
  - right; vm_compute; reflexivity.
  - right; vm_compute; reflexivity.
Defined.

(** ** The sanity watchdog *)

Section Watchdog.

Variable cfg : gpsRescueConfig.t.
Variable USE_MAG : bool.

Lemma effect_refl (g : gps_rescue) : watchdog_1hz_effect g g.
Proof. unfold watchdog_1hz_effect. tauto. Qed.

Lemma effect_trans (g1 g2 g3 : gps_rescue) :
  watchdog_1hz_effect g1 g2 -> watchdog_1hz_effect g2 g3 ->
  watchdog_1hz_effect g1 g3.
Proof.
  unfold watchdog_1hz_effect. intros [P1 F1] [P2 F2]. split.
  - destruct P2 as [P2|P2]; [rewrite P2; exact P1 | right; exact P2].
  - destruct F2 as [F2|F2]; [rewrite F2; exact F1 | tauto].
Qed.

Lemma effect_same_state (g g' : gps_rescue) :
  phase (rescueState g') = phase (rescueState g) ->
  failure (rescueState g') = failure (rescueState g) ->
  watchdog_1hz_effect g g'.
Proof. unfold watchdog_1hz_effect. tauto. Qed.

Lemma effect_sanity_flyHome (e : inputs) (g : gps_rescue) :
  watchdog_1hz_effect g (sanity_flyHome cfg USE_MAG e g).
Proof.
  unfold sanity_flyHome, watchdog_1hz_effect.
  destruct (_ =? 20); [|cbn; tauto].
  destruct (_ && _); cbn; tauto.
Qed.

Lemma effect_sanity_altitude_count (b : bool) (g : gps_rescue) :
  watchdog_1hz_effect g (sanity_altitude_count b g).
Proof.
  unfold sanity_altitude_count, watchdog_1hz_effect.
  destruct (_ =? 10); cbn; tauto.
Qed.

Lemma effect_sanity_special (g : gps_rescue) :
  watchdog_1hz_effect g (sanity_special cfg g).
Proof.
  unfold sanity_special.
  destruct (phase (rescueState g)) eqn:E;
    try apply effect_refl; try apply effect_sanity_altitude_count.
  unfold watchdog_1hz_effect. destruct (_ =? 10); cbn; tauto.
Qed.

Lemma effect_sanity_lowSats (e : inputs) (g : gps_rescue) :
  watchdog_1hz_effect g (sanity_lowSats e g).
Proof.
  unfold sanity_lowSats, watchdog_1hz_effect.
  destruct (_ =? 10); cbn; tauto.
Qed.

Lemma effect_sanity_1hz (now : Z) (e : inputs) (g : gps_rescue) :
  watchdog_1hz_effect g (sanity_1hz cfg USE_MAG now e g).
Proof.
  unfold sanity_1hz.
  eapply effect_trans; [|apply effect_sanity_lowSats].
  eapply effect_trans; [|apply effect_same_state; reflexivity].
  eapply effect_trans; [|apply effect_sanity_special].
  match goal with
  | |- context [match ?p with _ => _ end] => destruct p
  end;
    try (apply effect_same_state; reflexivity).
  eapply effect_trans; [|apply effect_sanity_flyHome].
  apply effect_same_state; reflexivity.
Qed.

(** The per-tick part, on an unhealthy GPS sensor. *)
Lemma sanity_detect_gps_lost (e : inputs) (g : gps_rescue) :
  healthy (sensor (rescueState g)) = false ->
  failure (rescueState (sanity_detect e g)) = RESCUE_GPSLOST
  /\ phase (rescueState (sanity_detect e g)) = phase (rescueState g).
Proof.
  intros H. unfold sanity_detect.
  destruct (crashRecoveryModeActive e); cbn; rewrite H; cbn; tauto.
Qed.

Lemma sanity_handle_failure_phase (e : inputs) (g : gps_rescue) :
  phase (rescueState (sanity_handle_failure cfg e g))
  = if failure_is_healthy (failure (rescueState g)) then phase (rescueState g)
    else sanity_policy_phase cfg (negb (rxIsReceivingSignal e)).
Proof.
  unfold sanity_handle_failure.
  destruct (failure_is_healthy (failure (rescueState g))); reflexivity.
Qed.

Lemma sanity_handle_failure_sensor (e : inputs) (g : gps_rescue) :
  sensor (rescueState (sanity_handle_failure cfg e g)) = sensor (rescueState g).
Proof.
  unfold sanity_handle_failure.
  destruct (failure_is_healthy (failure (rescueState g))); reflexivity.
Qed.

Lemma performSanityChecks_active (now : Z) (e : inputs) (g : gps_rescue) :
  active_phase (phase (rescueState g)) ->
  performSanityChecks cfg USE_MAG now e g
  = let g1 := sanity_detect e (sanity_handle_failure cfg e g) in
    if cmpTimeUs now (sanity.previousTimeUs (sanityMem g1)) <? 1000000 then g1
    else sanity_1hz cfg USE_MAG now e g1.
Proof.
  intros [H1 H2]. unfold performSanityChecks.
  destruct (phase (rescueState g)); try reflexivity; congruence.
Qed.

Lemma sanity_policy_phase_active (b : bool) :
  active_phase (sanity_policy_phase cfg b).
Proof.
  unfold sanity_policy_phase, active_phase.
  destruct (gpsRescueConfig.sanityChecks cfg); try destruct b; split; discriminate.
Qed.

(** *** The once-a-second part, exactly *)

Lemma sanity_lowSats_keeps (e : inputs) (g : gps_rescue) :
  phase (rescueState (sanity_lowSats e g)) = phase (rescueState g)
  /\ intent (rescueState (sanity_lowSats e g)) = intent (rescueState g)
  /\ sanity.secondsDoingNothing (sanityMem (sanity_lowSats e g))
     = sanity.secondsDoingNothing (sanityMem g).
Proof.
  unfold sanity_lowSats. destruct (_ =? 10); repeat split; reflexivity.
Qed.

Lemma sanity_altitude_count_limit (b : bool) (g : gps_rescue) :
  let g' := sanity_altitude_count b g in
  phase (rescueState g')
  = (if secondsFailing (intent (rescueState g')) =? 10 then RESCUE_ABORT
     else phase (rescueState g))
  /\ sanityMem g' = sanityMem g.
Proof.
  cbv zeta. unfold sanity_altitude_count. fields.
  destruct (_ =? 10) eqn:E; fields; rewrite E; split; reflexivity.
Qed.

Lemma sanity_flyHome_phase (e : inputs) (g : gps_rescue) :
  phase (rescueState (sanity_flyHome cfg USE_MAG e g)) = phase (rescueState g).
Proof.
  unfold sanity_flyHome. destruct (_ =? 20); [|reflexivity].
  destruct (_ && _); reflexivity.
Qed.

Lemma sanity_special_limit (g : gps_rescue) :
  phase (rescueState (sanity_special cfg g))
  = if abort_limit_reached (phase (rescueState g)) (sanity_special cfg g)
    then RESCUE_ABORT else phase (rescueState g).
Proof.
  unfold sanity_special.
  destruct (phase (rescueState g)) eqn:P; cbn [abort_limit_reached];
    try (rewrite P; reflexivity);
    try (match goal with
         | |- context [sanity_altitude_count ?b g] =>
             destruct (sanity_altitude_count_limit b g) as [H _];
             rewrite H, P; reflexivity
         end).
  cbv zeta. destruct (_ =? 10) eqn:E; cbn; rewrite E; [reflexivity | exact P].
Qed.

Lemma sanity_1hz_limit (now : Z) (e : inputs) (g : gps_rescue) :
  let g' := sanity_1hz cfg USE_MAG now e g in
  phase (rescueState g')
  = if abort_limit_reached (phase (rescueState g)) g'
    then RESCUE_ABORT else phase (rescueState g).
Proof.
  cbv zeta. unfold sanity_1hz.
  set (g1 := set_sanityMem (set_sanity_previousTimeUs now (sanityMem g)) g).
  set (g2 := match phase (rescueState g1) with
             | RESCUE_FLY_HOME => sanity_flyHome cfg USE_MAG e g1
             | _ => g1
             end).
  assert (P2 : phase (rescueState g2) = phase (rescueState g)).
  { unfold g2. destruct (phase (rescueState g1)) eqn:P; cbv iota;
      try reflexivity. exact (sanity_flyHome_phase e g1). }
  set (g3 := sanity_special cfg g2).
  set (g4 := set_sanityMem (set_prevAltitudeCm _ (sanityMem g3)) g3).
  destruct (sanity_lowSats_keeps e g4) as (Pl & Il & Dl).
  rewrite Pl.
  assert (L : abort_limit_reached (phase (rescueState g)) (sanity_lowSats e g4)
              = abort_limit_reached (phase (rescueState g)) g3).
  { unfold abort_limit_reached. rewrite Il, Dl. reflexivity. }
  rewrite L. change (phase (rescueState g4)) with (phase (rescueState g3)).
  unfold g3. rewrite sanity_special_limit, P2. reflexivity.
Qed.

Lemma sanity_lowSats_failure (e : inputs) (g : gps_rescue) :
  failure (rescueState (sanity_lowSats e g))
  = if sanity.secondsLowSats (sanityMem (sanity_lowSats e g)) =? 10
    then RESCUE_LOWSATS else failure (rescueState g).
Proof.
  unfold sanity_lowSats. destruct (_ =? 10) eqn:E; cbn; rewrite E; reflexivity.
Qed.

Lemma sanity_flyHome_failure (e : inputs) (g : gps_rescue) :
  failure (rescueState (sanity_flyHome cfg USE_MAG e g))
  = if secondsFailing (intent (rescueState (sanity_flyHome cfg USE_MAG e g))) =? 20
    then RESCUE_STALLED else failure (rescueState g).
Proof.
  unfold sanity_flyHome. fields.
  destruct (_ =? 20) eqn:E; fields; [|rewrite E; reflexivity].
  destruct (_ && _); fields; [reflexivity | rewrite E; reflexivity].
Qed.

Lemma sanity_special_keeps (g : gps_rescue) :
  failure (rescueState (sanity_special cfg g)) = failure (rescueState g)
  /\ (phase (rescueState g) = RESCUE_FLY_HOME -> sanity_special cfg g = g).
Proof.
  unfold sanity_special, sanity_altitude_count.
  destruct (phase (rescueState g)); cbv zeta; fields;
    repeat match goal with
           | |- context [if ?c then _ else _] => destruct c
           end; split; try reflexivity; discriminate.
Qed.

Lemma sanity_1hz_failure_exact (now : Z) (e : inputs) (g : gps_rescue) :
  let g' := sanity_1hz cfg USE_MAG now e g in
  failure (rescueState g')
  = failure_after_1hz (phase (rescueState g)) (failure (rescueState g)) g'.
Proof.
  cbv zeta. unfold sanity_1hz, failure_after_1hz.
  set (g1 := set_sanityMem (set_sanity_previousTimeUs now (sanityMem g)) g).
  set (g2 := match phase (rescueState g1) with
             | RESCUE_FLY_HOME => sanity_flyHome cfg USE_MAG e g1
             | _ => g1
             end).
  set (g3 := sanity_special cfg g2).
  set (g4 := set_sanityMem (set_prevAltitudeCm _ (sanityMem g3)) g3).
  rewrite sanity_lowSats_failure.
  destruct (sanity_lowSats_keeps e g4) as (_ & Il & _). rewrite Il.
  destruct (_ =? 10); [reflexivity|].
  change (failure (rescueState g4)) with (failure (rescueState g3)).
  change (intent (rescueState g4)) with (intent (rescueState g3)).
  destruct (sanity_special_keeps g2) as (F3 & S3). fold g3 in F3, S3.
  rewrite F3.
  assert (P2 : phase (rescueState g2) = phase (rescueState g)).
  { unfold g2. destruct (phase (rescueState g1)) eqn:P; cbv iota;
      try reflexivity. exact (sanity_flyHome_phase e g1). }
  rewrite P2 in S3. unfold g2 in *.
  change (phase (rescueState g1)) with (phase (rescueState g)) in *.
  destruct (phase (rescueState g)); try reflexivity.
  rewrite (S3 eq_refl). exact (sanity_flyHome_failure e g1).
Qed.

(** One pass outside [RESCUE_IDLE] and [RESCUE_INITIALIZE], through the state
    [g1] its every-tick part leaves. *)
Lemma performSanityChecks_pass (now : Z) (e : inputs) (g : gps_rescue) :
  active_phase (phase (rescueState g)) ->
  let g1 := sanity_detect e (sanity_handle_failure cfg e g) in
  let g' := performSanityChecks cfg USE_MAG now e g in
  sanityMem g1 = sanityMem g ->
  failure (rescueState g')
  = (if watchdog_due now g
     then failure_after_1hz (phase (rescueState g1)) (failure (rescueState g1)) g'
     else failure (rescueState g1))
  /\ phase (rescueState g')
     = (if watchdog_due now g && abort_limit_reached (phase (rescueState g1)) g'
        then RESCUE_ABORT else phase (rescueState g1)).
Proof.
  intros Hact g1 g' Hmem. unfold g', watchdog_due.
  rewrite (performSanityChecks_active now e g Hact). cbv zeta.
  fold g1. rewrite Hmem.
  destruct (cmpTimeUs now (sanity.previousTimeUs (sanityMem g)) <? 1000000);
    cbn [negb andb]; [split; reflexivity|].
  split; [apply sanity_1hz_failure_exact | apply sanity_1hz_limit].
Qed.

Lemma sanity_detect_sanityMem (e : inputs) (g : gps_rescue) :
  sanityMem (sanity_detect e (sanity_handle_failure cfg e g)) = sanityMem g.
Proof.
  unfold sanity_detect, sanity_handle_failure.
  destruct (negb (failure_is_healthy _)), (crashRecoveryModeActive e); cbn;
    destruct (negb (healthy _)); reflexivity.
Qed.

Lemma sanity_policy_phase_table (linkAlive : bool) :
  sanity_policy_phase cfg (negb linkAlive)
  = match gpsRescueConfig.sanityChecks cfg with
    | RESCUE_SANITY_ON => RESCUE_ABORT
    | RESCUE_SANITY_FS_ONLY => if linkAlive then RESCUE_DO_NOTHING else RESCUE_ABORT
    | RESCUE_SANITY_OFF => RESCUE_DO_NOTHING
    end.
Proof.
  unfold sanity_policy_phase.
  destruct (gpsRescueConfig.sanityChecks cfg), linkAlive; reflexivity.
Qed.

Lemma failure_after_1hz_cases (p : rescuePhase_e) (g' : gps_rescue) :
  failure_is_healthy (failure_after_1hz p RESCUE_GPSLOST g') = false.
Proof.
  unfold failure_after_1hz. destruct (_ =? 10); [reflexivity|].
  destruct p; try reflexivity. destruct (_ =? 20); reflexivity.
Qed.

End Watchdog.

(** C3, as stated, fails: with sanity checks on, the pass that finds the
    GPS sensor unhealthy records [RESCUE_GPSLOST] and returns with the
    phase still [RESCUE_FLY_HOME]; the policy has run before the check, on
    the failure of the previous pass. *)
Lemma gps_lost_pass_leaves_the_phase :
  gpsRescueConfig.sanityChecks sanity_on_config = RESCUE_SANITY_ON
  /\ phase (rescueState gps_lost_state) = RESCUE_FLY_HOME
  /\ healthy (sensor (rescueState gps_lost_state)) = false
  /\ failure
       (rescueState
          (performSanityChecks sanity_on_config true
             (micros_sanity gps_lost_readings) gps_lost_readings gps_lost_state))
     = RESCUE_GPSLOST
  /\ phase
       (rescueState
          (performSanityChecks sanity_on_config true
             (micros_sanity gps_lost_readings) gps_lost_readings gps_lost_state))
     = RESCUE_FLY_HOME.
Proof. repeat split; vm_compute; reflexivity. Qed.

(** C3, amended.  A watchdog pass in a phase other than IDLE and INITIALIZE
    that finds the GPS sensor unhealthy records [RESCUE_GPSLOST]; only the
    once-a-second part of the same pass, when it is due, replaces it: by
    [RESCUE_LOWSATS] with the satellite counter at 10, else by
    [RESCUE_STALLED] when the flight home leaves [secondsFailing] at 20.
    The sanity policy is applied at the start of a pass, to the failure the
    previous pass left.  A pass entered with a failure goes to the phase of
    the policy: ABORT when sanityChecks is ON, ABORT when it is FS_ONLY and
    the radio link is dead, DO_NOTHING otherwise; a pass entered healthy
    keeps its phase.  From there the pass aborts exactly when its
    once-a-second part is due and reaches one of its limits of ten seconds.
    So the pass that finds the receiver lost does not apply the policy to
    that loss; the pass after it does, whatever its readings. *)
Theorem gps_lost_is_handled_by_the_next_pass (cfg : gpsRescueConfig.t)
  (USE_MAG : bool) (now : Z) (e : inputs) (g : gps_rescue) :
  active_phase (phase (rescueState g)) ->
  healthy (sensor (rescueState g)) = false ->
  let policy (linkAlive : bool) : rescuePhase_e :=
    match gpsRescueConfig.sanityChecks cfg with
    | RESCUE_SANITY_ON => RESCUE_ABORT
    | RESCUE_SANITY_FS_ONLY => if linkAlive then RESCUE_DO_NOTHING else RESCUE_ABORT
    | RESCUE_SANITY_OFF => RESCUE_DO_NOTHING
    end in
  let entry :=
    if failure_is_healthy (failure (rescueState g)) then phase (rescueState g)
    else policy (rxIsReceivingSignal e) in
  let g' := performSanityChecks cfg USE_MAG now e g in
  failure (rescueState g')
  = (if watchdog_due now g then failure_after_1hz entry RESCUE_GPSLOST g'
     else RESCUE_GPSLOST)
  /\ phase (rescueState g')
     = (if watchdog_due now g && abort_limit_reached entry g' then RESCUE_ABORT
        else entry)
  /\ forall (now2 : Z) (e2 : inputs),
       let g'' := performSanityChecks cfg USE_MAG now2 e2 g' in
       phase (rescueState g'')
       = if watchdog_due now2 g'
            && abort_limit_reached (policy (rxIsReceivingSignal e2)) g''
         then RESCUE_ABORT else policy (rxIsReceivingSignal e2).
Proof.
  intros Hact Hbad policy entry g'.
  (* the every-tick part of the first pass *)
  set (g1 := sanity_detect e (sanity_handle_failure cfg e g)).
  assert (Hg1 : failure (rescueState g1) = RESCUE_GPSLOST
                /\ phase (rescueState g1) = entry).
  { destruct (sanity_detect_gps_lost e (sanity_handle_failure cfg e g)) as [F P].
    { rewrite sanity_handle_failure_sensor. exact Hbad. }
    split; [exact F|]. unfold g1. rewrite P, sanity_handle_failure_phase.
    unfold entry, policy. rewrite sanity_policy_phase_table. reflexivity. }
  destruct Hg1 as [Hf1 Hp1].
  destruct (performSanityChecks_pass cfg USE_MAG now e g Hact
              (sanity_detect_sanityMem cfg e g)) as [Hf Hp].
  fold g1 g' in Hf, Hp. rewrite Hf1, Hp1 in Hf. rewrite Hp1 in Hp.
  split; [exact Hf|]. split; [exact Hp|].
  (* the pass that follows *)
  assert (Hfail : failure_is_healthy (failure (rescueState g')) = false).
  { rewrite Hf. destruct (watchdog_due now g);
      [apply failure_after_1hz_cases | reflexivity]. }
  assert (Hentry : active_phase entry).
  { unfold entry. destruct (failure_is_healthy _); [exact Hact|].
    unfold policy, active_phase.
    destruct (gpsRescueConfig.sanityChecks cfg);
      try destruct (rxIsReceivingSignal e); split; discriminate. }
  assert (Hact' : active_phase (phase (rescueState g'))).
  { rewrite Hp. destruct (_ && _); [split; discriminate | exact Hentry]. }
  intros now2 e2 g''.
  destruct (performSanityChecks_pass cfg USE_MAG now2 e2 g' Hact'
              (sanity_detect_sanityMem cfg e2 g')) as [_ Hp2].
  fold g'' in Hp2.
  assert (P2 : phase (rescueState (sanity_detect e2 (sanity_handle_failure cfg e2 g')))
               = policy (rxIsReceivingSignal e2)).
  { assert (Hs : healthy (sensor (rescueState (sanity_handle_failure cfg e2 g')))
                 = false).
    { rewrite sanity_handle_failure_sensor.
      destruct (performSanityChecks_frame cfg USE_MAG now e g) as (_ & _ & _ & S & _).
      fold g' in S. rewrite S. exact Hbad. }
    destruct (sanity_detect_gps_lost e2 _ Hs) as [_ P]. rewrite P.
    rewrite sanity_handle_failure_phase, Hfail. apply sanity_policy_phase_table. }
  rewrite P2 in Hp2. exact Hp2.
Qed.

Lemma gps_lost_is_handled_by_the_next_pass_witness :
  active_phase (phase (rescueState gps_lost_state))
  /\ healthy (sensor (rescueState gps_lost_state)) = false
  /\ failure
       (rescueState
          (performSanityChecks sanity_on_config true 210000 gps_lost_readings
             gps_lost_state)) = RESCUE_GPSLOST
  /\ phase
       (rescueState
          (performSanityChecks sanity_on_config true 210000 gps_lost_readings
             gps_lost_state)) = RESCUE_FLY_HOME
  /\ phase (rescueState (two_passes sanity_on_config gps_lost_readings)) = RESCUE_ABORT
  /\ phase (rescueState (two_passes default_config gps_lost_readings))
     = RESCUE_DO_NOTHING
  /\ phase (rescueState (two_passes default_config link_lost_readings)) = RESCUE_ABORT
  /\ phase (rescueState (two_passes sanity_off_config gps_lost_readings))
     = RESCUE_DO_NOTHING.
Proof.
  assert (Ha : active_phase (phase (rescueState gps_lost_state)))
    by (split; discriminate).
  assert (Hh : healthy (sensor (rescueState gps_lost_state)) = false)
    by reflexivity.
  split; [exact Ha|]. split; [exact Hh|].
  destruct (gps_lost_is_handled_by_the_next_pass sanity_on_config true 210000
              gps_lost_readings gps_lost_state Ha Hh) as (F & P & Non).
  destruct (gps_lost_is_handled_by_the_next_pass default_config true 210000
              gps_lost_readings gps_lost_state Ha Hh) as (_ & _ & Nfs).
  destruct (gps_lost_is_handled_by_the_next_pass sanity_off_config true 210000
              gps_lost_readings gps_lost_state Ha Hh) as (_ & _ & Noff).
  split; [rewrite F; vm_compute; reflexivity|].
  split; [rewrite P; vm_compute; reflexivity|].
  unfold two_passes.
  split; [rewrite (Non 220000 gps_lost_readings); vm_compute; reflexivity|].
  split; [rewrite (Nfs 220000 gps_lost_readings); vm_compute; reflexivity|].
  split; [rewrite (Nfs 220000 link_lost_readings); vm_compute; reflexivity|].
  rewrite (Noff 220000 gps_lost_readings); vm_compute; reflexivity.
Defined.

(** ** Products and quotients that are never a NaN *)

Section Quotients.

Import f32_facts.

(** A product with a finite constant is a NaN only if the other factor is. *)
Lemma mul_finite_not_nan (x : f32.t) (s : bool) (m : positive) (e : Z) :
  f32.is_nan x = false -> f32.is_nan (f32.mul x (S754_finite s m e)) = false.
Proof.
  destruct x as [sx|sx| |sx mx ex]; intros H; try reflexivity; try discriminate.
  unfold f32.mul, SFmul. apply binary_round_aux_not_nan. lia.
Qed.

Lemma div_eucl_nonneg (a : Z) (b : positive) :
  0 <= a -> 0 <= fst (Z.div_eucl a (Zpos b)).
Proof.
  intros H. change (fst (Z.div_eucl a (Zpos b))) with (a / Zpos b).
  apply Z.div_pos; lia.
Qed.

(** So is a quotient by a finite constant. *)
Lemma div_finite_not_nan (x : f32.t) (s : bool) (m : positive) (e : Z) :
  f32.is_nan x = false -> f32.is_nan (f32.div x (S754_finite s m e)) = false.
Proof.
  destruct x as [sx|sx| |sx mx ex]; intros H; try reflexivity; try discriminate.
  unfold f32.div, SFdiv, SFdiv_core_binary.
  match goal with
  | |- context [Z.div_eucl ?a (Zpos m)] =>
      pose proof (div_eucl_nonneg a m) as Hq;
      destruct (Z.div_eucl a (Zpos m)) as [q r]
  end.
  apply binary_round_aux_not_nan. apply Hq.
  match goal with
  | |- 0 <= match ?s with _ => _ end => destruct s eqn:Es
  end; try lia.
  rewrite Z.shiftl_mul_pow2 by lia.
  apply Z.mul_nonneg_nonneg; [lia|]. apply Z.pow_nonneg. lia.
Qed.

End Quotients.

(** ** The altitude target *)

Section Target.

Variable cfg : gpsRescueConfig.t.
Variable USE_MAG : bool.

Import f32_facts.





Lemma sensed_frame (e : inputs) (g : gps_rescue) :
  phase (rescueState (sensed cfg USE_MAG e g)) = dispatched_phase e g
  /\ intent (rescueState (sensed cfg USE_MAG e g)) = intent (rescueState g)
  /\ failure (rescueState (sensed cfg USE_MAG e g)) = failure (rescueState g)
  /\ newGPSData (sensed cfg USE_MAG e g) = newGPSData g
  /\ magForceDisable (sensed cfg USE_MAG e g) = magForceDisable g
  /\ sensor (rescueState (sensed cfg USE_MAG e g))
     = sensor (rescueState (sensorUpdate cfg e (entered cfg USE_MAG e g)))
  /\ currentAltitudeCm (sensor (rescueState (sensed cfg USE_MAG e g))) = getEstimatedAltitudeCm e.
Proof.
  unfold sensed. cbv zeta.
  pose proof (checkGPSRescueIsAvailable_frame e
                (sensorUpdate cfg e (entered cfg USE_MAG e g))) as Hc.
  cbv zeta in Hc. destruct Hc as [Hrs [Hm [Hn _]]].
  pose proof (sensorUpdate_frame cfg e (entered cfg USE_MAG e g)) as Hs.
  cbv zeta in Hs. destruct Hs as [Sp [Sf [Si [Sm [Sn [_ [_ [Sc _]]]]]]]].
  pose proof (entered_frame cfg USE_MAG e g) as [Ei [Ef [_ [Em En]]]].
  fields. rewrite Hrs, Hm, Hn.
  rewrite Sp, Si, Sf, Sn, Sm, Sc, Ei, Ef, Em, En, entered_phase.
  repeat split; reflexivity.
Qed.

End Target.




(** ** The attenuation of the velocity I-term *)

Section Attenuation.

Variable cfg : gpsRescueConfig.t.

(** With a non-zero target velocity the quotient is 1, and the product with
    it leaves a (canonically encoded) accumulator as it is. *)
Lemma attenuation_is_identity (g : gps_rescue) :
  targetVelocityCmS (intent (rescueState g)) <> 0 ->
  f32.valid (attain_velocityI_sum cfg g) = true ->
  int_div (targetVelocityCmS (intent (rescueState g)))
    (targetVelocityCmS (intent (rescueState g))) = Ok 1
  /\ attain_velocityI_attenuated cfg g = Ok (attain_velocityI_sum cfg g).
Proof.
  intros Hnz Hv. unfold attain_velocityI_attenuated, int_div.
  destruct (Z.eqb_spec (targetVelocityCmS (intent (rescueState g))) 0) as [E|E];
    [contradiction|].
  rewrite (Z.quot_same _ E). cbn [bind].
  rewrite (f32_facts.mul_one _ Hv). split; reflexivity.
Qed.

(** With a zero target velocity the quotient is 0 / 0. *)
Lemma attenuation_is_undefined (g : gps_rescue) :
  targetVelocityCmS (intent (rescueState g)) = 0 ->
  attain_velocityI_attenuated cfg g = Undefined DivisionByZero.
Proof.
  intros Hz. unfold attain_velocityI_attenuated. rewrite Hz. reflexivity.
Qed.

(** The controller is undefined exactly there. *)
Lemma rescueAttainPosition_undefined (e : inputs) (g : gps_rescue) (u : undefined) :
  rescueAttainPosition cfg e g = Undefined u <->
  (phase (rescueState g) <> RESCUE_IDLE
   /\ phase (rescueState g) <> RESCUE_INITIALIZE
   /\ phase (rescueState g) <> RESCUE_DO_NOTHING
   /\ newGPSData g = true
   /\ targetVelocityCmS (intent (rescueState g)) = 0).
Proof.
  assert (Hupd : attain_update cfg e g = Undefined u
                 <-> targetVelocityCmS (intent (rescueState g)) = 0).
  { unfold attain_update, attain_velocityI_attenuated, int_div.
    destruct (Z.eqb_spec (targetVelocityCmS (intent (rescueState g))) 0) as [E|E];
      cbn [bind].
    - destruct u. split; auto.
    - split; [discriminate | contradiction]. }
  unfold rescueAttainPosition.
  destruct (phase (rescueState g));
    try (split; [discriminate | intros [H1 [H2 [H3 _]]]; congruence]);
    (destruct (newGPSData g); cbn [negb];
     [ rewrite Hupd; split;
       [ intros H; repeat split; (discriminate || exact H)
       | intros [_ [_ [_ [_ H]]]]; exact H ]
     | split; [discriminate | intros [_ [_ [_ [H _]]]]; discriminate] ]).
Qed.

End Attenuation.

(** C5.  The quotient [targetVelocityCmS / targetVelocityCmS] divides two
    [uint16_t] values as integers.  A rescue enters [RESCUE_ATTAIN_ALT] with
    the target velocity at 0, so the first controller update on a GPS sample
    evaluates 0 / 0: the expression has no value and neither the update nor
    the tick is defined there, where the claim has it equal to 1. *)
Theorem velocityI_attenuation_divides_zero_by_zero :
  exists g2 calls2 g3 calls3,
    run default_config true rescue_start gps_rescue_init = Ok (g2, calls2)
    /\ phase (rescueState g2) = RESCUE_ATTAIN_ALT
    /\ targetVelocityCmS (intent (rescueState g2)) = 0
    /\ rescueUpToController default_config true
         (readings_at true 1000 20000 200000) (rescueNewGpsData g2)
       = Ok (g3, calls3)
    /\ phase (rescueState g3) = RESCUE_ATTAIN_ALT
    /\ newGPSData g3 = true
    /\ int_div (targetVelocityCmS (intent (rescueState g3)))
         (targetVelocityCmS (intent (rescueState g3)))
       = Undefined DivisionByZero
    /\ attain_velocityI_attenuated default_config g3 = Undefined DivisionByZero
    /\ rescueAttainPosition default_config (readings_at true 1000 20000 200000) g3
       = Undefined DivisionByZero
    /\ tick default_config true (tick_at true true 1000 20000 200000) g2
       = Undefined DivisionByZero.
Proof.
  do 4 eexists.
  split; [vm_compute; reflexivity|].
  split; [reflexivity|].
  split; [reflexivity|].
  split; [vm_compute; reflexivity|].
  split; [reflexivity|].
  repeat split; vm_compute; reflexivity.
Qed.

(** ** Impact detection while landing *)

Section Landing.

Variable cfg : gpsRescueConfig.t.
Variable USE_MAG : bool.

Lemma sensorUpdate_accMagnitude (e : inputs) (g : gps_rescue) :
  accMagnitude (sensor (rescueState (sensorUpdate cfg e g)))
  = match phase (rescueState g) with
    | RESCUE_LANDING => landing_accMagnitude e
    | _ => accMagnitude (sensor (rescueState g))
    end.
Proof.
  unfold sensorUpdate. destruct (negb (newGPSData g)); reflexivity.
Qed.

Lemma sanity_lowSats_phase (e : inputs) (g : gps_rescue) :
  phase (rescueState (sanity_lowSats e g)) = phase (rescueState g).
Proof.
  unfold sanity_lowSats. destruct (_ =? 10); reflexivity.
Qed.

(** The once-a-second part has no business with [RESCUE_COMPLETE]. *)
Lemma sanity_1hz_keeps_COMPLETE (now : Z) (e : inputs) (g : gps_rescue) :
  phase (rescueState g) = RESCUE_COMPLETE ->
  phase (rescueState (sanity_1hz cfg USE_MAG now e g)) = RESCUE_COMPLETE.
Proof.
  intros H. unfold sanity_1hz. rewrite sanity_lowSats_phase.
  cbn [set_sanityMem rescueState]. rewrite H.
  unfold sanity_special. cbn [set_sanityMem rescueState]. rewrite H. exact H.
Qed.

Lemma performSanityChecks_keeps_COMPLETE (now : Z) (e : inputs) (g : gps_rescue) :
  phase (rescueState g) = RESCUE_COMPLETE ->
  failure (rescueState g) = RESCUE_HEALTHY ->
  phase (rescueState (performSanityChecks cfg USE_MAG now e g)) = RESCUE_COMPLETE.
Proof.
  intros Hp Hf.
  rewrite performSanityChecks_active by (rewrite Hp; split; discriminate).
  cbv zeta.
  assert (H1 : phase (rescueState (sanity_detect e (sanity_handle_failure cfg e g)))
               = RESCUE_COMPLETE).
  { unfold sanity_detect, sanity_handle_failure. rewrite Hf. cbn [failure_is_healthy negb].
    destruct (crashRecoveryModeActive e); fields;
      destruct (negb (healthy _)); fields; exact Hp. }
  destruct (_ <? 1000000); [exact H1|].
  apply sanity_1hz_keeps_COMPLETE. exact H1.
Qed.

End Landing.

(** C6.  A tick that starts in [RESCUE_LANDING] with the rescue mode still
    on refreshes [accMagnitude] from the accelerometer whether or not a GPS
    sample has arrived; when the fresh value exceeds 2.0 g the phase switch
    of that tick disables arming by the arm switch, calls disarm with the
    GPS rescue reason (in that order, and nothing else) and sets the phase to
    [RESCUE_COMPLETE], which is the phase the controller of that tick sees
    unless a failure was pending for the watchdog's policy.  Below the
    threshold nothing is called and the switch leaves the phase alone. *)
Theorem landing_impact_disarms_in_the_same_tick (cfg : gpsRescueConfig.t)
  (USE_MAG : bool) (e : inputs) (g : gps_rescue) :
  FLIGHT_MODE_GPS_RESCUE e = true ->
  phase (rescueState g) = RESCUE_LANDING ->
  let s := sensed cfg USE_MAG e g in
  let switched := rescueAdvance cfg e (entered cfg USE_MAG e g) in
  accMagnitude (sensor (rescueState s)) = landing_accMagnitude e
  /\ ((landing_accMagnitude e >? f32.of_int 2)%f32 = true ->
      phase (rescueState (fst switched)) = RESCUE_COMPLETE
      /\ snd switched = [setArmingDisabled_ARM_SWITCH; disarm_GPS_RESCUE]
      /\ exists g2,
           rescueUpToController cfg USE_MAG e g
           = Ok (g2, [setArmingDisabled_ARM_SWITCH; disarm_GPS_RESCUE])
           /\ (failure (rescueState g) = RESCUE_HEALTHY ->
               phase (rescueState g2) = RESCUE_COMPLETE)
           /\ forall g3 calls,
                updateGPSRescueState cfg USE_MAG e g = Ok (g3, calls) ->
                calls = [setArmingDisabled_ARM_SWITCH; disarm_GPS_RESCUE]
                /\ phase (rescueState g3) = phase (rescueState g2))
  /\ ((landing_accMagnitude e >? f32.of_int 2)%f32 = false ->
      phase (rescueState (fst switched)) = RESCUE_LANDING
      /\ snd switched = []).
Proof.
  intros Hmode Hphase s switched.
  assert (Hent : entered cfg USE_MAG e g = g).
  { unfold entered. rewrite Hmode, Hphase. reflexivity. }
  destruct (sensed_frame cfg USE_MAG e g) as [Hp [_ [Hf [_ [_ [Hs _]]]]]].
  fold s in Hp, Hf, Hs.
  assert (Hp' : phase (rescueState s) = RESCUE_LANDING).
  { rewrite Hp. unfold dispatched_phase. rewrite Hmode, Hphase. reflexivity. }
  assert (Hacc : accMagnitude (sensor (rescueState s)) = landing_accMagnitude e).
  { rewrite Hs, sensorUpdate_accMagnitude, Hent, Hphase. reflexivity. }
  assert (Hsw : switched
                = (fst (fst (rescuePhaseSwitch cfg e
                               (to_uint8 (gpsRescueConfig.angle cfg / 2)) true s)),
                   snd (rescuePhaseSwitch cfg e
                          (to_uint8 (gpsRescueConfig.angle cfg / 2)) true s))).
  { unfold switched. apply rescueAdvance_sensed. }
  pose proof (rescueUpToController_ok cfg USE_MAG e g) as Hrun.
  fold switched in Hrun.
  split; [exact Hacc|].
  split.
  - intros Hhit.
    assert (Hswitch :
      rescuePhaseSwitch cfg e (to_uint8 (gpsRescueConfig.angle cfg / 2)) true s
      = (with_phase RESCUE_COMPLETE
           (if newGPSData s then
              with_intent
                (fun i =>
                   set_targetAltitudeCm
                     (targetAltitudeCm i - descendStepCm (sensor (rescueState s)))%f32 i) s
            else s),
         true, [setArmingDisabled_ARM_SWITCH; disarm_GPS_RESCUE])).
    { unfold rescuePhaseSwitch. rewrite Hp', Hacc, Hhit. reflexivity. }
    rewrite Hswitch in Hsw. cbn [fst snd] in Hsw.
    assert (Hfail : failure (rescueState (fst switched)) = failure (rescueState g)).
    { rewrite Hsw. cbn [fst]. destruct (newGPSData s); fields; exact Hf. }
    split; [rewrite Hsw; reflexivity|].
    split; [rewrite Hsw; reflexivity|].
    eexists. split; [rewrite Hrun; rewrite Hsw at 2; reflexivity|].
    split.
    + intros Hh. apply performSanityChecks_keeps_COMPLETE.
      * rewrite Hsw. reflexivity.
      * rewrite Hfail. exact Hh.
    + intros g3 calls Hupd. unfold updateGPSRescueState in Hupd.
      rewrite Hrun in Hupd. cbn [bind fst snd] in Hupd.
      destruct (rescueAttainPosition cfg e _) as [g3'|u] eqn:Hctl; [|discriminate].
      cbn [bind] in Hupd. injection Hupd as <- <-.
      apply rescueAttainPosition_frame in Hctl. destruct Hctl as [Hrs _].
      split; [rewrite Hsw; reflexivity|].
      fields. rewrite Hrs. reflexivity.
  - intros Hmiss.
    assert (Hswitch :
      rescuePhaseSwitch cfg e (to_uint8 (gpsRescueConfig.angle cfg / 2)) true s
      = (if newGPSData s then
           with_intent
             (fun i =>
                set_targetAltitudeCm
                  (targetAltitudeCm i - descendStepCm (sensor (rescueState s)))%f32 i) s
         else s,
         true, [])).
    { unfold rescuePhaseSwitch. rewrite Hp', Hacc, Hmiss. reflexivity. }
    rewrite Hswitch in Hsw. cbn [fst snd] in Hsw.
    rewrite Hsw. split; [|reflexivity].
    cbn [fst]. destruct (newGPSData s); fields; exact Hp'.
Qed.

Lemma landing_impact_disarms_in_the_same_tick_witness :
  FLIGHT_MODE_GPS_RESCUE impact_readings = true
  /\ phase (rescueState landing_state) = RESCUE_LANDING
  /\ newGPSData landing_state = false
  /\ landing_accMagnitude impact_readings = f32.of_int 3
  /\ exists g3,
       updateGPSRescueState default_config true impact_readings landing_state
       = Ok (g3, [setArmingDisabled_ARM_SWITCH; disarm_GPS_RESCUE])
       /\ phase (rescueState g3) = RESCUE_COMPLETE.
Proof.
  split; [reflexivity|]. split; [reflexivity|]. split; [reflexivity|].
  split; [vm_compute; reflexivity|].
  destruct (landing_impact_disarms_in_the_same_tick default_config true
              impact_readings landing_state eq_refl eq_refl)
    as [_ [Hhit _]].
  destruct (Hhit ltac:(vm_compute; reflexivity)) as [_ [_ [g2 [_ [Hph Hend]]]]].
  eexists. split; [vm_compute; reflexivity|].
  match goal with
  | |- phase (rescueState ?g3) = _ =>
      destruct (Hend g3 [setArmingDisabled_ARM_SWITCH; disarm_GPS_RESCUE]
                  ltac:(vm_compute; reflexivity)) as [_ Hsame]
  end.
  rewrite Hsame. apply Hph. reflexivity.
Defined.

(** ** The stall counter of the flight home *)

Lemma to_int8_small (z : Z) : -128 <= z <= 127 -> to_int8 z = z.
Proof.
  intros H. unfold to_int8, wrap_signed.
  change (2 ^ (8 - 1)) with 128. change (2 ^ 8) with 256.
  rewrite Z.mod_small by lia. lia.
Qed.

Lemma constrain_range (z lo hi : Z) :
  lo <= hi -> lo <= constrain z lo hi <= hi.
Proof.
  intros H. unfold constrain.
  destruct (Z.ltb_spec z lo); [lia|].
  destruct (z >? hi) eqn:E; [lia|].
  rewrite Z.gtb_ltb in E. apply Z.ltb_ge in E. lia.
Qed.

Section Stall.

Variable cfg : gpsRescueConfig.t.
Variable USE_MAG : bool.

Lemma sanity_flyHome_count_spec (g : gps_rescue) :
  0 <= secondsFailing (intent (rescueState g)) <= 20 ->
  sanity_flyHome_count g
  = constrain (secondsFailing (intent (rescueState g))
               + (if fly_home_stalled g then 1 else -1)) 0 20.
Proof.
  intros H. unfold sanity_flyHome_count. fold (fly_home_stalled g).
  set (d := if fly_home_stalled g then 1 else -1).
  assert (Hd : -1 <= d <= 1) by (unfold d; destruct (fly_home_stalled g); lia).
  rewrite (to_int8_small (_ + d)) by lia.
  apply to_int8_small.
  pose proof (constrain_range (secondsFailing (intent (rescueState g)) + d) 0 20).
  lia.
Qed.

(** The block guarded by [phase == RESCUE_FLY_HOME]. *)
Lemma sanity_flyHome_spec (e : inputs) (g : gps_rescue) :
  let n := sanity_flyHome_count g in
  let g' := sanity_flyHome cfg USE_MAG e g in
  phase (rescueState g') = phase (rescueState g)
  /\ sanityMem g' = sanityMem g
  /\ if n =? 20 then
       if mag_in_use cfg USE_MAG e g then
         magForceDisable g' = true
         /\ secondsFailing (intent (rescueState g')) = 0
         /\ failure (rescueState g') = failure (rescueState g)
       else
         magForceDisable g' = magForceDisable g
         /\ secondsFailing (intent (rescueState g')) = 20
         /\ failure (rescueState g') = RESCUE_STALLED
     else
       magForceDisable g' = magForceDisable g
       /\ secondsFailing (intent (rescueState g')) = n
       /\ failure (rescueState g') = failure (rescueState g).
Proof.
  intros n g'. unfold g', sanity_flyHome, mag_in_use. fields. fold n.
  destruct (Z.eqb_spec n 20) as [E|E].
  - destruct (USE_MAG && sensors_SENSOR_MAG e && gpsRescueConfig.useMag cfg
              && negb (magForceDisable g)); fields; rewrite ?E; tauto.
  - fields. tauto.
Qed.

End Stall.

Section StallPass.

Variable cfg : gpsRescueConfig.t.
Variable USE_MAG : bool.

Lemma sanity_detect_frame (e : inputs) (g : gps_rescue) :
  let g' := sanity_detect e g in
  phase (rescueState g') = phase (rescueState g)
  /\ intent (rescueState g') = intent (rescueState g)
  /\ sensor (rescueState g') = sensor (rescueState g)
  /\ magForceDisable g' = magForceDisable g
  /\ sanityMem g' = sanityMem g
  /\ (failure (rescueState g') = failure (rescueState g)
      \/ failure (rescueState g') = RESCUE_CRASH_FLIP_DETECTED
      \/ failure (rescueState g') = RESCUE_GPSLOST).
Proof.
  unfold sanity_detect.
  destruct (crashRecoveryModeActive e); fields;
    destruct (negb (healthy _)); fields; tauto.
Qed.

Lemma sanity_lowSats_spec (e : inputs) (g : gps_rescue) :
  let g' := sanity_lowSats e g in
  phase (rescueState g') = phase (rescueState g)
  /\ intent (rescueState g') = intent (rescueState g)
  /\ magForceDisable g' = magForceDisable g
  /\ failure (rescueState g')
     = if sanity_lowSats_count e g =? 10 then RESCUE_LOWSATS
       else failure (rescueState g).
Proof.
  unfold sanity_lowSats.
  destruct (sanity_lowSats_count e g =? 10); fields; tauto.
Qed.

(** The once-a-second part in [RESCUE_FLY_HOME], step by step. *)
Lemma sanity_1hz_FLY_HOME (now : Z) (e : inputs) (g : gps_rescue) :
  phase (rescueState g) = RESCUE_FLY_HOME ->
  let g1 := set_sanityMem (set_sanity_previousTimeUs now (sanityMem g)) g in
  let g2 := sanity_flyHome cfg USE_MAG e g1 in
  let g' := sanity_1hz cfg USE_MAG now e g in
  phase (rescueState g') = RESCUE_FLY_HOME
  /\ intent (rescueState g') = intent (rescueState g2)
  /\ magForceDisable g' = magForceDisable g2
  /\ failure (rescueState g')
     = if sanity_lowSats_count e g =? 10 then RESCUE_LOWSATS
       else failure (rescueState g2).
Proof.
  intros Hp g1 g2 g'.
  destruct (sanity_flyHome_spec cfg USE_MAG e g1) as [Hp2 [Hm2 _]].
  fold g2 in Hp2, Hm2.
  assert (Hp2' : phase (rescueState g2) = RESCUE_FLY_HOME) by (rewrite Hp2; exact Hp).
  assert (Hsp : sanity_special cfg g2 = g2).
  { unfold sanity_special. rewrite Hp2'. reflexivity. }
  assert (Hg' : g' = sanity_lowSats e
                       (set_sanityMem
                          (set_prevAltitudeCm
                             (currentAltitudeCm (sensor (rescueState g2)))
                             (sanityMem g2)) g2)).
  { unfold g', sanity_1hz. fold g1.
    replace (phase (rescueState g1)) with RESCUE_FLY_HOME by (symmetry; exact Hp).
    fold g2. rewrite Hsp. reflexivity. }
  rewrite Hg'.
  match goal with
  | |- context [sanity_lowSats e ?g4] =>
      destruct (sanity_lowSats_spec e g4) as [L1 [L2 [L3 L4]]];
      assert (Hc : sanity_lowSats_count e g4 = sanity_lowSats_count e g)
        by (unfold sanity_lowSats_count; fields; rewrite Hm2; reflexivity)
  end.
  rewrite L1, L2, L3, L4, Hc. fields. tauto.
Qed.

(** [secondsFailing] stays inside [0, 20] from tick to tick, which is what
    the stall counter is read under. *)
Lemma rescuePhaseSwitch_secondsFailing_range (e : inputs) (halfAngle : Z)
  (startedLow : bool) (s : gps_rescue) :
  0 <= secondsFailing (intent (rescueState s)) <= 20 ->
  0 <= secondsFailing
         (intent (rescueState (fst (fst (rescuePhaseSwitch cfg e halfAngle startedLow s)))))
    <= 20.
Proof.
  intros H. unfold rescuePhaseSwitch, idleTasks.
  destruct (phase (rescueState s)); cbv zeta;
    repeat match goal with
           | |- context [if ?c then _ else _] => destruct c
           end; fields; lia.
Qed.

Lemma sanity_altitude_count_range (b : bool) (g : gps_rescue) :
  0 <= secondsFailing (intent (rescueState g)) <= 20 ->
  0 <= secondsFailing (intent (rescueState (sanity_altitude_count b g))) <= 20.
Proof.
  intros H. unfold sanity_altitude_count.
  set (n := to_int8 (constrain _ 0 10)).
  assert (Hn : 0 <= n <= 10).
  { unfold n.
    match goal with
    | |- context [constrain ?z 0 10] =>
        pose proof (constrain_range z 0 10 ltac:(lia)) as Hc;
        rewrite (to_int8_small (constrain z 0 10)) by lia; lia
    end. }
  fields. destruct (n =? 10); fields; lia.
Qed.

Lemma performSanityChecks_secondsFailing_range (now : Z) (e : inputs) (g : gps_rescue) :
  0 <= secondsFailing (intent (rescueState g)) <= 20 ->
  0 <= secondsFailing
         (intent (rescueState (performSanityChecks cfg USE_MAG now e g))) <= 20.
Proof.
  intros H.
  assert (H1 : 0 <= secondsFailing
                      (intent (rescueState
                                 (sanity_detect e (sanity_handle_failure cfg e g)))) <= 20).
  { destruct (sanity_detect_frame e (sanity_handle_failure cfg e g)) as [_ [D _]].
    rewrite D. unfold sanity_handle_failure.
    destruct (negb (failure_is_healthy _)); exact H. }
  assert (H1hz : forall x,
             0 <= secondsFailing (intent (rescueState x)) <= 20 ->
             0 <= secondsFailing
                    (intent (rescueState (sanity_1hz cfg USE_MAG now e x))) <= 20).
  { intros x Hx. unfold sanity_1hz.
    match goal with
    | |- context [sanity_lowSats e ?y] =>
        destruct (sanity_lowSats_spec e y) as [_ [L _]]; rewrite L
    end.
    cbn [set_sanityMem rescueState intent].
    set (x1 := set_sanityMem (set_sanity_previousTimeUs now (sanityMem x)) x).
    assert (Hx2 : 0 <= secondsFailing
                         (intent (rescueState
                                    match phase (rescueState x1) with
                                    | RESCUE_FLY_HOME => sanity_flyHome cfg USE_MAG e x1
                                    | _ => x1
                                    end)) <= 20).
    { destruct (phase (rescueState x1)); try exact Hx.
      destruct (sanity_flyHome_spec cfg USE_MAG e x1) as [_ [_ B]].
      rewrite (sanity_flyHome_count_spec x1 Hx) in B.
      match type of B with
      | context [constrain ?z 0 20] =>
          pose proof (constrain_range z 0 20 ltac:(lia)) as Hc
      end.
      destruct (_ =? 20); [destruct (mag_in_use _ _ _ _)|];
        destruct B as [_ [B _]]; rewrite B; lia. }
    unfold sanity_special.
    match goal with
    | |- context [match phase (rescueState ?y) with _ => _ end] =>
        destruct (phase (rescueState y)) eqn:Ey;
        try exact Hx2; try (apply sanity_altitude_count_range; exact Hx2)
    end.
    destruct (_ =? 10); fields; exact Hx2. }
  unfold performSanityChecks.
  destruct (phase (rescueState g)); try exact H;
    (destruct (_ <? 1000000); [exact H1 | apply H1hz; exact H1]).
Qed.

Lemma secondsFailing_stays_in_range (e : inputs) (g : gps_rescue) :
  0 <= secondsFailing (intent (rescueState g)) <= 20 ->
  exists g2 calls,
    rescueUpToController cfg USE_MAG e g = Ok (g2, calls)
    /\ 0 <= secondsFailing (intent (rescueState g2)) <= 20.
Proof.
  intros H. do 2 eexists. split; [apply rescueUpToController_ok|].
  apply performSanityChecks_secondsFailing_range.
  rewrite (rescueAdvance_sensed cfg USE_MAG e g). cbn [fst].
  apply rescuePhaseSwitch_secondsFailing_range.
  destruct (sensed_frame cfg USE_MAG e g) as [_ [I _]]. rewrite I. exact H.
Qed.

End StallPass.

(** C7.  A once-a-second watchdog evaluation in [RESCUE_FLY_HOME] (the
    pass is entered healthy, so the policy leaves the phase) moves
    [secondsFailing] up by one when the velocity to home is below half the
    target velocity and down by one otherwise, inside [0, 20].  When it
    reaches 20 and the magnetometer is still in use (compiled in, present,
    configured, not yet force-disabled) the pass sets [magForceDisable],
    puts the counter back to 0 and reports no stall; when it reaches 20
    otherwise, which includes every time after the first, the pass sets the
    failure to [RESCUE_STALLED] (replaced by [RESCUE_LOWSATS] when the
    satellite counter reaches its limit in the same pass). *)
Theorem fly_home_stall_gives_up_the_magnetometer_once (cfg : gpsRescueConfig.t)
  (USE_MAG : bool) (now : Z) (e : inputs) (g : gps_rescue) :
  phase (rescueState g) = RESCUE_FLY_HOME ->
  failure (rescueState g) = RESCUE_HEALTHY ->
  (cmpTimeUs now (sanity.previousTimeUs (sanityMem g)) <? 1000000) = false ->
  0 <= secondsFailing (intent (rescueState g)) <= 20 ->
  let sf := secondsFailing (intent (rescueState g)) in
  let n := if fly_home_stalled g then Z.min 20 (sf + 1) else Z.max 0 (sf - 1) in
  let g' := performSanityChecks cfg USE_MAG now e g in
  phase (rescueState g') = RESCUE_FLY_HOME
  /\ if n =? 20 then
       if mag_in_use cfg USE_MAG e g then
         magForceDisable g' = true
         /\ secondsFailing (intent (rescueState g')) = 0
         /\ failure (rescueState g') <> RESCUE_STALLED
       else
         magForceDisable g' = magForceDisable g
         /\ secondsFailing (intent (rescueState g')) = 20
         /\ failure (rescueState g')
            = if sanity_lowSats_count e g =? 10 then RESCUE_LOWSATS
              else RESCUE_STALLED
     else
       magForceDisable g' = magForceDisable g
       /\ secondsFailing (intent (rescueState g')) = n
       /\ failure (rescueState g') <> RESCUE_STALLED.
Proof.
  intros Hp Hf Hdue Hsf sf n g'.
  (* the per-tick part leaves a healthy flight home as it is, up to the
     failure it may detect *)
  assert (Hh : sanity_handle_failure cfg e g = g).
  { unfold sanity_handle_failure. rewrite Hf. reflexivity. }
  set (g1 := sanity_detect e g).
  destruct (sanity_detect_frame e g) as [D1 [D2 [D3 [D4 [D5 D6]]]]].
  fold g1 in D1, D2, D3, D4, D5, D6.
  assert (Hf1 : failure (rescueState g1) <> RESCUE_STALLED).
  { rewrite Hf in D6. destruct D6 as [D6|[D6|D6]]; rewrite D6; discriminate. }
  assert (Hg' : g' = sanity_1hz cfg USE_MAG now e g1).
  { unfold g'. rewrite performSanityChecks_active
      by (rewrite Hp; split; discriminate).
    cbv zeta. rewrite Hh. fold g1. rewrite D5, Hdue. reflexivity. }
  assert (Hp1 : phase (rescueState g1) = RESCUE_FLY_HOME) by (rewrite D1; exact Hp).
  destruct (sanity_1hz_FLY_HOME cfg USE_MAG now e g1 Hp1) as [P [I [M F]]].
  rewrite <- Hg' in P, I, M, F.
  set (ga := set_sanityMem (set_sanity_previousTimeUs now (sanityMem g1)) g1) in *.
  assert (Hcount : sanity_flyHome_count ga = n).
  { assert (E1 : sanity_flyHome_count ga = sanity_flyHome_count g).
    { unfold sanity_flyHome_count, ga. fields. rewrite D2, D3. reflexivity. }
    rewrite E1, sanity_flyHome_count_spec by exact Hsf.
    unfold n, constrain. fold sf.
    destruct (fly_home_stalled g).
    - destruct (Z.ltb_spec (sf + 1) 0); [unfold sf in *; lia|].
      destruct (sf + 1 >? 20) eqn:E; rewrite Z.gtb_ltb in E;
        [apply Z.ltb_lt in E | apply Z.ltb_ge in E]; lia.
    - destruct (Z.ltb_spec (sf + -1) 0); [lia|].
      destruct (sf + -1 >? 20) eqn:E; rewrite Z.gtb_ltb in E;
        [apply Z.ltb_lt in E; unfold sf in *; lia | apply Z.ltb_ge in E; lia]. }
  assert (Hmag : mag_in_use cfg USE_MAG e ga = mag_in_use cfg USE_MAG e g).
  { unfold mag_in_use, ga. fields. rewrite D4. reflexivity. }
  assert (Hlow : sanity_lowSats_count e g1 = sanity_lowSats_count e g).
  { unfold sanity_lowSats_count. rewrite D5. reflexivity. }
  destruct (sanity_flyHome_spec cfg USE_MAG e ga) as [_ [_ Hblock]].
  rewrite Hcount, Hmag in Hblock.
  split; [exact P|].
  rewrite I, M, F, Hlow.
  destruct (n =? 20).
  - destruct (mag_in_use cfg USE_MAG e g).
    + destruct Hblock as [B1 [B2 B3]]. rewrite B1, B2, B3.
      split; [reflexivity|]. split; [reflexivity|].
      destruct (sanity_lowSats_count e g =? 10); [discriminate|].
      unfold ga. fields. exact Hf1.
    + destruct Hblock as [B1 [B2 B3]]. rewrite B1, B2, B3.
      unfold ga. fields. rewrite D4. repeat split.
  - destruct Hblock as [B1 [B2 B3]]. rewrite B1, B2, B3.
    unfold ga. fields. rewrite D4.
    split; [reflexivity|]. split; [reflexivity|].
    destruct (sanity_lowSats_count e g =? 10); [discriminate | exact Hf1].
Qed.

Lemma fly_home_stall_gives_up_the_magnetometer_once_witness :
  phase (rescueState stalled_state) = RESCUE_FLY_HOME
  /\ secondsFailing (intent (rescueState stalled_state)) = 19
  /\ fly_home_stalled stalled_state = true
  /\ magForceDisable stalled_state = false
  /\ magForceDisable
       (performSanityChecks default_config true 1200000 stalled_readings stalled_state)
     = true
  /\ secondsFailing
       (intent
          (rescueState
             (performSanityChecks default_config true 1200000 stalled_readings
                stalled_state)))
     = 0.
Proof.
  split; [reflexivity|]. split; [reflexivity|].
  split; [vm_compute; reflexivity|]. split; [reflexivity|].
  pose proof (fly_home_stall_gives_up_the_magnetometer_once default_config true
                1200000 stalled_readings stalled_state eq_refl eq_refl eq_refl
                ltac:(vm_compute; split; discriminate)) as H.
  cbv zeta in H. destruct H as [_ H].
  replace (fly_home_stalled stalled_state) with true in H by (vm_compute; reflexivity).
  replace (mag_in_use default_config true stalled_readings stalled_state) with true in H
    by reflexivity.
  cbn [Z.eqb] in H.
  change (Z.min 20 (secondsFailing (intent (rescueState stalled_state)) + 1) =? 20)
    with true in H.
  cbv iota in H. destruct H as [H1 [H2 _]]. split; [exact H1 | exact H2].
Defined.

(** ** Ticks that end idle *)

Section Idle.

Variable cfg : gpsRescueConfig.t.
Variable USE_MAG : bool.

(** The watchdog never sets the phase to idle: a pass that ends idle began
    idle, and marked the module healthy. *)
Lemma performSanityChecks_ends_idle (now : Z) (e : inputs) (g : gps_rescue) :
  phase (rescueState (performSanityChecks cfg USE_MAG now e g)) = RESCUE_IDLE ->
  phase (rescueState g) = RESCUE_IDLE
  /\ performSanityChecks cfg USE_MAG now e g = with_failure RESCUE_HEALTHY g.
Proof.
  intros H.
  destruct (phase (rescueState g)) eqn:Hp;
    try (unfold performSanityChecks; rewrite Hp; split; reflexivity);
    try (unfold performSanityChecks in H; rewrite Hp in H; fields;
         rewrite Hp in H; discriminate);
    exfalso;
    (rewrite performSanityChecks_active in H by (rewrite Hp; split; discriminate);
     cbv zeta in H;
     pose proof (sanity_detect_frame e (sanity_handle_failure cfg e g)) as [D1 _];
     rewrite sanity_handle_failure_phase, Hp in D1;
     assert (Hact : active_phase
                      (phase (rescueState
                                (sanity_detect e (sanity_handle_failure cfg e g)))))
       by (rewrite D1; destruct (failure_is_healthy _);
           [split; discriminate | apply sanity_policy_phase_active]);
     destruct (_ <? 1000000);
     [ destruct Hact as [Ha _]; exact (Ha H)
     | match type of H with
       | phase (rescueState (sanity_1hz _ _ ?n ?x ?y)) = _ =>
           destruct (effect_sanity_1hz cfg USE_MAG n x y) as [[Q|Q] _];
           rewrite Q in H; [destruct Hact as [Ha _]; exact (Ha H) | discriminate]
       end ]).
Qed.

(** The [switch] ends idle from idle, where the bookkeeping has run, and
    from [RESCUE_COMPLETE] and [RESCUE_ABORT], which stop the rescue. *)
Lemma rescuePhaseSwitch_ends_idle (e : inputs) (halfAngle : Z) (s : gps_rescue) :
  let s' := fst (fst (rescuePhaseSwitch cfg e halfAngle true s)) in
  phase (rescueState s') = RESCUE_IDLE ->
  failure (rescueState s') = failure (rescueState s)
  /\ currentAltitudeCm (sensor (rescueState s')) = currentAltitudeCm (sensor (rescueState s))
  /\ ((phase (rescueState s) = RESCUE_IDLE
       /\ targetAltitudeCm (intent (rescueState s'))
          = if ARMING_FLAG_ARMED e && isAltitudeOffset e && newGPSData s
            then f32.of_int (currentAltitudeCm (sensor (rescueState s)))
            else targetAltitudeCm (intent (rescueState s)))
      \/ ((phase (rescueState s) = RESCUE_COMPLETE
           \/ phase (rescueState s) = RESCUE_ABORT)
          /\ targetAltitudeCm (intent (rescueState s'))
             = targetAltitudeCm (intent (rescueState s)))).
Proof.
  unfold rescuePhaseSwitch, idleTasks.
  destruct (phase (rescueState s)) eqn:Hp; cbv zeta.
  - (* IDLE *)
    intros _.
    destruct (ARMING_FLAG_ARMED e); cbn [negb andb]; fields;
      [|repeat split; left; split; reflexivity].
    destruct (isAltitudeOffset e); cbn [negb andb]; fields;
      [|repeat split; left; split; reflexivity].
    destruct (newGPSData s); fields; repeat split; left; split; reflexivity.
  - (* INITIALIZE *)
    destruct (negb (STATE_GPS_FIX_HOME e)); fields;
      [rewrite Hp; discriminate|].
    destruct (_ <? _)%f32; fields; discriminate.
  - (* ATTAIN_ALT *)
    destruct (newGPSData s); fields; [|rewrite Hp; discriminate].
    destruct (_ <? _)%f32; fields; [rewrite Hp; discriminate|].
    destruct (_ >? _)%f32; fields; [discriminate | rewrite Hp; discriminate].
  - (* ROTATE *)
    destruct (newGPSData s && _); fields; [|rewrite Hp; discriminate].
    destruct (_ <? f32.of_int 15)%f32; fields; [discriminate | rewrite Hp; discriminate].
  - (* FLY_HOME *)
    destruct (newGPSData s && _); fields; [discriminate | rewrite Hp; discriminate].
  - (* DESCENT *)
    destruct (newGPSData s); fields; [|rewrite Hp; discriminate].
    destruct (_ <? _); fields; [discriminate | rewrite Hp; discriminate].
  - (* LANDING *)
    destruct (_ >? _)%f32; fields; [discriminate|].
    destruct (newGPSData s); fields; rewrite Hp; discriminate.
  - (* ABORT *)
    intros _. fields. repeat split. right. split; [right|]; reflexivity.
  - (* COMPLETE *)
    intros _. fields. repeat split. right. split; [left|]; reflexivity.
  - (* DO_NOTHING *)
    fields. rewrite Hp. discriminate.
Qed.

Lemma dispatched_phase_idle (e : inputs) (g : gps_rescue) :
  dispatched_phase e g = RESCUE_IDLE <-> FLIGHT_MODE_GPS_RESCUE e = false.
Proof.
  unfold dispatched_phase.
  destruct (FLIGHT_MODE_GPS_RESCUE e); cbn [negb].
  - destruct (phase (rescueState g)) eqn:Hp; split; discriminate.
  - split; reflexivity.
Qed.

(** With the mode flag on, [RESCUE_COMPLETE] and [RESCUE_ABORT] are
    dispatched on only when they were the phase before the tick. *)
Lemma dispatched_phase_stop (e : inputs) (g : gps_rescue) :
  dispatched_phase e g = RESCUE_COMPLETE \/ dispatched_phase e g = RESCUE_ABORT ->
  FLIGHT_MODE_GPS_RESCUE e = true.
Proof.
  unfold dispatched_phase.
  destruct (FLIGHT_MODE_GPS_RESCUE e); cbn [negb]; [reflexivity|].
  intros [H|H]; discriminate.
Qed.

(** A tick with the rescue mode off is defined and ends idle. *)
Lemma idle_tick_is_defined (e : inputs) (g : gps_rescue) :
  FLIGHT_MODE_GPS_RESCUE e = false ->
  exists g' calls,
    updateGPSRescueState cfg USE_MAG e g = Ok (g', calls)
    /\ phase (rescueState g') = RESCUE_IDLE.
Proof.
  intros Hoff.
  destruct (sensed_frame cfg USE_MAG e g) as [Hp _].
  assert (Hd : dispatched_phase e g = RESCUE_IDLE)
    by (apply dispatched_phase_idle; exact Hoff).
  rewrite Hd in Hp.
  set (s := sensed cfg USE_MAG e g) in *.
  assert (Hsw : phase (rescueState
                         (fst (fst (rescuePhaseSwitch cfg e
                                      (to_uint8 (gpsRescueConfig.angle cfg / 2))
                                      true s)))) = RESCUE_IDLE).
  { unfold rescuePhaseSwitch, idleTasks. rewrite Hp. cbv zeta.
    repeat match goal with
           | |- context [if ?c then _ else _] => destruct c
           end; fields; exact Hp. }
  unfold updateGPSRescueState.
  rewrite rescueUpToController_ok, (rescueAdvance_sensed cfg USE_MAG e g).
  fold s. cbn [bind fst snd].
  set (w := performSanityChecks cfg USE_MAG (micros_sanity e) e _).
  assert (Hw : phase (rescueState w) = RESCUE_IDLE).
  { unfold w, performSanityChecks. rewrite Hsw. fields. exact Hsw. }
  unfold rescueAttainPosition. rewrite Hw. cbn [bind].
  do 2 eexists. split; [reflexivity|]. fields. exact Hw.
Qed.

End Idle.

(** C8, as stated, fails: an idle tick without a new GPS sample leaves the
    target where it was, here at 0 with the craft at 1000 cm. *)
Lemma idle_tick_without_gps_sample_keeps_the_target :
  exists g' calls,
    updateGPSRescueState default_config true
      (readings_at false 1000 20000 100000) gps_rescue_init = Ok (g', calls)
    /\ phase (rescueState g') = RESCUE_IDLE
    /\ failure (rescueState g') = RESCUE_HEALTHY
    /\ currentAltitudeCm (sensor (rescueState g')) = 1000
    /\ targetAltitudeCm (intent (rescueState g')) = f32.zero
    /\ SFeqb (targetAltitudeCm (intent (rescueState g')))
         (f32.of_int (currentAltitudeCm (sensor (rescueState g')))) = false.
Proof.
  do 2 eexists.
  split; [vm_compute; reflexivity|].
  repeat split; vm_compute; reflexivity.
Qed.

(** C8, amended.  On every tick that ends in [RESCUE_IDLE] the failure is
    [RESCUE_HEALTHY] and the current altitude is the fresh estimate.  The
    target altitude is set to the current altitude when the idle
    bookkeeping runs in full: the rescue mode is off, the craft is armed,
    the altitude offset has been applied and a new GPS sample has arrived.
    On every other tick that ends idle (no new sample, disarmed, no offset
    yet, or a rescue that has just completed or aborted) the target keeps
    its value. *)
Theorem idle_tick_is_healthy_and_tracks_on_gps_samples (cfg : gpsRescueConfig.t)
  (USE_MAG : bool) (e : inputs) (g g' : gps_rescue) (calls : list call) :
  updateGPSRescueState cfg USE_MAG e g = Ok (g', calls) ->
  phase (rescueState g') = RESCUE_IDLE ->
  failure (rescueState g') = RESCUE_HEALTHY
  /\ currentAltitudeCm (sensor (rescueState g')) = getEstimatedAltitudeCm e
  /\ targetAltitudeCm (intent (rescueState g'))
     = if negb (FLIGHT_MODE_GPS_RESCUE e) && ARMING_FLAG_ARMED e
          && isAltitudeOffset e && newGPSData g
       then f32.of_int (getEstimatedAltitudeCm e)
       else targetAltitudeCm (intent (rescueState g)).
Proof.
  intros Hupd Hidle.
  unfold updateGPSRescueState in Hupd.
  rewrite rescueUpToController_ok in Hupd. cbn [bind fst snd] in Hupd.
  rewrite (rescueAdvance_sensed cfg USE_MAG e g) in Hupd. cbn [fst snd] in Hupd.
  set (s := sensed cfg USE_MAG e g) in *.
  set (s' := fst (fst (rescuePhaseSwitch cfg e
                         (to_uint8 (gpsRescueConfig.angle cfg / 2)) true s))) in *.
  destruct (rescueAttainPosition cfg e _) as [g3|u] eqn:Hctl; [|discriminate].
  cbn [bind] in Hupd. injection Hupd as <- _.
  apply rescueAttainPosition_frame in Hctl. destruct Hctl as [Hrs _].
  fields. rewrite Hrs in *.
  destruct (performSanityChecks_ends_idle cfg USE_MAG _ e s' Hidle) as [Hs' Hw].
  rewrite Hw. fields.
  destruct (sensed_frame cfg USE_MAG e g) as [Hp [Hi [_ [Hn [_ [_ Hc]]]]]].
  fold s in Hp, Hi, Hn, Hc.
  destruct (rescuePhaseSwitch_ends_idle cfg e
              (to_uint8 (gpsRescueConfig.angle cfg / 2)) s Hs')
    as [_ [Hcur Hcases]].
  fold s' in Hcur, Hcases.
  split; [reflexivity|].
  split; [rewrite Hcur; exact Hc|].
  destruct Hcases as [[Hph Ht]|[Hph Ht]]; rewrite Ht.
  - rewrite Hp in Hph. apply dispatched_phase_idle in Hph.
    rewrite Hph, Hn, Hc, Hi. reflexivity.
  - rewrite Hp in Hph. apply dispatched_phase_stop in Hph.
    rewrite Hph, Hi. reflexivity.
Qed.

Lemma idle_tick_is_healthy_and_tracks_on_gps_samples_witness :
  exists g' calls,
    updateGPSRescueState default_config true (readings_at false 1000 20000 100000)
      (rescueNewGpsData gps_rescue_init) = Ok (g', calls)
    /\ phase (rescueState g') = RESCUE_IDLE
    /\ failure (rescueState g') = RESCUE_HEALTHY
    /\ currentAltitudeCm (sensor (rescueState g')) = 1000
    /\ targetAltitudeCm (intent (rescueState g')) = f32.of_int 1000.
Proof.
  do 2 eexists.
  split; [vm_compute; reflexivity|].
  split; [reflexivity|].
  match goal with
  | |- failure (rescueState ?g') = _ /\ _ =>
      pose proof (idle_tick_is_healthy_and_tracks_on_gps_samples default_config true
                    (readings_at false 1000 20000 100000)
                    (rescueNewGpsData gps_rescue_init) g' []
                    ltac:(vm_compute; reflexivity) eq_refl) as H
  end.
  exact H.
Defined.

(** ** The shared failure counter *)

Section Counter.

Variable cfg : gpsRescueConfig.t.

(** The [switch] puts [secondsFailing] back to 0 on four transitions and
    leaves it alone everywhere else, the transition from
    [RESCUE_INITIALIZE] into [RESCUE_LANDING] included. *)
Lemma rescuePhaseSwitch_secondsFailing (e : inputs) (halfAngle : Z)
  (startedLow : bool) (s : gps_rescue) :
  let s' := fst (fst (rescuePhaseSwitch cfg e halfAngle startedLow s)) in
  match phase (rescueState s), phase (rescueState s') with
  | RESCUE_INITIALIZE, RESCUE_ATTAIN_ALT
  | RESCUE_ROTATE, RESCUE_FLY_HOME
  | RESCUE_FLY_HOME, RESCUE_DESCENT
  | RESCUE_DESCENT, RESCUE_LANDING =>
      secondsFailing (intent (rescueState s')) = 0
  | _, _ =>
      secondsFailing (intent (rescueState s'))
      = secondsFailing (intent (rescueState s))
  end.
Proof.
  unfold rescuePhaseSwitch, idleTasks.
  destruct (phase (rescueState s)) eqn:Hp; cbv zeta.
  - destruct (negb (ARMING_FLAG_ARMED e)); fields; rewrite ?Hp; [reflexivity|].
    destruct (negb (isAltitudeOffset e)); fields; rewrite ?Hp; [reflexivity|].
    destruct (newGPSData s); fields; rewrite ?Hp; reflexivity.
  - destruct (negb (STATE_GPS_FIX_HOME e)); fields; rewrite ?Hp; [reflexivity|].
    destruct (_ <? _)%f32; fields; reflexivity.
  - destruct (newGPSData s); fields; rewrite ?Hp; [|reflexivity].
    destruct startedLow.
    + destruct (_ <? _)%f32; fields; rewrite ?Hp; [reflexivity|].
      destruct (_ >? _)%f32; fields; rewrite ?Hp; reflexivity.
    + destruct (_ >? _)%f32; fields; rewrite ?Hp; [reflexivity|].
      destruct (_ <? _)%f32; fields; rewrite ?Hp; reflexivity.
  - destruct (newGPSData s && _); fields; rewrite ?Hp; [|reflexivity].
    destruct (_ <? f32.of_int 15)%f32; fields; rewrite ?Hp; reflexivity.
  - destruct (newGPSData s && _); fields; rewrite ?Hp; reflexivity.
  - destruct (newGPSData s); fields; rewrite ?Hp; [|reflexivity].
    destruct (_ <? _); fields; rewrite ?Hp; reflexivity.
  - destruct (_ >? _)%f32; fields;
      destruct (newGPSData s); fields; rewrite ?Hp; reflexivity.
  - reflexivity.
  - reflexivity.
  - fields. rewrite ?Hp. reflexivity.
Qed.

End Counter.

(** C9.  [secondsFailing] is not reset on the way from [RESCUE_INITIALIZE]
    into [RESCUE_LANDING].  A first rescue is stuck in the climb for nine
    seconds and is switched off with the counter at 9; switched on again
    10 m from home it goes to landing with the counter still at 9, and one
    second without descent later the watchdog aborts, where a landing that
    starts at 0 (as it does when it is entered from [RESCUE_DESCENT]) has
    ten. *)
Theorem landing_from_initialize_inherits_the_counter :
  exists g1 calls1 g2 calls2 g3 calls3,
    run default_config true climb_stuck gps_rescue_init = Ok (g1, calls1)
    /\ phase (rescueState g1) = RESCUE_ATTAIN_ALT
    /\ secondsFailing (intent (rescueState g1)) = 9
    /\ run default_config true restart_close_to_home g1 = Ok (g2, calls2)
    /\ phase (rescueState g2) = RESCUE_LANDING
    /\ secondsFailing (intent (rescueState g2)) = 9
    /\ tick default_config true (tick_at false true 1000 1000 10400000) g2
       = Ok (g3, calls3)
    /\ phase (rescueState g3) = RESCUE_ABORT
    /\ secondsFailing (intent (rescueState g3)) = 10.
Proof.
  do 6 eexists.
  split; [vm_compute; reflexivity|].
  split; [reflexivity|]. split; [reflexivity|].
  split; [vm_compute; reflexivity|].
  split; [reflexivity|]. split; [reflexivity|].
  split; [vm_compute; reflexivity|].
  split; reflexivity.
Qed.

(** ** The magnetometer, once given up *)

Section Magnetometer.

Variable cfg : gpsRescueConfig.t.
Variable USE_MAG : bool.

Lemma rescuePhaseSwitch_magForceDisable (e : inputs) (halfAngle : Z)
  (startedLow : bool) (s : gps_rescue) :
  magForceDisable (fst (fst (rescuePhaseSwitch cfg e halfAngle startedLow s)))
  = magForceDisable s.
Proof.
  unfold rescuePhaseSwitch, idleTasks.
  destruct (phase (rescueState s)); cbv zeta;
    repeat match goal with
           | |- context [if ?c then _ else _] => destruct c
           end; reflexivity.
Qed.

Lemma sanity_flyHome_magForceDisable (e : inputs) (g : gps_rescue) :
  magForceDisable g = true ->
  magForceDisable (sanity_flyHome cfg USE_MAG e g) = true.
Proof.
  intros H. unfold sanity_flyHome.
  destruct (_ =? 20); [|exact H].
  destruct (_ && _); fields; [reflexivity | exact H].
Qed.

Lemma sanity_special_magForceDisable (g : gps_rescue) :
  magForceDisable (sanity_special cfg g) = magForceDisable g.
Proof.
  unfold sanity_special, sanity_altitude_count.
  destruct (phase (rescueState g));
    repeat match goal with
           | |- context [if ?c then _ else _] => destruct c
           end; reflexivity.
Qed.

Lemma sanity_1hz_magForceDisable (now : Z) (e : inputs) (g : gps_rescue) :
  magForceDisable g = true ->
  magForceDisable (sanity_1hz cfg USE_MAG now e g) = true.
Proof.
  intros H. unfold sanity_1hz.
  match goal with
  | |- magForceDisable (sanity_lowSats e ?x) = true =>
      destruct (sanity_lowSats_spec e x) as [_ [_ [L _]]]; rewrite L
  end.
  cbn [magForceDisable set_sanityMem].
  rewrite sanity_special_magForceDisable.
  match goal with
  | |- magForceDisable (match ?p with _ => _ end) = true => destruct p
  end;
    first [ apply sanity_flyHome_magForceDisable; exact H | exact H ].
Qed.

Lemma performSanityChecks_magForceDisable (now : Z) (e : inputs) (g : gps_rescue) :
  magForceDisable g = true ->
  magForceDisable (performSanityChecks cfg USE_MAG now e g) = true.
Proof.
  intros H.
  assert (H1 : magForceDisable (sanity_detect e (sanity_handle_failure cfg e g)) = true).
  { destruct (sanity_detect_frame e (sanity_handle_failure cfg e g))
      as [_ [_ [_ [D _]]]].
    rewrite D. unfold sanity_handle_failure.
    destruct (negb (failure_is_healthy _)); exact H. }
  unfold performSanityChecks.
  destruct (phase (rescueState g)); try exact H;
    (destruct (_ <? 1000000);
     [exact H1 | apply sanity_1hz_magForceDisable; exact H1]).
Qed.

Lemma rescueUpToController_magForceDisable (e : inputs) (g : gps_rescue) :
  magForceDisable g = true ->
  exists g2 calls,
    rescueUpToController cfg USE_MAG e g = Ok (g2, calls)
    /\ magForceDisable g2 = true.
Proof.
  intros H. do 2 eexists. split; [apply rescueUpToController_ok|].
  apply performSanityChecks_magForceDisable.
  rewrite (rescueAdvance_sensed cfg USE_MAG e g). cbn [fst].
  rewrite rescuePhaseSwitch_magForceDisable.
  destruct (sensed_frame cfg USE_MAG e g) as [_ [_ [_ [_ [M _]]]]].
  rewrite M. exact H.
Qed.

Lemma updateGPSRescueState_magForceDisable (e : inputs) (g g' : gps_rescue)
  (calls : list call) :
  magForceDisable g = true ->
  updateGPSRescueState cfg USE_MAG e g = Ok (g', calls) ->
  magForceDisable g' = true.
Proof.
  intros H Hupd.
  destruct (rescueUpToController_magForceDisable e g H) as [g2 [c2 [Hrun Hm]]].
  unfold updateGPSRescueState in Hupd. rewrite Hrun in Hupd.
  cbn [bind fst snd] in Hupd.
  destruct (rescueAttainPosition cfg e g2) as [g3|u] eqn:Hctl; [|discriminate].
  cbn [bind] in Hupd. injection Hupd as <- _.
  apply rescueAttainPosition_frame in Hctl. destruct Hctl as [_ [M _]].
  fields. rewrite M. exact Hm.
Qed.

Lemma run_magForceDisable (ticks : list tick_input) (g g' : gps_rescue)
  (calls : list call) :
  magForceDisable g = true ->
  run cfg USE_MAG ticks g = Ok (g', calls) ->
  magForceDisable g' = true.
Proof.
  revert g calls. induction ticks as [|i rest IH]; intros g calls H Hrun.
  - injection Hrun as <- _. exact H.
  - cbn [run] in Hrun.
    destruct (tick cfg USE_MAG i g) as [[g1 c1]|u] eqn:Ht; [|discriminate].
    cbn [bind fst snd] in Hrun.
    destruct (run cfg USE_MAG rest g1) as [[g2 c2]|u] eqn:Hr; [|discriminate].
    cbn [bind fst] in Hrun. injection Hrun as <- _.
    apply (IH g1 c2); [|exact Hr].
    unfold tick in Ht.
    apply (updateGPSRescueState_magForceDisable _ _ _ _) in Ht; [exact Ht|].
    destruct (gps_sample i); exact H.
Qed.

End Magnetometer.

(** C10.  Once [magForceDisable] is set, no operation of the module clears
    it: not the GPS driver's notification, not any stage of a tick, not
    any number of ticks, through any sequence of rescues.  Throughout the
    phases [RESCUE_INITIALIZE] to [RESCUE_LANDING] [gpsRescueDisableMag]
    therefore answers true. *)
Theorem magForceDisable_stays_set (cfg : gpsRescueConfig.t) (USE_MAG : bool)
  (g : gps_rescue) :
  magForceDisable g = true ->
  magForceDisable (rescueNewGpsData g) = true
  /\ (forall e : inputs,
        exists g2 calls,
          rescueUpToController cfg USE_MAG e g = Ok (g2, calls)
          /\ magForceDisable g2 = true)
  /\ (forall (e : inputs) (g' : gps_rescue) (calls : list call),
        updateGPSRescueState cfg USE_MAG e g = Ok (g', calls) ->
        magForceDisable g' = true)
  /\ (forall (ticks : list tick_input) (g' : gps_rescue) (calls : list call),
        run cfg USE_MAG ticks g = Ok (g', calls) ->
        magForceDisable g' = true
        /\ (rescuePhase_index RESCUE_INITIALIZE
            <= rescuePhase_index (phase (rescueState g'))
            <= rescuePhase_index RESCUE_LANDING ->
            gpsRescueDisableMag cfg g' = true)).
Proof.
  intros H.
  split; [exact H|].
  split; [intros e; apply rescueUpToController_magForceDisable; exact H|].
  split.
  - intros e g' calls Hupd.
    exact (updateGPSRescueState_magForceDisable cfg USE_MAG e g g' calls H Hupd).
  - intros ticks g' calls Hrun.
    assert (Hm : magForceDisable g' = true)
      by exact (run_magForceDisable cfg USE_MAG ticks g g' calls H Hrun).
    split; [exact Hm|].
    intros [Hlo Hhi]. unfold gpsRescueDisableMag. rewrite Hm, orb_true_r.
    apply Z.geb_le in Hlo. apply Z.leb_le in Hhi. rewrite Hlo, Hhi. reflexivity.
Qed.

Lemma magForceDisable_stays_set_witness :
  magForceDisable mag_given_up_state = true
  /\ exists g' calls,
       run default_config true [tick_at false true 3400 19980 1210000]
         mag_given_up_state = Ok (g', calls)
       /\ phase (rescueState g') = RESCUE_FLY_HOME
       /\ magForceDisable g' = true
       /\ gpsRescueDisableMag default_config g' = true.
Proof.
  assert (H : magForceDisable mag_given_up_state = true) by (vm_compute; reflexivity).
  split; [exact H|].
  destruct (magForceDisable_stays_set default_config true mag_given_up_state H)
    as [_ [_ [_ Hrun]]].
  do 2 eexists. split; [vm_compute; reflexivity|].
  split; [reflexivity|].
  match goal with
  | |- magForceDisable ?g' = true /\ _ =>
      destruct (Hrun [tick_at false true 3400 19980 1210000] g' []
                  ltac:(vm_compute; reflexivity)) as [Hm Hd]
  end.
  split; [exact Hm|]. apply Hd. vm_compute. split; discriminate.
Defined.

(** * Further properties: sensors, availability, watchdog and tick structure *)

(** ** What the watchdog leaves alone *)

(** Any reading of the state that the five writes of the watchdog leave
    alone is left alone by the watchdog. *)
Section WatchdogPreserves.

Variable cfg : gpsRescueConfig.t.
Variable USE_MAG : bool.
Variable A : Type.
Variable proj : gps_rescue -> A.

Hypothesis proj_phase : forall p g, proj (with_phase p g) = proj g.
Hypothesis proj_failure : forall f g, proj (with_failure f g) = proj g.
Hypothesis proj_secondsFailing :
  forall n g, proj (with_intent (set_secondsFailing n) g) = proj g.
Hypothesis proj_magForceDisable : forall b g, proj (set_magForceDisable b g) = proj g.
Hypothesis proj_sanityMem : forall m g, proj (set_sanityMem m g) = proj g.

Ltac kept :=
  repeat first [ rewrite proj_phase | rewrite proj_failure
               | rewrite proj_secondsFailing | rewrite proj_magForceDisable
               | rewrite proj_sanityMem ];
  try reflexivity.

Lemma sanity_handle_failure_preserves (e : inputs) (g : gps_rescue) :
  proj (sanity_handle_failure cfg e g) = proj g.
Proof.
  unfold sanity_handle_failure.
  destruct (negb (failure_is_healthy (failure (rescueState g)))); kept.
Qed.

Lemma sanity_detect_preserves (e : inputs) (g : gps_rescue) :
  proj (sanity_detect e g) = proj g.
Proof.
  unfold sanity_detect.
  destruct (crashRecoveryModeActive e); destruct (negb (healthy _)); kept.
Qed.

Lemma sanity_flyHome_preserves (e : inputs) (g : gps_rescue) :
  proj (sanity_flyHome cfg USE_MAG e g) = proj g.
Proof.
  unfold sanity_flyHome.
  destruct (_ =? 20); [destruct (_ && _)|]; kept.
Qed.

Lemma sanity_altitude_count_preserves (b : bool) (g : gps_rescue) :
  proj (sanity_altitude_count b g) = proj g.
Proof. unfold sanity_altitude_count. destruct (_ =? 10); kept. Qed.

Lemma sanity_special_preserves (g : gps_rescue) :
  proj (sanity_special cfg g) = proj g.
Proof.
  unfold sanity_special.
  destruct (phase (rescueState g));
    try reflexivity; try apply sanity_altitude_count_preserves.
  destruct (_ =? 10); kept.
Qed.

Lemma sanity_lowSats_preserves (e : inputs) (g : gps_rescue) :
  proj (sanity_lowSats e g) = proj g.
Proof. unfold sanity_lowSats. destruct (_ =? 10); kept. Qed.

Lemma sanity_1hz_preserves (now : Z) (e : inputs) (g : gps_rescue) :
  proj (sanity_1hz cfg USE_MAG now e g) = proj g.
Proof.
  unfold sanity_1hz.
  rewrite sanity_lowSats_preserves, proj_sanityMem, sanity_special_preserves.
  match goal with
  | |- context [match ?p with _ => _ end] => destruct p
  end; rewrite ?sanity_flyHome_preserves; kept.
Qed.

Lemma performSanityChecks_preserves (now : Z) (e : inputs) (g : gps_rescue) :
  proj (performSanityChecks cfg USE_MAG now e g) = proj g.
Proof.
  unfold performSanityChecks.
  destruct (phase (rescueState g)); kept;
    (destruct (_ <? 1000000);
     rewrite ?sanity_1hz_preserves, sanity_detect_preserves,
       sanity_handle_failure_preserves; reflexivity).
Qed.

End WatchdogPreserves.

(** ** Facts about the sensor readings *)

Section Sensors.

Variable cfg : gpsRescueConfig.t.

Import f32_facts.

Lemma headings_listed (d : Z) :
  -5400 < d <= 5400 ->
  In d (map (fun k => Z.of_nat k - 5399) (seq 0 (Z.to_nat 10800))).
Proof.
  intros H. apply in_map_iff. exists (Z.to_nat (d + 5399)).
  split; [cbv beta; lia|]. apply in_seq. lia.
Qed.

(** Every heading difference of up to a turn and a half, one by one. *)
Lemma normalised_errorAngle_range (e : inputs) :
  -5400 < attitude_yaw e - GPS_directionToHome e <= 5400 ->
  (f32.of_int (-180) <? normalised_errorAngle e)%f32 = true
  /\ (normalised_errorAngle e <=? f32.of_int 180)%f32 = true
  /\ f32.in_range f32.zero (f32.of_int 180) (f32.fabsf (normalised_errorAngle e)) = true.
Proof.
  intros H. apply headings_listed in H.
  unfold normalised_errorAngle.
  revert H. generalize (attitude_yaw e - GPS_directionToHome e). intros d H.
  assert (All : forallb
            (fun d =>
               let a := (f32.of_int d * f32.lit 1 10)%f32 in
               let x := if (a <=? f32.of_int (-180))%f32 then (a + f32.of_int 360)%f32
                        else if (a >? f32.of_int 180)%f32 then (a - f32.of_int 360)%f32
                        else a in
               (f32.of_int (-180) <? x)%f32 && (x <=? f32.of_int 180)%f32
               && f32.in_range f32.zero (f32.of_int 180) (f32.fabsf x))
            (map (fun k => Z.of_nat k - 5399) (seq 0 (Z.to_nat 10800))) = true)
    by (vm_compute; reflexivity).
  rewrite forallb_forall in All. specialize (All d H). cbv zeta in All.
  apply andb_prop in All. destruct All as [All A3].
  apply andb_prop in All. destruct All as [A1 A2].
  repeat split; assumption.
Qed.

End Sensors.

(** ** The stages of a tick, one after the other *)

(** Reduction of every projection over every field update. *)
Ltac state :=
  cbn [fst snd
       rescueThrottle rescueYaw gpsRescueAngle_PITCH gpsRescueAngle_ROLL
       magForceDisable newGPSData rescueState attain sanityMem sensorMem availableMem
       phase failure sensor intent isAvailable
       returnAltitudeCm targetAltitudeCm targetVelocityCmS pitchAngleLimitDeg
       rollAngleLimitDeg updateYaw descentDistanceM secondsFailing
       maxAltitudeCm currentAltitudeCm distanceToHomeCm distanceToHomeM
       groundSpeedCmS directionToHome accMagnitude healthy errorAngle
       gpsDataIntervalSeconds velocityToHomeCmS ascendStepCm descendStepCm
       maxPitchStep filterK absErrorAngle
       sanity.previousTimeUs sanity.prevAltitudeCm sanity.secondsLowSats
       sanity.secondsDoingNothing
       available.previousTimeUs available.secondsLowSats available.lowsats
       available.noGPSfix
       previousDataTimeUs prevDistanceToHomeCm
       velocityI throttleI
       with_phase with_failure with_intent with_sensor
       set_rescueState set_phase set_failure set_sensor set_intent set_isAvailable
       set_newGPSData set_magForceDisable set_sanityMem set_sensorMem
       set_availableMem set_maxAltitudeCm set_outputs set_attain
       set_returnAltitudeCm set_targetAltitudeCm set_targetVelocityCmS
       set_pitchAngleLimitDeg set_rollAngleLimitDeg set_updateYaw
       set_descentDistanceM set_secondsFailing
       set_secondsDoingNothing set_sanity_previousTimeUs set_prevAltitudeCm
       set_sanity_secondsLowSats
       rescueStart rescueStop rescueNewGpsData] in *.

Section Stages.

Variable cfg : gpsRescueConfig.t.
Variable USE_MAG : bool.

(** The first statement, case by case. *)
Lemma entered_cases (e : inputs) (g : gps_rescue) :
  (FLIGHT_MODE_GPS_RESCUE e = false /\ entered cfg USE_MAG e g = rescueStop g)
  \/ (FLIGHT_MODE_GPS_RESCUE e = true /\ phase (rescueState g) = RESCUE_IDLE
      /\ entered cfg USE_MAG e g
         = set_sanityMem
             {| sanity.previousTimeUs := micros_start e;
                sanity.prevAltitudeCm := currentAltitudeCm (sensor (rescueState g));
                sanity.secondsLowSats := 5;
                sanity.secondsDoingNothing := 0 |}
             (set_attain attain_reset (rescueStart g)))
  \/ (FLIGHT_MODE_GPS_RESCUE e = true /\ phase (rescueState g) <> RESCUE_IDLE
      /\ entered cfg USE_MAG e g = g).
Proof.
  destruct (FLIGHT_MODE_GPS_RESCUE e) eqn:Hm.
  - destruct (phase (rescueState g)) eqn:Hp;
      try (right; right; split; [reflexivity|]; split; [discriminate|];
           unfold entered; rewrite Hm, Hp; reflexivity).
    right; left. split; [reflexivity|]. split; [reflexivity|].
    apply entered_from_idle; assumption.
  - left. split; [reflexivity|]. unfold entered. rewrite Hm. reflexivity.
Qed.

(** A completed tick is its stages: the state the watchdog leaves, one run
    of the controller on it, and the GPS flag cleared. *)
Lemma updateGPSRescueState_stages (e : inputs) (g g' : gps_rescue) (calls : list call) :
  updateGPSRescueState cfg USE_MAG e g = Ok (g', calls) ->
  calls = snd (rescuePhaseSwitch cfg e (to_uint8 (gpsRescueConfig.angle cfg / 2)) true
                 (sensed cfg USE_MAG e g))
  /\ exists g3,
       rescueAttainPosition cfg e (watched cfg USE_MAG e g) = Ok g3
       /\ g' = set_newGPSData false g3.
Proof.
  unfold updateGPSRescueState.
  rewrite rescueUpToController_ok, (rescueAdvance_sensed cfg USE_MAG e g).
  cbn [bind fst snd]. fold (switched cfg USE_MAG e g). fold (watched cfg USE_MAG e g).
  destruct (rescueAttainPosition cfg e (watched cfg USE_MAG e g)) as [g3|u];
    cbn [bind]; intros H; [|discriminate].
  injection H as <- <-. split; [reflexivity|]. exists g3. split; reflexivity.
Qed.

Lemma rescueUpToController_watched (e : inputs) (g : gps_rescue) :
  rescueUpToController cfg USE_MAG e g
  = Ok (watched cfg USE_MAG e g,
        snd (rescuePhaseSwitch cfg e (to_uint8 (gpsRescueConfig.angle cfg / 2)) true
               (sensed cfg USE_MAG e g))).
Proof.
  rewrite rescueUpToController_ok, (rescueAdvance_sensed cfg USE_MAG e g).
  reflexivity.
Qed.

(** The tick completes when the controller does. *)
Lemma updateGPSRescueState_completes (e : inputs) (g g3 : gps_rescue) :
  rescueAttainPosition cfg e (watched cfg USE_MAG e g) = Ok g3 ->
  updateGPSRescueState cfg USE_MAG e g
  = Ok (set_newGPSData false g3,
        snd (rescuePhaseSwitch cfg e (to_uint8 (gpsRescueConfig.angle cfg / 2)) true
               (sensed cfg USE_MAG e g))).
Proof.
  intros H. unfold updateGPSRescueState.
  rewrite rescueUpToController_watched. cbn [bind fst snd]. rewrite H. reflexivity.
Qed.

End Stages.

(** ** What each stage writes *)

Section StageFields.

Variable cfg : gpsRescueConfig.t.
Variable USE_MAG : bool.

(** The first statement writes the phase and, when a rescue starts, the
    statics of the controller and of the watchdog. *)
Lemma entered_fields (e : inputs) (g : gps_rescue) :
  let g0 := entered cfg USE_MAG e g in
  outputs_kept g g0
  /\ sensorMem g0 = sensorMem g
  /\ availableMem g0 = availableMem g
  /\ isAvailable (rescueState g0) = isAvailable (rescueState g)
  /\ (attain g0 = attain g \/ attain g0 = attain_reset)
  /\ (sanityMem g0 = sanityMem g
      \/ (FLIGHT_MODE_GPS_RESCUE e = true /\ phase (rescueState g) = RESCUE_IDLE
          /\ sanity.secondsLowSats (sanityMem g0) = 5
          /\ sanity.secondsDoingNothing (sanityMem g0) = 0)).
Proof.
  cbv zeta. unfold outputs_kept.
  destruct (entered_cases cfg USE_MAG e g) as [[_ E]|[[Hm [Hp E]]|[_ [_ E]]]];
    rewrite E; state; repeat split; auto.
Qed.

(** [sensorUpdate] writes the sensor readings and its own statics. *)
Lemma sensorUpdate_fields (e : inputs) (g : gps_rescue) :
  let g1 := sensorUpdate cfg e g in
  outputs_kept g g1
  /\ availableMem g1 = availableMem g
  /\ isAvailable (rescueState g1) = isAvailable (rescueState g)
  /\ (newGPSData g = false -> gps_data_kept g g1).
Proof.
  cbv zeta. unfold outputs_kept, gps_data_kept, sensorUpdate.
  destruct (newGPSData g); cbn [negb]; state; repeat split; try reflexivity;
    discriminate.
Qed.

(** [checkGPSRescueIsAvailable] reads and writes its own statics only. *)
Lemma checkGPSRescueIsAvailable_fields (e : inputs) (g : gps_rescue) :
  let g2 := snd (checkGPSRescueIsAvailable e g) in
  outputs_kept g g2
  /\ rescueState g2 = rescueState g
  /\ sensorMem g2 = sensorMem g
  /\ sanityMem g2 = sanityMem g.
Proof.
  cbv zeta. unfold outputs_kept, checkGPSRescueIsAvailable.
  destruct (negb (gpsIsHealthy e) || negb (STATE_GPS_FIX_HOME e)); state; [tauto|].
  destruct (cmpTimeUs _ _ <? 1000000); state; tauto.
Qed.

Lemma checkGPSRescueIsAvailable_reads (e : inputs) (g h : gps_rescue) :
  availableMem g = availableMem h ->
  fst (checkGPSRescueIsAvailable e g) = fst (checkGPSRescueIsAvailable e h)
  /\ availableMem (snd (checkGPSRescueIsAvailable e g))
     = availableMem (snd (checkGPSRescueIsAvailable e h)).
Proof.
  intros H. unfold checkGPSRescueIsAvailable. rewrite H.
  destruct (negb (gpsIsHealthy e) || negb (STATE_GPS_FIX_HOME e)); state;
    [split; [reflexivity | exact H]|].
  destruct (cmpTimeUs _ _ <? 1000000); state;
    split; try reflexivity; exact H.
Qed.

(** The [switch] writes the phase, the failure, the intent and the
    maximum altitude. *)
Lemma rescuePhaseSwitch_fields (e : inputs) (halfAngle : Z) (startedLow : bool)
  (s : gps_rescue) :
  let s' := fst (fst (rescuePhaseSwitch cfg e halfAngle startedLow s)) in
  outputs_kept s s'
  /\ gps_data_kept s s'
  /\ magForceDisable s' = magForceDisable s
  /\ newGPSData s' = newGPSData s
  /\ attain s' = attain s
  /\ sanityMem s' = sanityMem s
  /\ availableMem s' = availableMem s
  /\ isAvailable (rescueState s') = isAvailable (rescueState s)
  /\ currentAltitudeCm (sensor (rescueState s')) = currentAltitudeCm (sensor (rescueState s))
  /\ healthy (sensor (rescueState s')) = healthy (sensor (rescueState s))
  /\ accMagnitude (sensor (rescueState s')) = accMagnitude (sensor (rescueState s))
  /\ (failure (rescueState s') = failure (rescueState s)
      \/ (phase (rescueState s) = RESCUE_INITIALIZE
          /\ STATE_GPS_FIX_HOME e = false
          /\ phase (rescueState s') = RESCUE_INITIALIZE
          /\ failure (rescueState s') = RESCUE_NO_HOME_POINT)).
Proof.
  cbv zeta. unfold outputs_kept, gps_data_kept, rescuePhaseSwitch, idleTasks.
  destruct (phase (rescueState s)) eqn:Hp; cbv zeta;
    repeat match goal with
           | |- context [if ?c then _ else _] => destruct c eqn:?
           end; state; repeat split; try reflexivity; try assumption;
    try (left; reflexivity).
  right. repeat split; try assumption.
  destruct (STATE_GPS_FIX_HOME e); [discriminate | reflexivity].
Qed.

(** The controller writes its outputs and its own statics. *)
Lemma rescueAttainPosition_fields (e : inputs) (g g' : gps_rescue) :
  rescueAttainPosition cfg e g = Ok g' ->
  rescueState g' = rescueState g
  /\ magForceDisable g' = magForceDisable g
  /\ newGPSData g' = newGPSData g
  /\ sanityMem g' = sanityMem g
  /\ sensorMem g' = sensorMem g
  /\ availableMem g' = availableMem g.
Proof.
  assert (U : attain_update cfg e g = Ok g' ->
              rescueState g' = rescueState g
              /\ magForceDisable g' = magForceDisable g
              /\ newGPSData g' = newGPSData g
              /\ sanityMem g' = sanityMem g
              /\ sensorMem g' = sensorMem g
              /\ availableMem g' = availableMem g).
  { unfold attain_update.
    destruct (attain_velocityI_attenuated cfg g) as [v|u]; cbn [bind]; intros H;
      [|discriminate].
    injection H as <-. repeat split; reflexivity. }
  unfold rescueAttainPosition.
  destruct (phase (rescueState g));
    try (intros H; injection H as <-; repeat split; reflexivity);
    (destruct (negb (newGPSData g));
     [ intros H; injection H as <-; repeat split; reflexivity | exact U ]).
Qed.

End StageFields.

Section TickFields.

Variable cfg : gpsRescueConfig.t.
Variable USE_MAG : bool.

Lemma outputs_kept_refl (g : gps_rescue) : outputs_kept g g.
Proof. repeat split. Qed.

Lemma outputs_kept_trans (g1 g2 g3 : gps_rescue) :
  outputs_kept g1 g2 -> outputs_kept g2 g3 -> outputs_kept g1 g3.
Proof.
  unfold outputs_kept. intros H1 H2.
  decompose [and] H1. decompose [and] H2.
  repeat split; etransitivity; eassumption.
Qed.

Lemma gps_data_kept_trans (g1 g2 g3 : gps_rescue) :
  gps_data_kept g1 g2 -> gps_data_kept g2 g3 -> gps_data_kept g1 g3.
Proof.
  unfold gps_data_kept. cbv zeta. intros H1 H2.
  decompose [and] H1. decompose [and] H2.
  repeat split; etransitivity; eassumption.
Qed.

Lemma gps_data_kept_same (g g' : gps_rescue) :
  sensor (rescueState g') = sensor (rescueState g) ->
  sensorMem g' = sensorMem g ->
  gps_data_kept g g'.
Proof.
  intros H1 H2. unfold gps_data_kept. cbv zeta. rewrite H1, H2.
  repeat split.
Qed.

(** The state the [switch] runs on. *)
Lemma sensed_fields (e : inputs) (g : gps_rescue) :
  let s := sensed cfg USE_MAG e g in
  outputs_kept g s
  /\ (attain s = attain g \/ attain s = attain_reset)
  /\ sanityMem s = sanityMem (entered cfg USE_MAG e g)
  /\ isAvailable (rescueState s) = fst (checkGPSRescueIsAvailable e g)
  /\ availableMem s = availableMem (snd (checkGPSRescueIsAvailable e g))
  /\ (newGPSData g = false -> gps_data_kept g s).
Proof.
  cbv zeta.
  destruct (entered_fields cfg USE_MAG e g) as (O0 & SM0 & AM0 & _ & A0 & _).
  destruct (entered_frame cfg USE_MAG e g) as (_ & _ & S0 & _ & N0).
  set (g0 := entered cfg USE_MAG e g) in *.
  destruct (sensorUpdate_fields cfg e g0) as (O1 & AM1 & _ & K1).
  destruct (sensorUpdate_frame cfg e g0) as (_ & _ & _ & _ & _ & SA1 & A1 & _).
  set (g1 := sensorUpdate cfg e g0) in *.
  destruct (checkGPSRescueIsAvailable_fields e g1) as (O2 & R2 & SM2 & SA2).
  destruct (checkGPSRescueIsAvailable_frame e g1) as (_ & _ & _ & _ & A2).
  destruct (checkGPSRescueIsAvailable_reads e g1 g) as (F & M);
    [rewrite AM1; exact AM0|].
  unfold sensed. fold g0. fold g1. cbv zeta. state. rewrite ?R2.
  split.
  { eapply outputs_kept_trans; [exact O0|].
    eapply outputs_kept_trans; [exact O1|].
    unfold outputs_kept in *. state. exact O2. }
  split; [rewrite A2, A1; exact A0|].
  split; [congruence|].
  split; [exact F|].
  split; [exact M|].
  intros Hn. rewrite N0 in K1. specialize (K1 Hn).
  eapply gps_data_kept_trans;
    [apply gps_data_kept_same; [exact S0 | exact SM0]|].
  eapply gps_data_kept_trans; [exact K1|].
  apply gps_data_kept_same; [state; rewrite ?R2; reflexivity | exact SM2].
Qed.

(** The state the controller runs on. *)
Lemma watched_fields (e : inputs) (g : gps_rescue) :
  let w := watched cfg USE_MAG e g in
  outputs_kept g w
  /\ newGPSData w = newGPSData g
  /\ (attain w = attain g \/ attain w = attain_reset)
  /\ isAvailable (rescueState w) = fst (checkGPSRescueIsAvailable e g)
  /\ availableMem w = availableMem (snd (checkGPSRescueIsAvailable e g))
  /\ (newGPSData g = false -> gps_data_kept g w).
Proof.
  cbv zeta.
  destruct (sensed_fields e g) as (Os & As & _ & Is & AMs & Ks).
  destruct (sensed_frame cfg USE_MAG e g) as (_ & _ & _ & Ns & _).
  destruct (rescuePhaseSwitch_fields cfg e
              (to_uint8 (gpsRescueConfig.angle cfg / 2)) true
              (sensed cfg USE_MAG e g))
    as (Osw & Ksw & _ & Nsw & Asw & _ & AMsw & Isw & _).
  fold (switched cfg USE_MAG e g) in *.
  set (s := sensed cfg USE_MAG e g) in *.
  set (s' := switched cfg USE_MAG e g) in *.
  unfold watched. fold s'.
  set (w := performSanityChecks cfg USE_MAG (micros_sanity e) e s').
  destruct (performSanityChecks_frame cfg USE_MAG (micros_sanity e) e s')
    as (_ & _ & _ & Sw & Nw & Aw & Tw & Yw).
  fold w in Sw, Nw, Aw, Tw, Yw.
  assert (Pw : gpsRescueAngle_PITCH w = gpsRescueAngle_PITCH s')
    by (apply performSanityChecks_preserves; reflexivity).
  assert (Rw : gpsRescueAngle_ROLL w = gpsRescueAngle_ROLL s')
    by (apply performSanityChecks_preserves; reflexivity).
  assert (Iw : isAvailable (rescueState w) = isAvailable (rescueState s'))
    by (apply (performSanityChecks_preserves cfg USE_MAG _
                 (fun x => isAvailable (rescueState x))); reflexivity).
  assert (AMw : availableMem w = availableMem s')
    by (apply performSanityChecks_preserves; reflexivity).
  assert (SMw : sensorMem w = sensorMem s')
    by (apply performSanityChecks_preserves; reflexivity).
  split.
  { eapply outputs_kept_trans; [exact Os|].
    eapply outputs_kept_trans; [exact Osw|].
    unfold outputs_kept. repeat split; assumption. }
  split; [congruence|].
  split; [rewrite Aw, Asw; exact As|].
  split; [congruence|].
  split; [congruence|].
  intros Hn.
  eapply gps_data_kept_trans; [exact (Ks Hn)|].
  eapply gps_data_kept_trans; [exact Ksw|].
  apply gps_data_kept_same; assumption.
Qed.

(** A tick without a new GPS sample cannot reach the controller's update. *)
Lemma rescueAttainPosition_without_sample (e : inputs) (g : gps_rescue) :
  newGPSData g = false ->
  exists g3,
    rescueAttainPosition cfg e g = Ok g3
    /\ match phase (rescueState g) with
       | RESCUE_IDLE =>
           g3 = set_outputs f32.zero f32.zero (rcCommand_THROTTLE e) g
       | RESCUE_DO_NOTHING =>
           g3 = set_outputs f32.zero f32.zero
                  (f32.of_int (gpsRescueConfig.throttleHover cfg)) g
       | RESCUE_INITIALIZE => g3 = set_attain attain_reset g
       | _ => g3 = g
       end.
Proof.
  intros Hn. unfold rescueAttainPosition. rewrite Hn. cbn [negb].
  destruct (phase (rescueState g)); eexists; split; reflexivity.
Qed.

End TickFields.

(** ** The sensors *)

(** X1.  A GPS sample whose heading and bearing to home differ by at most a
    turn and a half (the difference, in tenths of a degree, in
    (-5400, 5400]) leaves [errorAngle] in (-180, 180] and [absErrorAngle]
    in [0, 180]: one addition or subtraction of 360 is enough there, in
    binary32 as it is computed. *)
Theorem sensorUpdate_normalises_the_heading_error (cfg : gpsRescueConfig.t)
  (e : inputs) (g : gps_rescue) :
  newGPSData g = true ->
  -5400 < attitude_yaw e - GPS_directionToHome e <= 5400 ->
  let sn := sensor (rescueState (sensorUpdate cfg e g)) in
  (f32.of_int (-180) <? errorAngle sn)%f32 = true
  /\ (errorAngle sn <=? f32.of_int 180)%f32 = true
  /\ f32.in_range f32.zero (f32.of_int 180) (absErrorAngle sn) = true.
Proof.
  intros Hn Hd. cbv zeta. unfold sensorUpdate. rewrite Hn. cbn [negb]. state.
  apply normalised_errorAngle_range. exact Hd.
Qed.

Lemma sensorUpdate_normalises_the_heading_error_witness :
  newGPSData (rescueNewGpsData gps_rescue_init) = true
  /\ attitude_yaw fly_home_readings - GPS_directionToHome fly_home_readings = 300
  /\ errorAngle (sensor (rescueState
        (sensorUpdate default_config fly_home_readings
           (rescueNewGpsData gps_rescue_init)))) = f32.of_int 30
  /\ (f32.of_int (-180)
       <? errorAngle (sensor (rescueState
            (sensorUpdate default_config fly_home_readings
               (rescueNewGpsData gps_rescue_init)))))%f32 = true.
Proof.
  split; [reflexivity|]. split; [reflexivity|]. split; [vm_compute; reflexivity|].
  apply (sensorUpdate_normalises_the_heading_error default_config fly_home_readings
           (rescueNewGpsData gps_rescue_init)).
  - reflexivity.
  - vm_compute. split; [reflexivity | discriminate].
Defined.

(** X2.  On every GPS sample the stored interval [gpsDataIntervalSeconds] is
    a number between 0.01 and 1, whatever the two clock readings are: it
    is never a NaN and never zero, so the steps and the velocity to home
    that are derived from it are divided by a positive number. *)
Theorem sensorUpdate_bounds_the_sample_interval (cfg : gpsRescueConfig.t)
  (e : inputs) (g : gps_rescue) :
  newGPSData g = true ->
  f32.in_range (f32.lit 1 100) (f32.of_int 1)
    (gpsDataIntervalSeconds (sensor (rescueState (sensorUpdate cfg e g)))) = true.
Proof.
  intros Hn. unfold sensorUpdate. rewrite Hn. cbn [negb]. state.
  apply f32_facts.constrainf_in_range; [reflexivity|].
  apply (mul_finite_not_nan _ false 8796093 (-43)).
  apply f32_facts.of_int_not_nan.
Qed.

Lemma sensorUpdate_bounds_the_sample_interval_witness :
  newGPSData (rescueNewGpsData gps_rescue_init) = true
  /\ f32.in_range (f32.lit 1 100) (f32.of_int 1)
       (gpsDataIntervalSeconds (sensor (rescueState
          (sensorUpdate default_config fly_home_readings
             (rescueNewGpsData gps_rescue_init))))) = true.
Proof.
  split; [reflexivity|].
  apply (sensorUpdate_bounds_the_sample_interval default_config fly_home_readings
           (rescueNewGpsData gps_rescue_init)).
  reflexivity.
Defined.

(** X3.  A tick that starts without a new GPS sample changes none of the
    readings a sample refreshes (distance, ground speed, bearing, heading
    error, sample interval, velocity to home, the three steps and the
    filter gain) and none of the statics of [sensorUpdate]. *)
Theorem tick_without_gps_sample_keeps_the_gps_data (cfg : gpsRescueConfig.t)
  (USE_MAG : bool) (e : inputs) (g g' : gps_rescue) (calls : list call) :
  updateGPSRescueState cfg USE_MAG e g = Ok (g', calls) ->
  newGPSData g = false ->
  gps_data_kept g g'.
Proof.
  intros Hupd Hn.
  destruct (updateGPSRescueState_stages cfg USE_MAG e g g' calls Hupd)
    as (_ & g3 & Hctl & ->).
  destruct (watched_fields cfg USE_MAG e g) as (_ & _ & _ & _ & _ & K).
  destruct (rescueAttainPosition_fields cfg e _ g3 Hctl) as (R & _ & _ & _ & SM & _).
  eapply gps_data_kept_trans; [exact (K Hn)|].
  apply gps_data_kept_same; state; [rewrite R; reflexivity | exact SM].
Qed.

Lemma tick_without_gps_sample_keeps_the_gps_data_witness :
  exists g' calls,
    updateGPSRescueState default_config true gps_lost_readings
      (set_newGPSData false fly_home_state) = Ok (g', calls)
    /\ gps_data_kept (set_newGPSData false fly_home_state) g'.
Proof.
  do 2 eexists. split; [vm_compute; reflexivity|].
  apply (tick_without_gps_sample_keeps_the_gps_data default_config true
           gps_lost_readings (set_newGPSData false fly_home_state) _ []);
    [vm_compute; reflexivity | reflexivity].
Defined.

(** X4.  After a tick on which the GPS receiver is unhealthy or there is no
    home point, [gpsRescueIsAvailable] is false, and the statics of
    [checkGPSRescueIsAvailable] (its clock, its counter and its two flags)
    are as they were. *)
Theorem rescue_is_unavailable_without_gps_or_home (cfg : gpsRescueConfig.t)
  (USE_MAG : bool) (e : inputs) (g g' : gps_rescue) (calls : list call) :
  updateGPSRescueState cfg USE_MAG e g = Ok (g', calls) ->
  gpsIsHealthy e = false \/ STATE_GPS_FIX_HOME e = false ->
  gpsRescueIsAvailable g' = false
  /\ availableMem g' = availableMem g.
Proof.
  intros Hupd Hbad.
  destruct (updateGPSRescueState_stages cfg USE_MAG e g g' calls Hupd)
    as (_ & g3 & Hctl & ->).
  destruct (watched_fields cfg USE_MAG e g) as (_ & _ & _ & I & AM & _).
  destruct (rescueAttainPosition_fields cfg e _ g3 Hctl) as (R & _ & _ & _ & _ & AM3).
  unfold gpsRescueIsAvailable. state. rewrite R, AM3, I, AM.
  unfold checkGPSRescueIsAvailable.
  replace (negb (gpsIsHealthy e) || negb (STATE_GPS_FIX_HOME e)) with true.
  - split; reflexivity.
  - destruct Hbad as [H|H]; rewrite H; [reflexivity|].
    destruct (gpsIsHealthy e); reflexivity.
Qed.

Lemma rescue_is_unavailable_without_gps_or_home_witness :
  exists g' calls,
    updateGPSRescueState default_config true gps_lost_readings
      (set_newGPSData false fly_home_state) = Ok (g', calls)
    /\ gpsIsHealthy gps_lost_readings = false
    /\ gpsRescueIsAvailable g' = false.
Proof.
  do 2 eexists. split; [vm_compute; reflexivity|]. split; [reflexivity|].
  apply (rescue_is_unavailable_without_gps_or_home default_config true
           gps_lost_readings (set_newGPSData false fly_home_state) _ []);
    [vm_compute; reflexivity | left; reflexivity].
Defined.

(** ** Availability and the idle bookkeeping *)

(** X5.  Between two of its once-a-second evaluations
    [checkGPSRescueIsAvailable] repeats the answer of the last one and
    writes nothing: a call less than a second after an evaluation returns
    what the evaluation returned and leaves the state it left (the
    receiver being healthy and the home point set at both). *)
Theorem availability_is_held_between_evaluations (e1 e2 : inputs) (g : gps_rescue) :
  gpsIsHealthy e1 = true -> STATE_GPS_FIX_HOME e1 = true ->
  gpsIsHealthy e2 = true -> STATE_GPS_FIX_HOME e2 = true ->
  (cmpTimeUs (micros_available e1) (available.previousTimeUs (availableMem g))
   <? 1000000) = false ->
  (cmpTimeUs (micros_available e2) (micros_available e1) <? 1000000) = true ->
  checkGPSRescueIsAvailable e2 (snd (checkGPSRescueIsAvailable e1 g))
  = checkGPSRescueIsAvailable e1 g.
Proof.
  intros H1 F1 H2 F2 Hslow Hfast.
  unfold checkGPSRescueIsAvailable at 2 3.
  rewrite H1, F1, Hslow. cbn [negb orb snd].
  unfold checkGPSRescueIsAvailable.
  rewrite H2, F2. cbn [negb orb]. state.
  rewrite Hfast.
  destruct (STATE_GPS_FIX e1); destruct (_ =? 2); reflexivity.
Qed.

Lemma availability_is_held_between_evaluations_witness :
  checkGPSRescueIsAvailable (readings_at true 3400 19980 1200000) gps_rescue_init
  = (true, snd (checkGPSRescueIsAvailable (readings_at true 3400 19980 1200000)
                  gps_rescue_init))
  /\ checkGPSRescueIsAvailable (readings_at true 3400 19980 1700000)
       (snd (checkGPSRescueIsAvailable (readings_at true 3400 19980 1200000)
               gps_rescue_init))
     = checkGPSRescueIsAvailable (readings_at true 3400 19980 1200000) gps_rescue_init.
Proof.
  split; [reflexivity|].
  apply (availability_is_held_between_evaluations
           (readings_at true 3400 19980 1200000) (readings_at true 3400 19980 1700000)
           gps_rescue_init); reflexivity.
Defined.



Section IdleBookkeeping.

Variable cfg : gpsRescueConfig.t.
Variable USE_MAG : bool.

Lemma MAX_is_max (a b : Z) : MAX a b = Z.max a b.
Proof.
  unfold MAX. destruct (a >? b) eqn:E; rewrite Z.gtb_ltb in E;
    [apply Z.ltb_lt in E | apply Z.ltb_ge in E]; lia.
Qed.

(** The maximum altitude is written by the idle bookkeeping only. *)
Lemma rescuePhaseSwitch_maxAltitude (e : inputs) (halfAngle : Z) (startedLow : bool)
  (s : gps_rescue) :
  maxAltitudeCm (sensor (rescueState
                   (fst (fst (rescuePhaseSwitch cfg e halfAngle startedLow s)))))
  = match phase (rescueState s) with
    | RESCUE_IDLE =>
        if negb (ARMING_FLAG_ARMED e) then 0
        else if negb (isAltitudeOffset e) then maxAltitudeCm (sensor (rescueState s))
        else Z.max (currentAltitudeCm (sensor (rescueState s)))
                   (maxAltitudeCm (sensor (rescueState s)))
    | _ => maxAltitudeCm (sensor (rescueState s))
    end.
Proof.
  unfold rescuePhaseSwitch, idleTasks.
  destruct (phase (rescueState s)) eqn:Hp; cbv zeta;
    repeat match goal with
           | |- context [if ?c then _ else _] => destruct c eqn:?
           end; state; rewrite ?MAX_is_max; reflexivity.
Qed.

Lemma sensed_maxAltitude (e : inputs) (g : gps_rescue) :
  maxAltitudeCm (sensor (rescueState (sensed cfg USE_MAG e g)))
  = maxAltitudeCm (sensor (rescueState g)).
Proof.
  destruct (sensed_frame cfg USE_MAG e g) as (_ & _ & _ & _ & _ & S & _).
  rewrite S.
  destruct (sensorUpdate_frame cfg e (entered cfg USE_MAG e g))
    as (_ & _ & _ & _ & _ & _ & _ & _ & _ & M).
  rewrite M.
  destruct (entered_frame cfg USE_MAG e g) as (_ & _ & S0 & _).
  rewrite S0. reflexivity.
Qed.

(** What a completed tick leaves of the state the watchdog saw. *)
Lemma completed_tick_rescueState (e : inputs) (g g' : gps_rescue) (calls : list call) :
  updateGPSRescueState cfg USE_MAG e g = Ok (g', calls) ->
  rescueState g' = rescueState (watched cfg USE_MAG e g)
  /\ sensor (rescueState g') = sensor (rescueState (switched cfg USE_MAG e g)).
Proof.
  intros Hupd.
  destruct (updateGPSRescueState_stages cfg USE_MAG e g g' calls Hupd)
    as (_ & g3 & Hctl & ->).
  destruct (rescueAttainPosition_fields cfg e _ g3 Hctl) as (R & _).
  state. rewrite R. split; [reflexivity|].
  unfold watched.
  destruct (performSanityChecks_frame cfg USE_MAG (micros_sanity e) e
              (switched cfg USE_MAG e g)) as (_ & _ & _ & S & _).
  exact S.
Qed.

End IdleBookkeeping.

(** X7.  After every tick: with the rescue mode on the maximum altitude is
    what it was; with the mode off it is 0 when disarmed, unchanged while
    no altitude offset has been applied, and otherwise the larger of the
    old maximum and the altitude estimate of this tick. *)
Theorem maximum_altitude_is_tracked_while_idle (cfg : gpsRescueConfig.t)
  (USE_MAG : bool) (e : inputs) (g g' : gps_rescue) (calls : list call) :
  updateGPSRescueState cfg USE_MAG e g = Ok (g', calls) ->
  maxAltitudeCm (sensor (rescueState g'))
  = if FLIGHT_MODE_GPS_RESCUE e then maxAltitudeCm (sensor (rescueState g))
    else if negb (ARMING_FLAG_ARMED e) then 0
    else if negb (isAltitudeOffset e) then maxAltitudeCm (sensor (rescueState g))
    else Z.max (getEstimatedAltitudeCm e) (maxAltitudeCm (sensor (rescueState g))).
Proof.
  intros Hupd.
  destruct (completed_tick_rescueState cfg USE_MAG e g g' calls Hupd) as (_ & S).
  rewrite S. unfold switched. rewrite rescuePhaseSwitch_maxAltitude.
  rewrite sensed_maxAltitude.
  destruct (sensed_frame cfg USE_MAG e g) as (P & _ & _ & _ & _ & _ & C).
  rewrite P, C.
  destruct (FLIGHT_MODE_GPS_RESCUE e) eqn:Hm.
  - destruct (dispatched_phase e g) eqn:Hd; try reflexivity.
    apply dispatched_phase_idle in Hd. congruence.
  - replace (dispatched_phase e g) with RESCUE_IDLE
      by (symmetry; apply dispatched_phase_idle; exact Hm).
    reflexivity.
Qed.

Lemma maximum_altitude_is_tracked_while_idle_witness :
  exists g' calls,
    updateGPSRescueState default_config true (readings_at false 1000 20000 100000)
      gps_rescue_init = Ok (g', calls)
    /\ maxAltitudeCm (sensor (rescueState g')) = 1000.
Proof.
  do 2 eexists. split; [vm_compute; reflexivity|].
  apply (maximum_altitude_is_tracked_while_idle default_config true
           (readings_at false 1000 20000 100000) gps_rescue_init _ []).
  vm_compute. reflexivity.
Defined.

Section IdleDescent.

Variable cfg : gpsRescueConfig.t.
Variable USE_MAG : bool.

Lemma sensorUpdate_distanceToHomeM (e : inputs) (g : gps_rescue) :
  newGPSData g = true ->
  distanceToHomeM (sensor (rescueState (sensorUpdate cfg e g)))
  = (f32.of_int (GPS_distanceToHomeCm e) / f32.of_int 100)%f32.
Proof.
  intros Hn. unfold sensorUpdate. rewrite Hn. reflexivity.
Qed.

Lemma sensed_distanceToHomeM (e : inputs) (g : gps_rescue) :
  newGPSData g = true ->
  distanceToHomeM (sensor (rescueState (sensed cfg USE_MAG e g)))
  = (f32.of_int (GPS_distanceToHomeCm e) / f32.of_int 100)%f32.
Proof.
  intros Hn.
  destruct (sensed_frame cfg USE_MAG e g) as (_ & _ & _ & _ & _ & S & _).
  rewrite S. apply sensorUpdate_distanceToHomeM.
  destruct (entered_frame cfg USE_MAG e g) as (_ & _ & _ & _ & N).
  rewrite N. exact Hn.
Qed.

(** The descent distance the idle bookkeeping stores on a GPS sample. *)
Lemma idleTasks_descentDistanceM (e : inputs) (s : gps_rescue) :
  ARMING_FLAG_ARMED e = true -> isAltitudeOffset e = true -> newGPSData s = true ->
  descentDistanceM (intent (rescueState (idleTasks cfg e s)))
  = constrainf (distanceToHomeM (sensor (rescueState s)))
      (f32.of_int GPS_RESCUE_MIN_DESCENT_DIST_M)
      (f32.of_int (gpsRescueConfig.descentDistanceM cfg)).
Proof.
  intros Ha Ho Hn. unfold idleTasks. rewrite Ha, Ho. cbn [negb]. state.
  rewrite Hn. state. reflexivity.
Qed.

End IdleDescent.

(** X8.  An idle tick (mode off, armed, altitude offset applied) with a new
    GPS sample stores a descent distance between 10 m and the configured
    [descentDistanceM], when the configured value is at least 10: the
    distance to home it is taken from is never a NaN. *)
Theorem idle_tick_clamps_the_descent_distance (cfg : gpsRescueConfig.t)
  (USE_MAG : bool) (e : inputs) (g g' : gps_rescue) (calls : list call) :
  updateGPSRescueState cfg USE_MAG e g = Ok (g', calls) ->
  FLIGHT_MODE_GPS_RESCUE e = false ->
  ARMING_FLAG_ARMED e = true ->
  isAltitudeOffset e = true ->
  newGPSData g = true ->
  (f32.of_int GPS_RESCUE_MIN_DESCENT_DIST_M
   <=? f32.of_int (gpsRescueConfig.descentDistanceM cfg))%f32 = true ->
  f32.in_range (f32.of_int GPS_RESCUE_MIN_DESCENT_DIST_M)
    (f32.of_int (gpsRescueConfig.descentDistanceM cfg))
    (descentDistanceM (intent (rescueState g'))) = true.
Proof.
  intros Hupd Hm Ha Ho Hn Hlim.
  destruct (completed_tick_rescueState cfg USE_MAG e g g' calls Hupd) as (R & _).
  rewrite R. unfold watched.
  rewrite (performSanityChecks_preserves cfg USE_MAG _
             (fun x => descentDistanceM (intent (rescueState x))))
    by reflexivity.
  destruct (sensed_frame cfg USE_MAG e g) as (P & _ & _ & N & _).
  assert (Hd : dispatched_phase e g = RESCUE_IDLE)
    by (apply dispatched_phase_idle; exact Hm).
  rewrite Hd in P. rewrite Hn in N.
  unfold switched, rescuePhaseSwitch. rewrite P. cbn [fst].
  rewrite (idleTasks_descentDistanceM cfg e _ Ha Ho N).
  apply f32_facts.constrainf_in_range; [exact Hlim|].
  rewrite (sensed_distanceToHomeM cfg USE_MAG e g Hn).
  apply (div_finite_not_nan _ false 13107200 (-17)).
  apply f32_facts.of_int_not_nan.
Qed.

Lemma idle_tick_clamps_the_descent_distance_witness :
  exists g' calls,
    updateGPSRescueState default_config true (readings_at false 1000 20000 100000)
      (rescueNewGpsData gps_rescue_init) = Ok (g', calls)
    /\ descentDistanceM (intent (rescueState g')) = f32.of_int 20
    /\ f32.in_range (f32.of_int GPS_RESCUE_MIN_DESCENT_DIST_M)
         (f32.of_int (gpsRescueConfig.descentDistanceM default_config))
         (descentDistanceM (intent (rescueState g'))) = true.
Proof.
  do 2 eexists. split; [vm_compute; reflexivity|].
  split; [vm_compute; reflexivity|].
  apply (idle_tick_clamps_the_descent_distance default_config true
           (readings_at false 1000 20000 100000) (rescueNewGpsData gps_rescue_init) _ []);
    first [vm_compute; reflexivity].
Defined.

(** ** The controller *)

Section Angles.

Variable cfg : gpsRescueConfig.t.

(** The two bounds of an angle clamp are in order for every limit an
    unsigned byte can hold. *)
Lemma angle_limits_ordered (l : Z) :
  0 <= l <= 255 ->
  (f32.of_int (- l) * f32.of_int 100 <=? f32.of_int l * f32.of_int 100)%f32 = true.
Proof.
  intros H.
  assert (All : forallb
            (fun l => (f32.of_int (- l) * f32.of_int 100
                       <=? f32.of_int l * f32.of_int 100)%f32)
            (map Z.of_nat (seq 0 256)) = true)
    by (vm_compute; reflexivity).
  rewrite forallb_forall in All. apply All.
  apply in_map_iff. exists (Z.to_nat l). split; [lia|]. apply in_seq. lia.
Qed.

(** The angles one controller update stores. *)
Lemma attain_update_angles (e : inputs) (g g' : gps_rescue) :
  attain_update cfg e g = Ok g' ->
  (exists x,
     gpsRescueAngle_PITCH g'
     = constrainf x
         (f32.of_int (- pitchAngleLimitDeg (intent (rescueState g))) * f32.of_int 100)%f32
         (f32.of_int (pitchAngleLimitDeg (intent (rescueState g))) * f32.of_int 100)%f32)
  /\ gpsRescueAngle_ROLL g' = attain_roll cfg g.
Proof.
  unfold attain_update.
  destruct (attain_velocityI_attenuated cfg g) as [v|u]; cbn [bind]; intros H;
    [|discriminate].
  injection H as <-. split; [eexists; reflexivity | reflexivity].
Qed.

End Angles.

(** X9.  One run of the controller, with the pitch limit a valid [uint8_t]
    and the roll limit a non-negative [int8_t]: in [RESCUE_IDLE] and
    [RESCUE_DO_NOTHING] both angles are 0; in [RESCUE_INITIALIZE], and in
    the other phases without a new GPS sample, they are unchanged; after
    an update on a new GPS sample the pitch angle is within
    +-100 * pitchAngleLimitDeg and the roll angle within
    +-100 * rollAngleLimitDeg (a NaN, which no clamp removes, aside). *)
Theorem controller_keeps_the_angles_inside_their_limits (cfg : gpsRescueConfig.t)
  (e : inputs) (g g' : gps_rescue) :
  rescueAttainPosition cfg e g = Ok g' ->
  0 <= pitchAngleLimitDeg (intent (rescueState g)) <= 255 ->
  0 <= rollAngleLimitDeg (intent (rescueState g)) <= 127 ->
  let pitchLimit := pitchAngleLimitDeg (intent (rescueState g)) in
  let rollLimit := rollAngleLimitDeg (intent (rescueState g)) in
  match phase (rescueState g) with
  | RESCUE_IDLE | RESCUE_DO_NOTHING =>
      gpsRescueAngle_PITCH g' = f32.zero /\ gpsRescueAngle_ROLL g' = f32.zero
  | RESCUE_INITIALIZE =>
      gpsRescueAngle_PITCH g' = gpsRescueAngle_PITCH g
      /\ gpsRescueAngle_ROLL g' = gpsRescueAngle_ROLL g
  | _ =>
      if newGPSData g then
        f32.nan_or_in_range
          (f32.of_int (- pitchLimit) * f32.of_int 100)%f32
          (f32.of_int pitchLimit * f32.of_int 100)%f32 (gpsRescueAngle_PITCH g')
        /\ f32.nan_or_in_range
             (f32.of_int (- rollLimit) * f32.of_int 100)%f32
             (f32.of_int rollLimit * f32.of_int 100)%f32 (gpsRescueAngle_ROLL g')
      else
        gpsRescueAngle_PITCH g' = gpsRescueAngle_PITCH g
        /\ gpsRescueAngle_ROLL g' = gpsRescueAngle_ROLL g
  end.
Proof.
  intros Hrun Hp Hr pitchLimit rollLimit.
  assert (Hactive :
    (if negb (newGPSData g) then Ok g else attain_update cfg e g) = Ok g' ->
    if newGPSData g then
      f32.nan_or_in_range
        (f32.of_int (- pitchLimit) * f32.of_int 100)%f32
        (f32.of_int pitchLimit * f32.of_int 100)%f32 (gpsRescueAngle_PITCH g')
      /\ f32.nan_or_in_range
           (f32.of_int (- rollLimit) * f32.of_int 100)%f32
           (f32.of_int rollLimit * f32.of_int 100)%f32 (gpsRescueAngle_ROLL g')
    else
      gpsRescueAngle_PITCH g' = gpsRescueAngle_PITCH g
      /\ gpsRescueAngle_ROLL g' = gpsRescueAngle_ROLL g).
  { destruct (newGPSData g); cbn [negb]; intros H.
    - destruct (attain_update_angles cfg e g g' H) as [[x Hx] Hroll].
      rewrite Hx, Hroll. split.
      + apply f32_facts.constrainf_nan_or_in_range.
        apply angle_limits_ordered. exact Hp.
      + unfold attain_roll. cbv zeta.
        apply f32_facts.constrainf_nan_or_in_range.
        apply angle_limits_ordered. fold rollLimit. lia.
    - injection H as <-. split; reflexivity. }
  unfold rescueAttainPosition in Hrun.
  destruct (phase (rescueState g)); try (apply Hactive; exact Hrun);
    injection Hrun as <-; split; reflexivity.
Qed.

Lemma controller_keeps_the_angles_inside_their_limits_witness :
  exists g',
    rescueAttainPosition default_config fly_home_readings fly_home_state = Ok g'
    /\ phase (rescueState fly_home_state) = RESCUE_FLY_HOME
    /\ newGPSData fly_home_state = true
    /\ pitchAngleLimitDeg (intent (rescueState fly_home_state)) = 32
    /\ rollAngleLimitDeg (intent (rescueState fly_home_state)) = 32
    /\ f32.nan_or_in_range (f32.of_int (-32) * f32.of_int 100)%f32
         (f32.of_int 32 * f32.of_int 100)%f32 (gpsRescueAngle_PITCH g')
    /\ f32.nan_or_in_range (f32.of_int (-32) * f32.of_int 100)%f32
         (f32.of_int 32 * f32.of_int 100)%f32 (gpsRescueAngle_ROLL g').
Proof.
  eexists. split; [vm_compute; reflexivity|].
  split; [reflexivity|]. split; [reflexivity|].
  split; [reflexivity|]. split; [reflexivity|].
  match goal with
  | |- f32.nan_or_in_range _ _ (gpsRescueAngle_PITCH ?g') /\ _ =>
      pose proof (controller_keeps_the_angles_inside_their_limits default_config
                    fly_home_readings fly_home_state g'
                    ltac:(vm_compute; reflexivity)
                    ltac:(vm_compute; split; discriminate)
                    ltac:(vm_compute; split; discriminate)) as H
  end.
  exact H.
Defined.

(** X10.  A tick that starts without a new GPS sample always completes (the
    controller does not reach its update), and it writes the four outputs
    only when it ends in [RESCUE_IDLE] (pilot's throttle, angles 0) or
    in [RESCUE_DO_NOTHING] (hover throttle, angles 0); the yaw rate is
    unchanged in both, and all four outputs are unchanged in every other
    phase. *)
Theorem tick_without_gps_sample_completes (cfg : gpsRescueConfig.t) (USE_MAG : bool)
  (e : inputs) (g : gps_rescue) :
  newGPSData g = false ->
  exists g' calls,
    updateGPSRescueState cfg USE_MAG e g = Ok (g', calls)
    /\ match phase (rescueState g') with
       | RESCUE_IDLE =>
           rescueThrottle g' = rcCommand_THROTTLE e
           /\ rescueYaw g' = rescueYaw g
           /\ gpsRescueAngle_PITCH g' = f32.zero
           /\ gpsRescueAngle_ROLL g' = f32.zero
       | RESCUE_DO_NOTHING =>
           rescueThrottle g' = f32.of_int (gpsRescueConfig.throttleHover cfg)
           /\ rescueYaw g' = rescueYaw g
           /\ gpsRescueAngle_PITCH g' = f32.zero
           /\ gpsRescueAngle_ROLL g' = f32.zero
       | _ => outputs_kept g g'
       end.
Proof.
  intros Hn.
  destruct (watched_fields cfg USE_MAG e g) as (O & N & _).
  rewrite Hn in N.
  destruct (rescueAttainPosition_without_sample cfg e _ N) as (g3 & Hctl & Hg3).
  exists (set_newGPSData false g3). eexists.
  split; [apply updateGPSRescueState_completes; exact Hctl|].
  destruct (rescueAttainPosition_fields cfg e _ g3 Hctl) as (R & _).
  state. rewrite R.
  unfold outputs_kept in *. destruct O as (O1 & O2 & O3 & O4).
  destruct (phase (rescueState (watched cfg USE_MAG e g)));
    subst g3; state; repeat split; assumption.
Qed.

Lemma tick_without_gps_sample_completes_witness :
  newGPSData failed_state = false
  /\ exists g' calls,
       updateGPSRescueState default_config true gps_lost_readings failed_state
       = Ok (g', calls)
       /\ match phase (rescueState g') with
          | RESCUE_IDLE =>
              rescueThrottle g' = rcCommand_THROTTLE gps_lost_readings
              /\ rescueYaw g' = rescueYaw failed_state
              /\ gpsRescueAngle_PITCH g' = f32.zero
              /\ gpsRescueAngle_ROLL g' = f32.zero
          | RESCUE_DO_NOTHING =>
              rescueThrottle g'
              = f32.of_int (gpsRescueConfig.throttleHover default_config)
              /\ rescueYaw g' = rescueYaw failed_state
              /\ gpsRescueAngle_PITCH g' = f32.zero
              /\ gpsRescueAngle_ROLL g' = f32.zero
          | _ => outputs_kept failed_state g'
          end.
Proof.
  split; [reflexivity|].
  apply (tick_without_gps_sample_completes default_config true gps_lost_readings
           failed_state).
  reflexivity.
Defined.

(** ** The counters *)

Section Counters.

Variable cfg : gpsRescueConfig.t.
Variable USE_MAG : bool.

Lemma to_int8_constrain (z lo hi : Z) :
  -128 <= lo -> lo <= hi -> hi <= 127 ->
  lo <= to_int8 (constrain z lo hi) <= hi.
Proof.
  intros H1 H2 H3. pose proof (constrain_range z lo hi H2).
  rewrite to_int8_small by lia. assumption.
Qed.

Lemma sanity_handle_failure_sanityMem (e : inputs) (g : gps_rescue) :
  sanityMem (sanity_handle_failure cfg e g) = sanityMem g.
Proof.
  unfold sanity_handle_failure. destruct (negb _); reflexivity.
Qed.

Lemma sanity_altitude_count_sanityMem (b : bool) (g : gps_rescue) :
  sanityMem (sanity_altitude_count b g) = sanityMem g.
Proof.
  unfold sanity_altitude_count. destruct (_ =? 10); reflexivity.
Qed.

(** The statics of the watchdog after its once-a-second part. *)
Lemma sanity_1hz_sanityMem (now : Z) (e : inputs) (g : gps_rescue) :
  let g' := sanity_1hz cfg USE_MAG now e g in
  sanity.previousTimeUs (sanityMem g') = now
  /\ sanity.secondsLowSats (sanityMem g') = sanity_lowSats_count e g
  /\ sanity.secondsDoingNothing (sanityMem g')
     = match phase (rescueState g) with
       | RESCUE_DO_NOTHING =>
           to_int8 (MIN (sanity.secondsDoingNothing (sanityMem g) + 1) 10)
       | _ => sanity.secondsDoingNothing (sanityMem g)
       end.
Proof.
  cbv zeta. unfold sanity_1hz.
  set (g1 := set_sanityMem (set_sanity_previousTimeUs now (sanityMem g)) g).
  set (g2 := match phase (rescueState g1) with
             | RESCUE_FLY_HOME => sanity_flyHome cfg USE_MAG e g1
             | _ => g1
             end).
  assert (M2 : sanityMem g2 = sanityMem g1 /\ phase (rescueState g2) = phase (rescueState g)).
  { unfold g2. change (phase (rescueState g1)) with (phase (rescueState g)).
    destruct (phase (rescueState g)) eqn:Hp; try (split; [reflexivity | exact Hp]).
    destruct (sanity_flyHome_spec cfg USE_MAG e g1) as (P & M & _).
    split; [exact M | rewrite P; exact Hp]. }
  destruct M2 as [M2 P2].
  set (g3 := sanity_special cfg g2).
  assert (M3 : sanity.previousTimeUs (sanityMem g3) = now
               /\ sanity.secondsLowSats (sanityMem g3) = sanity.secondsLowSats (sanityMem g)
               /\ sanity.secondsDoingNothing (sanityMem g3)
                  = match phase (rescueState g) with
                    | RESCUE_DO_NOTHING =>
                        to_int8 (MIN (sanity.secondsDoingNothing (sanityMem g) + 1) 10)
                    | _ => sanity.secondsDoingNothing (sanityMem g)
                    end).
  { unfold g3, sanity_special. rewrite P2.
    destruct (phase (rescueState g));
      rewrite ?sanity_altitude_count_sanityMem, ?M2; try (repeat split; reflexivity).
    destruct (_ =? 10); state; rewrite ?M2; repeat split; reflexivity. }
  destruct M3 as (T3 & L3 & D3).
  unfold sanity_lowSats.
  match goal with
  | |- context [sanity_lowSats_count e ?x] =>
      assert (C : sanity_lowSats_count e x = sanity_lowSats_count e g)
        by (unfold sanity_lowSats_count; state; rewrite L3; reflexivity);
      rewrite C
  end.
  destruct (_ =? 10); state; repeat split; assumption.
Qed.

Lemma sanity_lowSats_count_range (e : inputs) (g : gps_rescue) :
  0 <= sanity_lowSats_count e g <= 10.
Proof. unfold sanity_lowSats_count. apply to_int8_constrain; lia. Qed.

Lemma MIN_is_min (a b : Z) : MIN a b = Z.min a b.
Proof. unfold MIN. destruct (Z.ltb_spec a b); lia. Qed.

Lemma performSanityChecks_sanity_counters (now : Z) (e : inputs) (g : gps_rescue) :
  0 <= sanity.secondsLowSats (sanityMem g) <= 10 ->
  0 <= sanity.secondsDoingNothing (sanityMem g) <= 10 ->
  let g' := performSanityChecks cfg USE_MAG now e g in
  0 <= sanity.secondsLowSats (sanityMem g') <= 10
  /\ 0 <= sanity.secondsDoingNothing (sanityMem g') <= 10.
Proof.
  intros HL HD. cbv zeta.
  assert (M1 : sanityMem (sanity_detect e (sanity_handle_failure cfg e g)) = sanityMem g).
  { destruct (sanity_detect_frame e (sanity_handle_failure cfg e g))
      as (_ & _ & _ & _ & M & _).
    rewrite M. apply sanity_handle_failure_sanityMem. }
  assert (H1hz : let x := sanity_detect e (sanity_handle_failure cfg e g) in
                 0 <= sanity.secondsLowSats (sanityMem (sanity_1hz cfg USE_MAG now e x)) <= 10
                 /\ 0 <= sanity.secondsDoingNothing
                           (sanityMem (sanity_1hz cfg USE_MAG now e x)) <= 10).
  { cbv zeta.
    destruct (sanity_1hz_sanityMem now e (sanity_detect e (sanity_handle_failure cfg e g)))
      as (_ & L & D).
    rewrite L, D, M1. split; [apply sanity_lowSats_count_range|].
    destruct (phase _); try exact HD.
    rewrite MIN_is_min, to_int8_small; lia. }
  unfold performSanityChecks.
  destruct (phase (rescueState g)); state; try (split; [exact HL | exact HD]);
    try (split; lia);
    (destruct (_ <? 1000000); [rewrite M1; split; assumption | exact H1hz]).
Qed.

Lemma checkGPSRescueIsAvailable_counter (e : inputs) (g : gps_rescue) :
  0 <= available.secondsLowSats (availableMem g) <= 2 ->
  0 <= available.secondsLowSats (availableMem (snd (checkGPSRescueIsAvailable e g))) <= 2.
Proof.
  intros H. unfold checkGPSRescueIsAvailable.
  destruct (negb (gpsIsHealthy e) || negb (STATE_GPS_FIX_HOME e)); state; [exact H|].
  destruct (cmpTimeUs _ _ <? 1000000); state; [exact H|].
  apply to_int8_constrain; lia.
Qed.

(** One tick keeps the four counters inside their bounds. *)
Lemma updateGPSRescueState_counters (e : inputs) (g g' : gps_rescue) (calls : list call) :
  counters_in_range g ->
  updateGPSRescueState cfg USE_MAG e g = Ok (g', calls) ->
  counters_in_range g'.
Proof.
  intros (HF & HL & HD & HA) Hupd.
  destruct (updateGPSRescueState_stages cfg USE_MAG e g g' calls Hupd)
    as (_ & g3 & Hctl & ->).
  destruct (rescueAttainPosition_fields cfg e _ g3 Hctl) as (R & _ & _ & SA & _ & AM).
  unfold counters_in_range. state. rewrite R, SA, AM.
  destruct (watched_fields cfg USE_MAG e g) as (_ & _ & _ & _ & AMw & _).
  rewrite AMw.
  split.
  { destruct (secondsFailing_stays_in_range cfg USE_MAG e g HF) as (g2 & c2 & Hrun & Hr).
    rewrite rescueUpToController_watched in Hrun. injection Hrun as <- _. exact Hr. }
  assert (Hs : 0 <= sanity.secondsLowSats (sanityMem (switched cfg USE_MAG e g)) <= 10
               /\ 0 <= sanity.secondsDoingNothing
                         (sanityMem (switched cfg USE_MAG e g)) <= 10).
  { unfold switched.
    destruct (rescuePhaseSwitch_fields cfg e
                (to_uint8 (gpsRescueConfig.angle cfg / 2)) true (sensed cfg USE_MAG e g))
      as (_ & _ & _ & _ & _ & SMsw & _).
    rewrite SMsw.
    destruct (sensed_fields cfg USE_MAG e g) as (_ & _ & SMs & _).
    rewrite SMs.
    destruct (entered_fields cfg USE_MAG e g) as (_ & _ & _ & _ & _ & [E|(_ & _ & E1 & E2)]).
    - rewrite E. split; assumption.
    - rewrite E1, E2. split; lia. }
  destruct Hs as [Hs1 Hs2].
  destruct (performSanityChecks_sanity_counters (micros_sanity e) e
              (switched cfg USE_MAG e g) Hs1 Hs2) as (W1 & W2).
  fold (watched cfg USE_MAG e g) in W1, W2.
  split; [exact W1|]. split; [exact W2|].
  apply checkGPSRescueIsAvailable_counter. exact HA.
Qed.

Lemma run_counters (ticks : list tick_input) (g g' : gps_rescue) (calls : list call) :
  counters_in_range g ->
  run cfg USE_MAG ticks g = Ok (g', calls) ->
  counters_in_range g'.
Proof.
  revert g calls. induction ticks as [|i rest IH]; intros g calls H Hrun.
  - injection Hrun as <- _. exact H.
  - cbn [run] in Hrun.
    destruct (tick cfg USE_MAG i g) as [[g1 c1]|u] eqn:Ht; [|discriminate].
    cbn [bind fst snd] in Hrun.
    destruct (run cfg USE_MAG rest g1) as [[g2 c2]|u] eqn:Hr; [|discriminate].
    cbn [bind fst] in Hrun. injection Hrun as <- _.
    apply (IH g1 c2); [|exact Hr].
    unfold tick in Ht.
    apply (updateGPSRescueState_counters _ _ _ _) in Ht; [exact Ht|].
    destruct (gps_sample i); exact H.
Qed.

End Counters.

(** X11.  From the initial state, after any run of ticks that completes, the
    four [int8_t] counters are inside the bounds of their clamps:
    [secondsFailing] in [0, 20], the watchdog's [secondsLowSats] and
    [secondsDoingNothing] in [0, 10], and the [secondsLowSats] of
    [checkGPSRescueIsAvailable] in [0, 2].  No counter ever wraps. *)
Theorem counters_never_leave_their_range (cfg : gpsRescueConfig.t) (USE_MAG : bool)
  (ticks : list tick_input) (g' : gps_rescue) (calls : list call) :
  run cfg USE_MAG ticks gps_rescue_init = Ok (g', calls) ->
  counters_in_range g'.
Proof.
  apply run_counters. unfold counters_in_range. cbn. lia.
Qed.

Lemma counters_never_leave_their_range_witness :
  exists g' calls,
    run default_config true climb_stuck gps_rescue_init = Ok (g', calls)
    /\ secondsFailing (intent (rescueState g')) = 9
    /\ counters_in_range g'.
Proof.
  do 2 eexists. split; [vm_compute; reflexivity|].
  split; [reflexivity|].
  apply (counters_never_leave_their_range default_config true climb_stuck _ []).
  vm_compute. reflexivity.
Defined.

(** ** Doing nothing *)

Section DoNothing.

Variable cfg : gpsRescueConfig.t.
Variable USE_MAG : bool.

(** The state the once-a-second part starts from. *)
Lemma sanity_first_part (e : inputs) (g : gps_rescue) :
  let g1 := sanity_detect e (sanity_handle_failure cfg e g) in
  sanityMem g1 = sanityMem g
  /\ intent (rescueState g1) = intent (rescueState g)
  /\ sensor (rescueState g1) = sensor (rescueState g)
  /\ phase (rescueState g1)
     = if failure_is_healthy (failure (rescueState g)) then phase (rescueState g)
       else sanity_policy_phase cfg (negb (rxIsReceivingSignal e)).
Proof.
  cbv zeta.
  destruct (sanity_detect_frame e (sanity_handle_failure cfg e g))
    as (P & I & S & _ & M & _).
  rewrite P, I, S, M, sanity_handle_failure_sanityMem, sanity_handle_failure_phase,
    sanity_handle_failure_sensor.
  repeat split. unfold sanity_handle_failure. destruct (negb _); reflexivity.
Qed.

Lemma sanity_policy_phase_cases (b : bool) :
  sanity_policy_phase cfg b = RESCUE_ABORT
  \/ sanity_policy_phase cfg b = RESCUE_DO_NOTHING.
Proof.
  unfold sanity_policy_phase.
  destruct (gpsRescueConfig.sanityChecks cfg); try destruct b; auto.
Qed.

(** The phase after the once-a-second part, where it can change. *)
Lemma sanity_1hz_phase (now : Z) (e : inputs) (g : gps_rescue) :
  phase (rescueState (sanity_1hz cfg USE_MAG now e g))
  = phase (rescueState
             (sanity_special cfg
                match phase (rescueState g) with
                | RESCUE_FLY_HOME =>
                    sanity_flyHome cfg USE_MAG e
                      (set_sanityMem (set_sanity_previousTimeUs now (sanityMem g)) g)
                | _ => set_sanityMem (set_sanity_previousTimeUs now (sanityMem g)) g
                end)).
Proof.
  unfold sanity_1hz.
  match goal with
  | |- context [sanity_lowSats e ?x] =>
      destruct (sanity_lowSats_spec e x) as (P & _); rewrite P
  end.
  reflexivity.
Qed.

(** One pass of the watchdog in [RESCUE_DO_NOTHING]. *)
Lemma performSanityChecks_DO_NOTHING (now : Z) (e : inputs) (g : gps_rescue) :
  phase (rescueState g) = RESCUE_DO_NOTHING ->
  0 <= sanity.secondsDoingNothing (sanityMem g) <= 10 ->
  let g' := performSanityChecks cfg USE_MAG now e g in
  phase (rescueState g') = RESCUE_ABORT
  \/ (phase (rescueState g') = RESCUE_DO_NOTHING
      /\ if cmpTimeUs now (sanity.previousTimeUs (sanityMem g)) <? 1000000
         then sanityMem g' = sanityMem g
         else sanity.previousTimeUs (sanityMem g') = now
              /\ sanity.secondsDoingNothing (sanityMem g')
                 = sanity.secondsDoingNothing (sanityMem g) + 1
              /\ sanity.secondsDoingNothing (sanityMem g) + 1 < 10).
Proof.
  intros Hp Hn. cbv zeta.
  rewrite performSanityChecks_active by (rewrite Hp; split; discriminate).
  cbv zeta.
  destruct (sanity_first_part e g) as (M1 & _ & _ & P1).
  set (g1 := sanity_detect e (sanity_handle_failure cfg e g)) in *.
  rewrite Hp in P1. rewrite M1.
  assert (C : phase (rescueState g1) = RESCUE_ABORT
              \/ phase (rescueState g1) = RESCUE_DO_NOTHING).
  { rewrite P1. destruct (failure_is_healthy _); [right; reflexivity|].
    apply sanity_policy_phase_cases. }
  destruct (cmpTimeUs now (sanity.previousTimeUs (sanityMem g)) <? 1000000).
  { destruct C as [C|C]; [left; exact C | right; split; [exact C | exact M1]]. }
  destruct (sanity_1hz_sanityMem cfg USE_MAG now e g1) as (T & _ & D).
  rewrite sanity_1hz_phase.
  destruct C as [C|C]; rewrite C in *.
  - left. unfold sanity_special. state. rewrite C. exact C.
  - rewrite M1, MIN_is_min, to_int8_small in D by lia.
    unfold sanity_special. state. rewrite C, M1, MIN_is_min, to_int8_small by lia.
    destruct (Z.eqb_spec (Z.min (sanity.secondsDoingNothing (sanityMem g) + 1) 10) 10)
      as [E|E]; state.
    + left. reflexivity.
    + right. split; [exact C|]. split; [exact T|]. split; [lia | lia].
Qed.

End DoNothing.

Section DoNothingTicks.

Variable cfg : gpsRescueConfig.t.
Variable USE_MAG : bool.

(** With the mode on and a rescue under way the first statement does
    nothing. *)
Lemma entered_in_rescue (e : inputs) (g : gps_rescue) :
  FLIGHT_MODE_GPS_RESCUE e = true ->
  phase (rescueState g) <> RESCUE_IDLE ->
  entered cfg USE_MAG e g = g.
Proof.
  intros Hm Hp.
  destruct (entered_cases cfg USE_MAG e g) as [[H _]|[(_ & H & _)|(_ & _ & H)]];
    [congruence | contradiction | exact H].
Qed.

(** A tick that finds the rescue in [RESCUE_DO_NOTHING]. *)
Lemma do_nothing_tick (e : inputs) (g : gps_rescue) :
  FLIGHT_MODE_GPS_RESCUE e = true ->
  phase (rescueState g) = RESCUE_DO_NOTHING ->
  0 <= sanity.secondsDoingNothing (sanityMem g) <= 10 ->
  phase (rescueState (watched cfg USE_MAG e g)) = RESCUE_ABORT
  \/ (exists g',
        updateGPSRescueState cfg USE_MAG e g = Ok (g', [])
        /\ phase (rescueState g') = RESCUE_DO_NOTHING
        /\ if cmpTimeUs (micros_sanity e) (sanity.previousTimeUs (sanityMem g)) <? 1000000
           then sanityMem g' = sanityMem g
           else sanity.previousTimeUs (sanityMem g') = micros_sanity e
                /\ sanity.secondsDoingNothing (sanityMem g')
                   = sanity.secondsDoingNothing (sanityMem g) + 1
                /\ sanity.secondsDoingNothing (sanityMem g) + 1 < 10).
Proof.
  intros Hm Hp Hn.
  destruct (sensed_frame cfg USE_MAG e g) as (Ps & _).
  destruct (sensed_fields cfg USE_MAG e g) as (_ & _ & SMs & _).
  rewrite (entered_in_rescue e g Hm) in SMs by (rewrite Hp; discriminate).
  assert (Hd : dispatched_phase e g = RESCUE_DO_NOTHING)
    by (unfold dispatched_phase; rewrite Hm, Hp; reflexivity).
  rewrite Hd in Ps.
  assert (Hsw : rescuePhaseSwitch cfg e (to_uint8 (gpsRescueConfig.angle cfg / 2)) true
                  (sensed cfg USE_MAG e g)
                = (sensed cfg USE_MAG e g, true, []))
    by (unfold rescuePhaseSwitch; rewrite Ps; reflexivity).
  assert (Hs' : switched cfg USE_MAG e g = sensed cfg USE_MAG e g)
    by (unfold switched; rewrite Hsw; reflexivity).
  destruct (performSanityChecks_DO_NOTHING cfg USE_MAG (micros_sanity e) e
              (sensed cfg USE_MAG e g) Ps) as [A|(D & M)];
    [rewrite SMs; exact Hn | |].
  - left. unfold watched. rewrite Hs'. exact A.
  - right.
    assert (Hw : performSanityChecks cfg USE_MAG (micros_sanity e) e
                   (sensed cfg USE_MAG e g) = watched cfg USE_MAG e g)
      by (unfold watched; rewrite Hs'; reflexivity).
    rewrite SMs, Hw in M. rewrite Hw in D.
    assert (Hctl : rescueAttainPosition cfg e (watched cfg USE_MAG e g)
                   = Ok (set_outputs f32.zero f32.zero
                           (f32.of_int (gpsRescueConfig.throttleHover cfg))
                           (watched cfg USE_MAG e g)))
      by (unfold rescueAttainPosition; rewrite D; reflexivity).
    eexists. split.
    + rewrite (updateGPSRescueState_completes cfg USE_MAG e g _ Hctl).
      rewrite Hsw. reflexivity.
    + state. split; [exact D | exact M].
Qed.

Lemma evaluations_sample (prev : Z) (ticks : list tick_input) (g : gps_rescue)
  (b : bool) :
  sanityMem (if b then rescueNewGpsData g else g) = sanityMem g
  /\ phase (rescueState (if b then rescueNewGpsData g else g)) = phase (rescueState g).
Proof. destruct b; split; reflexivity. Qed.

End DoNothingTicks.

(** X12.  A rescue in [RESCUE_DO_NOTHING] with the mode left on is aborted
    by the watchdog: when the ticks that follow contain as many
    once-a-second evaluations as are left to ten on [secondsDoingNothing],
    one of those ticks, reached through completed ticks spent in
    [RESCUE_DO_NOTHING] without a call to the arming subsystem, has its
    watchdog end in [RESCUE_ABORT]. *)
Theorem doing_nothing_ends_in_abort (cfg : gpsRescueConfig.t) (USE_MAG : bool)
  (ticks : list tick_input) (g : gps_rescue) :
  phase (rescueState g) = RESCUE_DO_NOTHING ->
  0 <= sanity.secondsDoingNothing (sanityMem g) <= 9 ->
  mode_stays_on ticks ->
  10 - sanity.secondsDoingNothing (sanityMem g)
  <= Z.of_nat (evaluations (sanity.previousTimeUs (sanityMem g)) ticks) ->
  exists pre i post gk,
    ticks = pre ++ i :: post
    /\ run cfg USE_MAG pre g = Ok (gk, [])
    /\ phase (rescueState gk) = RESCUE_DO_NOTHING
    /\ exists g1 c1,
         rescueUpToController cfg USE_MAG (readings i)
           (if gps_sample i then rescueNewGpsData gk else gk) = Ok (g1, c1)
         /\ phase (rescueState g1) = RESCUE_ABORT.
Proof.
  revert g. induction ticks as [|i rest IH]; intros g Hp Hn Hon Hev.
  - cbn [evaluations] in Hev. lia.
  - apply Forall_cons_iff in Hon. destruct Hon as [Hm Hon].
    set (gi := if gps_sample i then rescueNewGpsData g else g).
    destruct (evaluations_sample 0 [] g (gps_sample i)) as [Mi Pi].
    fold gi in Mi, Pi.
    destruct (do_nothing_tick cfg USE_MAG (readings i) gi Hm) as [A|(g' & Hupd & Pg' & M)];
      [rewrite Pi; exact Hp | rewrite Mi; lia | |].
    + exists [], i, rest, g.
      split; [reflexivity|]. split; [reflexivity|]. split; [exact Hp|].
      do 2 eexists. split; [apply rescueUpToController_watched|]. exact A.
    + rewrite Mi in M. cbn [evaluations] in Hev.
      destruct (cmpTimeUs (micros_sanity (readings i))
                  (sanity.previousTimeUs (sanityMem g)) <? 1000000).
      * destruct (IH g' Pg') as (pre & j & post & gk & E & Hrun & Pk & Hab);
          [rewrite M; exact Hn | exact Hon | rewrite M; exact Hev |].
        exists (i :: pre), j, post, gk.
        split; [rewrite E; reflexivity|].
        split; [|split; [exact Pk | exact Hab]].
        cbn [run]. unfold tick. fold gi. rewrite Hupd. cbn [bind fst snd].
        rewrite Hrun. reflexivity.
      * destruct M as (T & D & L).
        destruct (IH g' Pg') as (pre & j & post & gk & E & Hrun & Pk & Hab);
          [rewrite D; lia | exact Hon | rewrite T, D; lia |].
        exists (i :: pre), j, post, gk.
        split; [rewrite E; reflexivity|].
        split; [|split; [exact Pk | exact Hab]].
        cbn [run]. unfold tick. fold gi. rewrite Hupd. cbn [bind fst snd].
        rewrite Hrun. reflexivity.
Qed.

Lemma doing_nothing_ends_in_abort_witness :
  phase (rescueState hovering_state) = RESCUE_DO_NOTHING
  /\ sanity.secondsDoingNothing (sanityMem hovering_state) = 9
  /\ evaluations (sanity.previousTimeUs (sanityMem hovering_state))
       [tick_at false true 3400 19980 1200000] = 1%nat
  /\ exists pre i post gk,
       [tick_at false true 3400 19980 1200000] = pre ++ i :: post
       /\ run default_config true pre hovering_state = Ok (gk, [])
       /\ phase (rescueState gk) = RESCUE_DO_NOTHING
       /\ exists g1 c1,
            rescueUpToController default_config true (readings i)
              (if gps_sample i then rescueNewGpsData gk else gk) = Ok (g1, c1)
            /\ phase (rescueState g1) = RESCUE_ABORT.
Proof.
  split; [reflexivity|]. split; [reflexivity|]. split; [reflexivity|].
  apply (doing_nothing_ends_in_abort default_config true
           [tick_at false true 3400 19980 1200000] hovering_state).
  - reflexivity.
  - cbn. lia.
  - repeat constructor.
  - cbn. lia.
Defined.

(** ** The altitude and satellite checks of the watchdog *)

Section AltitudeWatchdog.

Variable cfg : gpsRescueConfig.t.
Variable USE_MAG : bool.

Lemma constrain_is_clamp (z lo hi : Z) :
  lo <= hi -> constrain z lo hi = Z.max lo (Z.min hi z).
Proof.
  intros H. unfold constrain.
  destruct (Z.ltb_spec z lo); [lia|].
  destruct (z >? hi) eqn:E; rewrite Z.gtb_ltb in E;
    [apply Z.ltb_lt in E | apply Z.ltb_ge in E]; lia.
Qed.

(** The shared counter after the climb or descent check. *)
Lemma sanity_altitude_count_spec (progress : bool) (g : gps_rescue) :
  0 <= secondsFailing (intent (rescueState g)) <= 20 ->
  let n := Z.max 0 (Z.min 10 (secondsFailing (intent (rescueState g))
                              + (if progress then -1 else 1))) in
  let g' := sanity_altitude_count progress g in
  secondsFailing (intent (rescueState g')) = n
  /\ phase (rescueState g') = (if n =? 10 then RESCUE_ABORT else phase (rescueState g))
  /\ failure (rescueState g') = failure (rescueState g)
  /\ sanityMem g' = sanityMem g
  /\ sensor (rescueState g') = sensor (rescueState g).
Proof.
  intros H n g'. unfold g', sanity_altitude_count.
  set (sf := secondsFailing (intent (rescueState g))) in *.
  set (d := if progress then -1 else 1) in *.
  assert (Hd : -1 <= d <= 1) by (unfold d; destruct progress; lia).
  assert (E : to_int8 (constrain (to_int8 (sf + d)) 0 10) = n).
  { rewrite (to_int8_small (sf + d)) by lia.
    rewrite constrain_is_clamp by lia. rewrite to_int8_small by lia. reflexivity. }
  rewrite E. state. destruct (n =? 10); state; repeat split; reflexivity.
Qed.

Lemma sanity_lowSats_sanityMem (e : inputs) (g : gps_rescue) :
  sanity.prevAltitudeCm (sanityMem (sanity_lowSats e g))
  = sanity.prevAltitudeCm (sanityMem g)
  /\ sanity.previousTimeUs (sanityMem (sanity_lowSats e g))
     = sanity.previousTimeUs (sanityMem g)
  /\ sanity.secondsLowSats (sanityMem (sanity_lowSats e g)) = sanity_lowSats_count e g
  /\ sensor (rescueState (sanity_lowSats e g)) = sensor (rescueState g).
Proof.
  unfold sanity_lowSats.
  destruct (sanity_lowSats_count e g =? 10); repeat split; reflexivity.
Qed.

(** A once-a-second pass that starts healthy in a phase other than
    [RESCUE_FLY_HOME] goes straight to the altitude checks. *)
Lemma performSanityChecks_special (now : Z) (e : inputs) (g : gps_rescue) :
  active_phase (phase (rescueState g)) ->
  phase (rescueState g) <> RESCUE_FLY_HOME ->
  failure (rescueState g) = RESCUE_HEALTHY ->
  watchdog_due now g = true ->
  exists g1,
    performSanityChecks cfg USE_MAG now e g
    = sanity_lowSats e
        (set_sanityMem
           (set_prevAltitudeCm
              (currentAltitudeCm (sensor (rescueState (sanity_special cfg g1))))
              (sanityMem (sanity_special cfg g1)))
           (sanity_special cfg g1))
    /\ phase (rescueState g1) = phase (rescueState g)
    /\ intent (rescueState g1) = intent (rescueState g)
    /\ sensor (rescueState g1) = sensor (rescueState g)
    /\ sanity.prevAltitudeCm (sanityMem g1) = sanity.prevAltitudeCm (sanityMem g)
    /\ sanity.previousTimeUs (sanityMem g1) = now
    /\ sanity.secondsLowSats (sanityMem g1) = sanity.secondsLowSats (sanityMem g).
Proof.
  intros Ha Hnf Hf Hdue.
  rewrite performSanityChecks_active by exact Ha. cbv zeta.
  destruct (sanity_first_part cfg e g) as (M1 & I1 & S1 & P1).
  rewrite Hf in P1. cbn [failure_is_healthy] in P1.
  set (g0 := sanity_detect e (sanity_handle_failure cfg e g)) in *.
  unfold watchdog_due in Hdue. apply negb_true_iff in Hdue.
  rewrite M1, Hdue.
  exists (set_sanityMem (set_sanity_previousTimeUs now (sanityMem g0)) g0).
  split.
  - unfold sanity_1hz. state. rewrite P1.
    destruct (phase (rescueState g)); try reflexivity. congruence.
  - state. rewrite M1. repeat split; assumption.
Qed.

End AltitudeWatchdog.

(** X13.  A once-a-second watchdog evaluation in [RESCUE_ATTAIN_ALT], entered
    healthy: [secondsFailing] goes down by one when the craft has climbed
    more than half the ascend rate since the last evaluation and up by one
    otherwise, inside [0, 10]; at 10 the phase becomes [RESCUE_ABORT].
    The altitude and the time of this evaluation are stored for the
    next. *)
Theorem climb_without_progress_is_aborted (cfg : gpsRescueConfig.t) (USE_MAG : bool)
  (now : Z) (e : inputs) (g : gps_rescue) :
  phase (rescueState g) = RESCUE_ATTAIN_ALT ->
  failure (rescueState g) = RESCUE_HEALTHY ->
  watchdog_due now g = true ->
  0 <= secondsFailing (intent (rescueState g)) <= 20 ->
  let sf := secondsFailing (intent (rescueState g)) in
  let n := Z.max 0 (Z.min 10 (sf + (if climbing cfg g then -1 else 1))) in
  let g' := performSanityChecks cfg USE_MAG now e g in
  secondsFailing (intent (rescueState g')) = n
  /\ phase (rescueState g') = (if n =? 10 then RESCUE_ABORT else RESCUE_ATTAIN_ALT)
  /\ sanity.prevAltitudeCm (sanityMem g') = currentAltitudeCm (sensor (rescueState g))
  /\ sanity.previousTimeUs (sanityMem g') = now.
Proof.
  intros Hp Hf Hdue Hsf sf n g'.
  destruct (performSanityChecks_special cfg USE_MAG now e g)
    as (g1 & E & P1 & I1 & S1 & A1 & T1 & _);
    [rewrite Hp; split; discriminate | rewrite Hp; discriminate | exact Hf | exact Hdue |].
  unfold g'. rewrite E.
  assert (Hsp : sanity_special cfg g1 = sanity_altitude_count (climbing cfg g) g1).
  { unfold sanity_special, climbing. rewrite P1, Hp, S1, A1. reflexivity. }
  rewrite Hsp.
  destruct (sanity_altitude_count_spec (climbing cfg g) g1) as (C1 & C2 & _ & C4 & C5);
    [rewrite I1; exact Hsf|].
  rewrite I1 in C1, C2. fold sf in C1, C2. fold n in C1, C2.
  match goal with
  | |- context [sanity_lowSats e ?x] =>
      destruct (sanity_lowSats_spec e x) as (L1 & L2 & _);
      destruct (sanity_lowSats_sanityMem e x) as (LM1 & LM2 & _)
  end.
  rewrite L1, L2, LM1, LM2. state. rewrite C1, C2, C4, C5, P1, Hp, S1, T1.
  repeat split; reflexivity.
Qed.

Lemma climb_without_progress_is_aborted_witness :
  phase (rescueState climbing_state) = RESCUE_ATTAIN_ALT
  /\ climbing default_config
       (sensorUpdate default_config no_climb_readings climbing_state) = false
  /\ secondsFailing
       (intent (rescueState
          (performSanityChecks default_config true 1200000 no_climb_readings
             (sensorUpdate default_config no_climb_readings climbing_state)))) = 1.
Proof.
  split; [reflexivity|]. split; [vm_compute; reflexivity|].
  pose proof (climb_without_progress_is_aborted default_config true 1200000
                no_climb_readings
                (sensorUpdate default_config no_climb_readings climbing_state)
                eq_refl eq_refl eq_refl ltac:(cbn; lia)) as H.
  cbv zeta in H. destruct H as (H & _). rewrite H. vm_compute. reflexivity.
Defined.

(** X14.  The same in [RESCUE_DESCENT] and [RESCUE_LANDING], with the altitude
    lost since the last evaluation against half the descend rate. *)
Theorem descent_without_progress_is_aborted (cfg : gpsRescueConfig.t) (USE_MAG : bool)
  (now : Z) (e : inputs) (g : gps_rescue) :
  phase (rescueState g) = RESCUE_DESCENT \/ phase (rescueState g) = RESCUE_LANDING ->
  failure (rescueState g) = RESCUE_HEALTHY ->
  watchdog_due now g = true ->
  0 <= secondsFailing (intent (rescueState g)) <= 20 ->
  let sf := secondsFailing (intent (rescueState g)) in
  let n := Z.max 0 (Z.min 10 (sf + (if descending cfg g then -1 else 1))) in
  let g' := performSanityChecks cfg USE_MAG now e g in
  secondsFailing (intent (rescueState g')) = n
  /\ phase (rescueState g') = (if n =? 10 then RESCUE_ABORT else phase (rescueState g))
  /\ sanity.prevAltitudeCm (sanityMem g') = currentAltitudeCm (sensor (rescueState g))
  /\ sanity.previousTimeUs (sanityMem g') = now.
Proof.
  intros Hp Hf Hdue Hsf sf n g'.
  destruct (performSanityChecks_special cfg USE_MAG now e g)
    as (g1 & E & P1 & I1 & S1 & A1 & T1 & _);
    [destruct Hp as [Hp|Hp]; rewrite Hp; split; discriminate
    |destruct Hp as [Hp|Hp]; rewrite Hp; discriminate | exact Hf | exact Hdue |].
  unfold g'. rewrite E.
  assert (Hsp : sanity_special cfg g1 = sanity_altitude_count (descending cfg g) g1).
  { unfold sanity_special, descending. rewrite P1, S1, A1.
    destruct Hp as [Hp|Hp]; rewrite Hp; reflexivity. }
  rewrite Hsp.
  destruct (sanity_altitude_count_spec (descending cfg g) g1) as (C1 & C2 & _ & C4 & C5);
    [rewrite I1; exact Hsf|].
  rewrite I1 in C1, C2. fold sf in C1, C2. fold n in C1, C2.
  match goal with
  | |- context [sanity_lowSats e ?x] =>
      destruct (sanity_lowSats_spec e x) as (L1 & L2 & _);
      destruct (sanity_lowSats_sanityMem e x) as (LM1 & LM2 & _)
  end.
  rewrite L1, L2, LM1, LM2. state. rewrite C1, C2, C4, C5, P1, S1, T1.
  repeat split; reflexivity.
Qed.

Lemma descent_without_progress_is_aborted_witness :
  phase (rescueState descent_state) = RESCUE_DESCENT
  /\ descending default_config descent_state = false
  /\ secondsFailing
       (intent (rescueState
          (performSanityChecks default_config true 1200000 descent_readings
             descent_state))) = 1.
Proof.
  split; [reflexivity|]. split; [vm_compute; reflexivity|].
  pose proof (descent_without_progress_is_aborted default_config true 1200000
                descent_readings descent_state
                (or_introl eq_refl) eq_refl eq_refl ltac:(cbn; lia)) as H.
  cbv zeta in H. destruct H as (H & _). rewrite H. vm_compute. reflexivity.
Defined.

Section Failures.

Variable cfg : gpsRescueConfig.t.
Variable USE_MAG : bool.

Lemma sanity_special_failure (g : gps_rescue) :
  failure (rescueState (sanity_special cfg g)) = failure (rescueState g).
Proof.
  unfold sanity_special, sanity_altitude_count.
  destruct (phase (rescueState g));
    repeat match goal with
           | |- context [if ?c then _ else _] => destruct c
           end; reflexivity.
Qed.

(** The once-a-second part, as its last step applied to what precedes. *)
Lemma sanity_1hz_last_step (now : Z) (e : inputs) (g : gps_rescue) :
  exists g4,
    sanity_1hz cfg USE_MAG now e g = sanity_lowSats e g4
    /\ (failure (rescueState g4) = failure (rescueState g)
        \/ failure (rescueState g4) = RESCUE_STALLED).
Proof.
  unfold sanity_1hz. eexists. split; [reflexivity|].
  state. rewrite sanity_special_failure.
  match goal with
  | |- context [match ?p with _ => _ end] => destruct p
  end; try (left; reflexivity).
  match goal with
  | |- context [sanity_flyHome cfg USE_MAG e ?x] =>
      destruct (sanity_flyHome_spec cfg USE_MAG e x) as (_ & _ & B)
  end.
  destruct (_ =? 20); [destruct (mag_in_use _ _ _ _)|];
    destruct B as (_ & _ & B); rewrite B; auto.
Qed.

(** The failure the once-a-second part leaves. *)
Lemma sanity_1hz_failure (now : Z) (e : inputs) (g : gps_rescue) :
  let g' := sanity_1hz cfg USE_MAG now e g in
  (sanity_lowSats_count e g = 10 -> failure (rescueState g') = RESCUE_LOWSATS)
  /\ (sanity_lowSats_count e g <> 10 ->
      failure (rescueState g') = failure (rescueState g)
      \/ failure (rescueState g') = RESCUE_STALLED).
Proof.
  cbv zeta.
  destruct (sanity_1hz_sanityMem cfg USE_MAG now e g) as (_ & L & _).
  destruct (sanity_1hz_last_step now e g) as (g4 & E & F4).
  rewrite E in *.
  destruct (sanity_lowSats_spec e g4) as (_ & _ & _ & F).
  destruct (sanity_lowSats_sanityMem e g4) as (_ & _ & C & _).
  rewrite L in C. rewrite F, <- C.
  split; intros H.
  - rewrite H. reflexivity.
  - destruct (Z.eqb_spec (sanity_lowSats_count e g) 10) as [E'|E']; [contradiction|].
    exact F4.
Qed.

(** Outside [RESCUE_IDLE] the watchdog never clears a failure. *)
Lemma performSanityChecks_failure (now : Z) (e : inputs) (g : gps_rescue) :
  phase (rescueState g) <> RESCUE_IDLE ->
  failure (rescueState g) <> RESCUE_HEALTHY ->
  failure (rescueState (performSanityChecks cfg USE_MAG now e g)) <> RESCUE_HEALTHY.
Proof.
  intros Hp Hf.
  assert (H1 : failure (rescueState (sanity_detect e (sanity_handle_failure cfg e g)))
               <> RESCUE_HEALTHY).
  { destruct (sanity_detect_frame e (sanity_handle_failure cfg e g))
      as (_ & _ & _ & _ & _ & [D|[D|D]]); rewrite D; try discriminate.
    unfold sanity_handle_failure. destruct (negb _); exact Hf. }
  unfold performSanityChecks.
  destruct (phase (rescueState g)); try exact Hf; try contradiction;
    (destruct (_ <? 1000000); [exact H1|];
     destruct (sanity_1hz_failure now e
                 (sanity_detect e (sanity_handle_failure cfg e g))) as (Fa & Fb);
     destruct (Z.eq_dec (sanity_lowSats_count e
                           (sanity_detect e (sanity_handle_failure cfg e g))) 10)
       as [E|E];
     [ rewrite (Fa E); discriminate
     | destruct (Fb E) as [F|F]; rewrite F; [exact H1 | discriminate] ]).
Qed.

End Failures.

(** X15.  A once-a-second watchdog evaluation, in any phase in which the
    watchdog is active: its [secondsLowSats] goes up by one when the
    satellite count is below the minimum and down by one otherwise, inside
    [0, 10]; at 10 the failure becomes [RESCUE_LOWSATS], whatever else the
    pass has found, and below 10 the pass does not report
    [RESCUE_LOWSATS] unless it was the failure already. *)
Theorem low_satellite_seconds_raise_lowsats (cfg : gpsRescueConfig.t) (USE_MAG : bool)
  (now : Z) (e : inputs) (g : gps_rescue) :
  active_phase (phase (rescueState g)) ->
  watchdog_due now g = true ->
  0 <= sanity.secondsLowSats (sanityMem g) <= 10 ->
  let c := sanity.secondsLowSats (sanityMem g) in
  let n := if gpsSol_numSat e <? gpsMinimumSats e
           then Z.min 10 (c + 1) else Z.max 0 (c - 1) in
  let g' := performSanityChecks cfg USE_MAG now e g in
  sanity.secondsLowSats (sanityMem g') = n
  /\ (n = 10 -> failure (rescueState g') = RESCUE_LOWSATS)
  /\ (n <> 10 -> failure (rescueState g') = RESCUE_LOWSATS ->
      failure (rescueState g) = RESCUE_LOWSATS).
Proof.
  intros Ha Hdue Hc c n g'.
  unfold g'. rewrite performSanityChecks_active by exact Ha. cbv zeta.
  destruct (sanity_first_part cfg e g) as (M1 & _ & _ & _).
  destruct (sanity_detect_frame e (sanity_handle_failure cfg e g))
    as (_ & _ & _ & _ & _ & D).
  assert (D0 : failure (rescueState (sanity_handle_failure cfg e g))
               = failure (rescueState g))
    by (unfold sanity_handle_failure; destruct (negb _); reflexivity).
  rewrite D0 in D.
  set (g1 := sanity_detect e (sanity_handle_failure cfg e g)) in *.
  unfold watchdog_due in Hdue. apply negb_true_iff in Hdue. rewrite M1, Hdue.
  destruct (sanity_1hz_sanityMem cfg USE_MAG now e g1) as (_ & L & _).
  destruct (sanity_1hz_failure cfg USE_MAG now e g1) as (Fa & Fb).
  assert (Hn : sanity_lowSats_count e g1 = n).
  { unfold sanity_lowSats_count. rewrite M1. fold c. unfold n.
    destruct (gpsSol_numSat e <? gpsMinimumSats e);
      rewrite (to_int8_small (c + _)) by lia;
      rewrite constrain_is_clamp by lia; rewrite to_int8_small by lia; lia. }
  rewrite Hn in *. rewrite L.
  split; [reflexivity|]. split.
  - exact Fa.
  - intros Hne HL. destruct (Fb Hne) as [Fc|Fc].
    + rewrite Fc in HL. destruct D as [D|[D|D]]; congruence.
    + congruence.
Qed.

Lemma low_satellite_seconds_raise_lowsats_witness :
  sanity.secondsLowSats (sanityMem climbing_state) = 5
  /\ sanity.secondsLowSats
       (sanityMem (performSanityChecks default_config true 1200000 no_climb_readings
                     climbing_state)) = 4.
Proof.
  split; [reflexivity|].
  pose proof (low_satellite_seconds_raise_lowsats default_config true 1200000
                no_climb_readings climbing_state
                ltac:(split; discriminate) eq_refl ltac:(cbn; lia)) as H.
  cbv zeta in H. destruct H as (H & _). rewrite H. reflexivity.
Defined.

(** X16.  A failure on record survives every tick that does not end in
    [RESCUE_IDLE]: nothing but the watchdog's idle branch sets the failure
    back to [RESCUE_HEALTHY]. *)
Theorem failure_is_cleared_only_in_idle (cfg : gpsRescueConfig.t) (USE_MAG : bool)
  (e : inputs) (g g' : gps_rescue) (calls : list call) :
  updateGPSRescueState cfg USE_MAG e g = Ok (g', calls) ->
  failure (rescueState g) <> RESCUE_HEALTHY ->
  phase (rescueState g') <> RESCUE_IDLE ->
  failure (rescueState g') <> RESCUE_HEALTHY.
Proof.
  intros Hupd Hf Hp.
  destruct (completed_tick_rescueState cfg USE_MAG e g g' calls Hupd) as (R & _).
  rewrite R in *. unfold watched in *.
  destruct (sensed_frame cfg USE_MAG e g) as (_ & _ & Fs & _).
  destruct (rescuePhaseSwitch_fields cfg e
              (to_uint8 (gpsRescueConfig.angle cfg / 2)) true (sensed cfg USE_MAG e g))
    as (_ & _ & _ & _ & _ & _ & _ & _ & _ & _ & _ & Fsw).
  fold (switched cfg USE_MAG e g) in Fsw.
  apply performSanityChecks_failure.
  - intros Hidle. apply Hp. unfold performSanityChecks. rewrite Hidle. state. exact Hidle.
  - destruct Fsw as [Fsw|(_ & _ & _ & Fsw)]; rewrite Fsw; [|discriminate].
    rewrite Fs. exact Hf.
Qed.

Lemma failure_is_cleared_only_in_idle_witness :
  exists g' calls,
    updateGPSRescueState default_config true gps_lost_readings failed_state
    = Ok (g', calls)
    /\ failure (rescueState failed_state) = RESCUE_GPSLOST
    /\ phase (rescueState g') = RESCUE_DO_NOTHING
    /\ failure (rescueState g') <> RESCUE_HEALTHY.
Proof.
  do 2 eexists. split; [vm_compute; reflexivity|].
  split; [reflexivity|]. split; [reflexivity|].
  apply (failure_is_cleared_only_in_idle default_config true gps_lost_readings
           failed_state _ []).
  - vm_compute. reflexivity.
  - discriminate.
  - discriminate.
Defined.

(** X17.  [performSanityChecks] writes the phase, the failure,
    [secondsFailing], [magForceDisable] and its own statics, and nothing
    else: the four outputs, the GPS flag, the sensor readings, the
    availability flag, the statics of the controller, of [sensorUpdate]
    and of [checkGPSRescueIsAvailable], and the other seven fields of the
    intent are as they were. *)
Theorem watchdog_writes_five_things_only (cfg : gpsRescueConfig.t) (USE_MAG : bool)
  (now : Z) (e : inputs) (g : gps_rescue) :
  watchdog_leaves g (performSanityChecks cfg USE_MAG now e g).
Proof.
  unfold watchdog_leaves, outputs_kept. cbv zeta.
  repeat split;
    first
      [ apply (performSanityChecks_preserves cfg USE_MAG _ rescueThrottle)
      | apply (performSanityChecks_preserves cfg USE_MAG _ rescueYaw)
      | apply (performSanityChecks_preserves cfg USE_MAG _ gpsRescueAngle_PITCH)
      | apply (performSanityChecks_preserves cfg USE_MAG _ gpsRescueAngle_ROLL)
      | apply (performSanityChecks_preserves cfg USE_MAG _ newGPSData)
      | apply (performSanityChecks_preserves cfg USE_MAG _
                 (fun x => sensor (rescueState x)))
      | apply (performSanityChecks_preserves cfg USE_MAG _
                 (fun x => isAvailable (rescueState x)))
      | apply (performSanityChecks_preserves cfg USE_MAG _ attain)
      | apply (performSanityChecks_preserves cfg USE_MAG _ sensorMem)
      | apply (performSanityChecks_preserves cfg USE_MAG _ availableMem)
      | apply (performSanityChecks_preserves cfg USE_MAG _
                 (fun x => returnAltitudeCm (intent (rescueState x))))
      | apply (performSanityChecks_preserves cfg USE_MAG _
                 (fun x => targetAltitudeCm (intent (rescueState x))))
      | apply (performSanityChecks_preserves cfg USE_MAG _
                 (fun x => targetVelocityCmS (intent (rescueState x))))
      | apply (performSanityChecks_preserves cfg USE_MAG _
                 (fun x => pitchAngleLimitDeg (intent (rescueState x))))
      | apply (performSanityChecks_preserves cfg USE_MAG _
                 (fun x => rollAngleLimitDeg (intent (rescueState x))))
      | apply (performSanityChecks_preserves cfg USE_MAG _
                 (fun x => updateYaw (intent (rescueState x))))
      | apply (performSanityChecks_preserves cfg USE_MAG _
                 (fun x => descentDistanceM (intent (rescueState x)))) ];
    reflexivity.
Qed.

(** ** The dispatcher *)

Section PhaseGraph.

Variable cfg : gpsRescueConfig.t.
Variable USE_MAG : bool.

(** The phase the [switch] leaves, and the calls it makes. *)
Lemma rescuePhaseSwitch_phase (e : inputs) (halfAngle : Z) (startedLow : bool)
  (s : gps_rescue) :
  let r := rescuePhaseSwitch cfg e halfAngle startedLow s in
  let q := phase (rescueState (fst (fst r))) in
  match phase (rescueState s) with
  | RESCUE_IDLE => q = RESCUE_IDLE /\ snd r = []
  | RESCUE_INITIALIZE =>
      (q = RESCUE_INITIALIZE \/ q = RESCUE_ATTAIN_ALT \/ q = RESCUE_LANDING)
      /\ snd r = []
  | RESCUE_ATTAIN_ALT => (q = RESCUE_ATTAIN_ALT \/ q = RESCUE_ROTATE) /\ snd r = []
  | RESCUE_ROTATE => (q = RESCUE_ROTATE \/ q = RESCUE_FLY_HOME) /\ snd r = []
  | RESCUE_FLY_HOME => (q = RESCUE_FLY_HOME \/ q = RESCUE_DESCENT) /\ snd r = []
  | RESCUE_DESCENT => (q = RESCUE_DESCENT \/ q = RESCUE_LANDING) /\ snd r = []
  | RESCUE_LANDING =>
      if (accMagnitude (sensor (rescueState s)) >? f32.of_int 2)%f32
      then q = RESCUE_COMPLETE /\ snd r = disarm_calls
      else q = RESCUE_LANDING /\ snd r = []
  | RESCUE_COMPLETE => q = RESCUE_IDLE /\ snd r = []
  | RESCUE_ABORT => q = RESCUE_IDLE /\ snd r = disarm_calls
  | RESCUE_DO_NOTHING => q = RESCUE_DO_NOTHING /\ snd r = []
  end.
Proof.
  cbv zeta. unfold rescuePhaseSwitch, idleTasks, disarm_calls.
  destruct (phase (rescueState s)) eqn:Hp; cbv zeta;
    repeat match goal with
           | |- context [if ?c then _ else _] => destruct c eqn:?
           end; state; rewrite ?Hp; auto.
Qed.

(** The phase the watchdog leaves: the one it found, or one of the two the
    policy and the counters can select, and those only out of a phase in
    which it is active. *)
Lemma performSanityChecks_phase (now : Z) (e : inputs) (g : gps_rescue) :
  let q := phase (rescueState (performSanityChecks cfg USE_MAG now e g)) in
  q = phase (rescueState g)
  \/ (active_phase (phase (rescueState g))
      /\ (q = RESCUE_ABORT \/ q = RESCUE_DO_NOTHING)).
Proof.
  cbv zeta.
  destruct (phase (rescueState g)) eqn:Hp;
    try (left; unfold performSanityChecks; rewrite Hp; state; exact Hp);
    (assert (Ha : active_phase (phase (rescueState g)))
       by (rewrite Hp; split; discriminate);
     rewrite performSanityChecks_active by exact Ha; cbv zeta;
     destruct (sanity_first_part cfg e g) as (_ & _ & _ & P1);
     rewrite Hp in Ha;
     assert (C1 : phase (rescueState (sanity_detect e (sanity_handle_failure cfg e g)))
                  = phase (rescueState g)
                  \/ phase (rescueState (sanity_detect e (sanity_handle_failure cfg e g)))
                     = RESCUE_ABORT
                  \/ phase (rescueState (sanity_detect e (sanity_handle_failure cfg e g)))
                     = RESCUE_DO_NOTHING)
       by (rewrite P1; destruct (failure_is_healthy _); [left; reflexivity|];
           right; apply sanity_policy_phase_cases);
     destruct (_ <? 1000000);
     [ rewrite Hp in C1; destruct C1 as [C1|C1]; [left; exact C1 | right; split; assumption]
     | destruct (effect_sanity_1hz cfg USE_MAG now e
                   (sanity_detect e (sanity_handle_failure cfg e g))) as ([E|E] & _);
       [ rewrite E, Hp in *; destruct C1 as [C1|C1];
         [left; exact C1 | right; split; assumption]
       | right; split; [exact Ha | left; exact E] ] ]).
Qed.

(** The same two facts about the stages of a tick. *)
Lemma switched_phase (e : inputs) (g : gps_rescue) :
  let calls := snd (rescuePhaseSwitch cfg e (to_uint8 (gpsRescueConfig.angle cfg / 2))
                      true (sensed cfg USE_MAG e g)) in
  let q := phase (rescueState (switched cfg USE_MAG e g)) in
  match dispatched_phase e g with
  | RESCUE_IDLE => q = RESCUE_IDLE /\ calls = []
  | RESCUE_INITIALIZE =>
      (q = RESCUE_INITIALIZE \/ q = RESCUE_ATTAIN_ALT \/ q = RESCUE_LANDING)
      /\ calls = []
  | RESCUE_ATTAIN_ALT => (q = RESCUE_ATTAIN_ALT \/ q = RESCUE_ROTATE) /\ calls = []
  | RESCUE_ROTATE => (q = RESCUE_ROTATE \/ q = RESCUE_FLY_HOME) /\ calls = []
  | RESCUE_FLY_HOME => (q = RESCUE_FLY_HOME \/ q = RESCUE_DESCENT) /\ calls = []
  | RESCUE_DESCENT => (q = RESCUE_DESCENT \/ q = RESCUE_LANDING) /\ calls = []
  | RESCUE_LANDING =>
      if (accMagnitude (sensor (rescueState (sensed cfg USE_MAG e g)))
          >? f32.of_int 2)%f32
      then q = RESCUE_COMPLETE /\ calls = disarm_calls
      else q = RESCUE_LANDING /\ calls = []
  | RESCUE_COMPLETE => q = RESCUE_IDLE /\ calls = []
  | RESCUE_ABORT => q = RESCUE_IDLE /\ calls = disarm_calls
  | RESCUE_DO_NOTHING => q = RESCUE_DO_NOTHING /\ calls = []
  end.
Proof.
  destruct (sensed_frame cfg USE_MAG e g) as (Ps & _). rewrite <- Ps.
  unfold switched. apply rescuePhaseSwitch_phase.
Qed.

Lemma watched_phase (e : inputs) (g : gps_rescue) :
  let q := phase (rescueState (switched cfg USE_MAG e g)) in
  let r := phase (rescueState (watched cfg USE_MAG e g)) in
  r = q \/ (q <> RESCUE_IDLE /\ q <> RESCUE_INITIALIZE
            /\ (r = RESCUE_ABORT \/ r = RESCUE_DO_NOTHING)).
Proof.
  unfold watched.
  destruct (performSanityChecks_phase (micros_sanity e) e (switched cfg USE_MAG e g))
    as [H|((H1 & H2) & H3)]; [left; exact H | right; repeat split; assumption].
Qed.

End PhaseGraph.

(** X18.  Up to the final call of the controller, which does not write the
    phase, a tick moves along the edges of the phase graph: idle stays
    idle; [RESCUE_COMPLETE] and [RESCUE_ABORT] go to idle; a rescue goes
    one phase forward at most (from [RESCUE_INITIALIZE] also straight to
    [RESCUE_LANDING]) or is sent to [RESCUE_ABORT] or [RESCUE_DO_NOTHING]
    by the watchdog; [RESCUE_DO_NOTHING] stays or is aborted.  A rescue
    never moves backwards. *)
Theorem tick_follows_the_phase_graph (cfg : gpsRescueConfig.t) (USE_MAG : bool)
  (e : inputs) (g g1 : gps_rescue) (calls : list call) :
  rescueUpToController cfg USE_MAG e g = Ok (g1, calls) ->
  tick_successor (dispatched_phase e g) (phase (rescueState g1)) = true.
Proof.
  rewrite rescueUpToController_watched. intros H. injection H as <- _.
  pose proof (switched_phase cfg USE_MAG e g) as Hsw.
  pose proof (watched_phase cfg USE_MAG e g) as Hw.
  cbv zeta in Hsw, Hw.
  revert Hsw Hw.
  generalize (phase (rescueState (watched cfg USE_MAG e g))) as r.
  generalize (phase (rescueState (switched cfg USE_MAG e g))) as q.
  generalize (dispatched_phase e g) as p.
  generalize (accMagnitude (sensor (rescueState (sensed cfg USE_MAG e g)))
              >? f32.of_int 2)%f32 as impact.
  generalize (snd (rescuePhaseSwitch cfg e (to_uint8 (gpsRescueConfig.angle cfg / 2))
                     true (sensed cfg USE_MAG e g))) as c.
  clear. intros c impact p q r Hsw Hw.
  destruct p; try destruct impact;
    repeat match goal with
           | H : _ /\ _ |- _ => destruct H
           | H : _ \/ _ |- _ => destruct H
           end;
    subst; try reflexivity; try congruence.
Qed.

Lemma tick_follows_the_phase_graph_witness :
  exists g1 calls,
    rescueUpToController default_config true impact_readings landing_state
    = Ok (g1, calls)
    /\ dispatched_phase impact_readings landing_state = RESCUE_LANDING
    /\ phase (rescueState g1) = RESCUE_COMPLETE
    /\ tick_successor (dispatched_phase impact_readings landing_state)
         (phase (rescueState g1)) = true.
Proof.
  do 2 eexists. split; [vm_compute; reflexivity|].
  split; [reflexivity|]. split; [reflexivity|].
  match goal with
  | |- tick_successor _ (phase (rescueState ?x)) = true =>
      apply (tick_follows_the_phase_graph default_config true impact_readings
               landing_state x disarm_calls)
  end.
  vm_compute. reflexivity.
Defined.

Section TickEnds.

Variable cfg : gpsRescueConfig.t.
Variable USE_MAG : bool.

(** The accelerometer reading the [switch] of a landing tick sees is the
    one of that tick. *)
Lemma sensed_accMagnitude_landing (e : inputs) (g : gps_rescue) :
  dispatched_phase e g = RESCUE_LANDING ->
  accMagnitude (sensor (rescueState (sensed cfg USE_MAG e g))) = landing_accMagnitude e.
Proof.
  intros Hd.
  destruct (sensed_frame cfg USE_MAG e g) as (_ & _ & _ & _ & _ & S & _).
  rewrite S, sensorUpdate_accMagnitude, entered_phase, Hd. reflexivity.
Qed.

(** A tick whose [switch] ends idle completes, healthy, with the pilot's
    throttle and level angles. *)
Lemma tick_ending_idle (e : inputs) (g : gps_rescue) :
  phase (rescueState (switched cfg USE_MAG e g)) = RESCUE_IDLE ->
  updateGPSRescueState cfg USE_MAG e g
  = Ok (set_newGPSData false
          (set_outputs f32.zero f32.zero (rcCommand_THROTTLE e)
             (with_failure RESCUE_HEALTHY (switched cfg USE_MAG e g))),
        snd (rescuePhaseSwitch cfg e (to_uint8 (gpsRescueConfig.angle cfg / 2)) true
               (sensed cfg USE_MAG e g))).
Proof.
  intros Hp.
  assert (Hw : watched cfg USE_MAG e g
               = with_failure RESCUE_HEALTHY (switched cfg USE_MAG e g))
    by (unfold watched, performSanityChecks; rewrite Hp; reflexivity).
  apply updateGPSRescueState_completes.
  rewrite Hw. unfold rescueAttainPosition. state. rewrite Hp. reflexivity.
Qed.

End TickEnds.

(** X19.  The calls a tick makes into the arming subsystem: disable arming,
    then disarm, when the [switch] dispatches on [RESCUE_ABORT] or on
    [RESCUE_LANDING] with an accelerometer reading above 2 g on this tick,
    and none at all otherwise. *)
Theorem tick_disarms_on_abort_or_impact_only (cfg : gpsRescueConfig.t)
  (USE_MAG : bool) (e : inputs) (g g1 : gps_rescue) (calls : list call) :
  rescueUpToController cfg USE_MAG e g = Ok (g1, calls) ->
  calls = match dispatched_phase e g with
          | RESCUE_ABORT => disarm_calls
          | RESCUE_LANDING =>
              if (landing_accMagnitude e >? f32.of_int 2)%f32 then disarm_calls else []
          | _ => []
          end.
Proof.
  rewrite rescueUpToController_watched. intros H. injection H as _ <-.
  pose proof (switched_phase cfg USE_MAG e g) as Hsw. cbv zeta in Hsw.
  destruct (dispatched_phase e g) eqn:Hd; try (destruct Hsw as [_ Hc]; exact Hc).
  rewrite (sensed_accMagnitude_landing cfg USE_MAG e g Hd) in Hsw.
  destruct (_ >? _)%f32; destruct Hsw as [_ Hc]; exact Hc.
Qed.

Lemma tick_disarms_on_abort_or_impact_only_witness :
  exists g1,
    rescueUpToController default_config true gps_lost_readings failed_state
    = Ok (g1, [])
    /\ dispatched_phase gps_lost_readings failed_state = RESCUE_FLY_HOME
    /\ [] = match dispatched_phase gps_lost_readings failed_state with
            | RESCUE_ABORT => disarm_calls
            | RESCUE_LANDING =>
                if (landing_accMagnitude gps_lost_readings >? f32.of_int 2)%f32
                then disarm_calls else []
            | _ => []
            end.
Proof.
  eexists. split; [vm_compute; reflexivity|].
  split; [reflexivity|].
  refine (tick_disarms_on_abort_or_impact_only default_config true gps_lost_readings
            failed_state
            (watched default_config true gps_lost_readings failed_state) [] _).
  vm_compute. reflexivity.
Defined.

(** X20.  With the mode still on, the tick that finds the rescue in
    [RESCUE_ABORT] or [RESCUE_COMPLETE] completes and ends idle and
    healthy, with the pilot's throttle, level angles and the GPS flag
    cleared; it disarms out of [RESCUE_ABORT] and makes no call out of
    [RESCUE_COMPLETE]. *)
Theorem finished_rescue_returns_to_idle (cfg : gpsRescueConfig.t) (USE_MAG : bool)
  (e : inputs) (g : gps_rescue) :
  FLIGHT_MODE_GPS_RESCUE e = true ->
  phase (rescueState g) = RESCUE_ABORT \/ phase (rescueState g) = RESCUE_COMPLETE ->
  exists g',
    updateGPSRescueState cfg USE_MAG e g
    = Ok (g', match phase (rescueState g) with
              | RESCUE_ABORT => disarm_calls
              | _ => []
              end)
    /\ phase (rescueState g') = RESCUE_IDLE
    /\ failure (rescueState g') = RESCUE_HEALTHY
    /\ rescueThrottle g' = rcCommand_THROTTLE e
    /\ gpsRescueAngle_PITCH g' = f32.zero
    /\ gpsRescueAngle_ROLL g' = f32.zero
    /\ newGPSData g' = false.
Proof.
  intros Hm Hp.
  assert (Hd : dispatched_phase e g = phase (rescueState g))
    by (unfold dispatched_phase; rewrite Hm; destruct Hp as [Hp|Hp]; rewrite Hp;
        reflexivity).
  pose proof (switched_phase cfg USE_MAG e g) as Hsw. cbv zeta in Hsw.
  rewrite Hd in Hsw.
  assert (Hq : phase (rescueState (switched cfg USE_MAG e g)) = RESCUE_IDLE)
    by (destruct Hp as [Hp|Hp]; rewrite Hp in Hsw; destruct Hsw as [Hq _]; exact Hq).
  eexists. split.
  - rewrite (tick_ending_idle cfg USE_MAG e g Hq). f_equal. f_equal.
    destruct Hp as [Hp|Hp]; rewrite Hp in *; destruct Hsw as [_ Hc]; exact Hc.
  - state. repeat split; try reflexivity. exact Hq.
Qed.

Lemma finished_rescue_returns_to_idle_witness :
  FLIGHT_MODE_GPS_RESCUE stalled_readings = true
  /\ phase (rescueState aborted_state) = RESCUE_ABORT
  /\ exists g',
       updateGPSRescueState default_config true stalled_readings aborted_state
       = Ok (g', match phase (rescueState aborted_state) with
                 | RESCUE_ABORT => disarm_calls
                 | _ => []
                 end)
       /\ phase (rescueState g') = RESCUE_IDLE
       /\ failure (rescueState g') = RESCUE_HEALTHY
       /\ rescueThrottle g' = rcCommand_THROTTLE stalled_readings
       /\ gpsRescueAngle_PITCH g' = f32.zero
       /\ gpsRescueAngle_ROLL g' = f32.zero
       /\ newGPSData g' = false.
Proof.
  split; [reflexivity|]. split; [reflexivity|].
  apply (finished_rescue_returns_to_idle default_config true stalled_readings
           aborted_state); [reflexivity | left; reflexivity].
Defined.

(** X21.  A tick with the rescue mode off completes in every state, makes no
    call into the arming subsystem (an abort that was pending is dropped),
    and ends idle and healthy with the pilot's throttle and level angles;
    the yaw rate, the statics of the controller and of the watchdog and
    [magForceDisable] are as they were. *)
Theorem tick_with_the_mode_off_is_idle (cfg : gpsRescueConfig.t) (USE_MAG : bool)
  (e : inputs) (g : gps_rescue) :
  FLIGHT_MODE_GPS_RESCUE e = false ->
  exists g',
    updateGPSRescueState cfg USE_MAG e g = Ok (g', [])
    /\ phase (rescueState g') = RESCUE_IDLE
    /\ failure (rescueState g') = RESCUE_HEALTHY
    /\ rescueThrottle g' = rcCommand_THROTTLE e
    /\ gpsRescueAngle_PITCH g' = f32.zero
    /\ gpsRescueAngle_ROLL g' = f32.zero
    /\ rescueYaw g' = rescueYaw g
    /\ attain g' = attain g
    /\ sanityMem g' = sanityMem g
    /\ magForceDisable g' = magForceDisable g.
Proof.
  intros Hm.
  assert (Hd : dispatched_phase e g = RESCUE_IDLE)
    by (apply dispatched_phase_idle; exact Hm).
  pose proof (switched_phase cfg USE_MAG e g) as Hsw. cbv zeta in Hsw.
  rewrite Hd in Hsw. destruct Hsw as [Hq Hc].
  destruct (rescuePhaseSwitch_fields cfg e
              (to_uint8 (gpsRescueConfig.angle cfg / 2)) true (sensed cfg USE_MAG e g))
    as ((_ & Y & _) & _ & Mf & _ & A & SM & _).
  fold (switched cfg USE_MAG e g) in Y, Mf, A, SM.
  destruct (sensed_fields cfg USE_MAG e g) as ((_ & Ys & _) & _ & SMs & _).
  destruct (sensed_frame cfg USE_MAG e g) as (_ & _ & _ & _ & Mfs & _).
  destruct (checkGPSRescueIsAvailable_frame e
              (sensorUpdate cfg e (entered cfg USE_MAG e g))) as (_ & _ & _ & _ & A2).
  destruct (sensorUpdate_frame cfg e (entered cfg USE_MAG e g))
    as (_ & _ & _ & _ & _ & _ & A1 & _).
  assert (E0 : entered cfg USE_MAG e g = rescueStop g)
    by (unfold entered; rewrite Hm; reflexivity).
  assert (As : attain (sensed cfg USE_MAG e g) = attain g).
  { unfold sensed. cbv zeta. state. rewrite A2, A1, E0. reflexivity. }
  eexists. split.
  - rewrite (tick_ending_idle cfg USE_MAG e g Hq). rewrite Hc. reflexivity.
  - state. rewrite Y, Ys, A, As, SM, SMs, E0, Mf, Mfs.
    repeat split; try reflexivity. exact Hq.
Qed.

Lemma tick_with_the_mode_off_is_idle_witness :
  FLIGHT_MODE_GPS_RESCUE (readings_at false 3400 19980 1200000) = false
  /\ phase (rescueState aborted_state) = RESCUE_ABORT
  /\ exists g',
       updateGPSRescueState default_config true (readings_at false 3400 19980 1200000)
         aborted_state = Ok (g', [])
       /\ phase (rescueState g') = RESCUE_IDLE
       /\ failure (rescueState g') = RESCUE_HEALTHY
       /\ rescueThrottle g' = rcCommand_THROTTLE (readings_at false 3400 19980 1200000)
       /\ gpsRescueAngle_PITCH g' = f32.zero
       /\ gpsRescueAngle_ROLL g' = f32.zero
       /\ rescueYaw g' = rescueYaw aborted_state
       /\ attain g' = attain aborted_state
       /\ sanityMem g' = sanityMem aborted_state
       /\ magForceDisable g' = magForceDisable aborted_state.
Proof.
  split; [reflexivity|]. split; [reflexivity|].
  apply (tick_with_the_mode_off_is_idle default_config true
           (readings_at false 3400 19980 1200000) aborted_state).
  reflexivity.
Defined.

Section NoHomePoint.

Variable cfg : gpsRescueConfig.t.
Variable USE_MAG : bool.

(** One tick of a rescue that is starting, or waiting to start, without a
    home point. *)
Lemma tick_without_home_point (e : inputs) (g : gps_rescue) :
  FLIGHT_MODE_GPS_RESCUE e = true ->
  STATE_GPS_FIX_HOME e = false ->
  phase (rescueState g) = RESCUE_IDLE \/ phase (rescueState g) = RESCUE_INITIALIZE ->
  exists g',
    updateGPSRescueState cfg USE_MAG e g = Ok (g', [])
    /\ phase (rescueState g') = RESCUE_INITIALIZE
    /\ failure (rescueState g') = RESCUE_NO_HOME_POINT
    /\ outputs_kept g g'.
Proof.
  intros Hm Hh Hp.
  assert (Hd : dispatched_phase e g = RESCUE_INITIALIZE)
    by (unfold dispatched_phase; rewrite Hm; destruct Hp as [Hp|Hp]; rewrite Hp;
        reflexivity).
  destruct (sensed_frame cfg USE_MAG e g) as (Ps & _).
  rewrite Hd in Ps.
  assert (Hsw : rescuePhaseSwitch cfg e (to_uint8 (gpsRescueConfig.angle cfg / 2)) true
                  (sensed cfg USE_MAG e g)
                = (with_failure RESCUE_NO_HOME_POINT (sensed cfg USE_MAG e g), true, []))
    by (unfold rescuePhaseSwitch; rewrite Ps, Hh; reflexivity).
  assert (Hs' : switched cfg USE_MAG e g
                = with_failure RESCUE_NO_HOME_POINT (sensed cfg USE_MAG e g))
    by (unfold switched; rewrite Hsw; reflexivity).
  destruct (watched_fields cfg USE_MAG e g) as (O & _).
  assert (Pw : phase (rescueState (watched cfg USE_MAG e g)) = RESCUE_INITIALIZE
               /\ failure (rescueState (watched cfg USE_MAG e g)) = RESCUE_NO_HOME_POINT).
  { unfold watched. rewrite Hs'. unfold performSanityChecks. state. rewrite Ps.
    state. split; [exact Ps | reflexivity]. }
  destruct Pw as [Pw Fw].
  assert (Hctl : rescueAttainPosition cfg e (watched cfg USE_MAG e g)
                 = Ok (set_attain attain_reset (watched cfg USE_MAG e g)))
    by (unfold rescueAttainPosition; rewrite Pw; reflexivity).
  eexists. split.
  - rewrite (updateGPSRescueState_completes cfg USE_MAG e g _ Hctl).
    rewrite Hsw. reflexivity.
  - state. split; [exact Pw|]. split; [exact Fw|].
    unfold outputs_kept in *. state. exact O.
Qed.

End NoHomePoint.

(** X22.  While the mode is on and there is no home point, a rescue that is
    starting stays in [RESCUE_INITIALIZE] with the failure
    [RESCUE_NO_HOME_POINT]: every tick completes, none makes a call into
    the arming subsystem, and the four outputs keep the values they had.
    The watchdog returns before its policy in this phase, so the failure
    is recorded and not acted on. *)
Theorem rescue_without_home_point_waits_in_initialize (cfg : gpsRescueConfig.t)
  (USE_MAG : bool) (ticks : list tick_input) (g : gps_rescue) :
  phase (rescueState g) = RESCUE_IDLE \/ phase (rescueState g) = RESCUE_INITIALIZE ->
  without_home_point ticks ->
  ticks <> [] ->
  exists g',
    run cfg USE_MAG ticks g = Ok (g', [])
    /\ phase (rescueState g') = RESCUE_INITIALIZE
    /\ failure (rescueState g') = RESCUE_NO_HOME_POINT
    /\ outputs_kept g g'.
Proof.
  revert g. induction ticks as [|i rest IH]; intros g Hp Hall Hne; [contradiction|].
  apply Forall_cons_iff in Hall. destruct Hall as [[Hm Hh] Hall].
  set (gi := if gps_sample i then rescueNewGpsData g else g).
  assert (Hgi : (phase (rescueState gi) = RESCUE_IDLE
                 \/ phase (rescueState gi) = RESCUE_INITIALIZE)
                /\ outputs_kept g gi)
    by (unfold gi; destruct (gps_sample i); split; try exact Hp; repeat split).
  destruct Hgi as [Hpi Oi].
  destruct (tick_without_home_point cfg USE_MAG (readings i) gi Hm Hh Hpi)
    as (g1 & Hupd & P1 & F1 & O1).
  cbn [run]. unfold tick. fold gi. rewrite Hupd. cbn [bind fst snd].
  destruct rest as [|j rest'].
  - exists g1. cbn [run bind fst snd app]. split; [reflexivity|].
    split; [exact P1|]. split; [exact F1|].
    eapply outputs_kept_trans; eassumption.
  - destruct (IH g1) as (g' & Hrun & P' & F' & O');
      [right; exact P1 | exact Hall | discriminate |].
    exists g'. rewrite Hrun. cbn [bind fst snd app]. split; [reflexivity|].
    split; [exact P'|]. split; [exact F'|].
    eapply outputs_kept_trans; [|exact O'].
    eapply outputs_kept_trans; eassumption.
Qed.

Lemma rescue_without_home_point_waits_in_initialize_witness :
  phase (rescueState gps_rescue_init) = RESCUE_IDLE
  /\ without_home_point homeless_ticks
  /\ exists g',
       run default_config true homeless_ticks gps_rescue_init = Ok (g', [])
       /\ phase (rescueState g') = RESCUE_INITIALIZE
       /\ failure (rescueState g') = RESCUE_NO_HOME_POINT
       /\ outputs_kept gps_rescue_init g'.
Proof.
  split; [reflexivity|].
  assert (H : without_home_point homeless_ticks)
    by (repeat constructor).
  split; [exact H|].
  apply (rescue_without_home_point_waits_in_initialize default_config true
           homeless_ticks gps_rescue_init).
  - left. reflexivity.
  - exact H.
  - discriminate.
Defined.

(** X23.  The tick that switches the rescue on (idle and healthy before, no
    GPS sample pending, home point set, not inside the minimum distance,
    the two clock readings of the tick less than a second apart) completes
    without a call and ends in [RESCUE_ATTAIN_ALT]: zero target velocity,
    half the configured pitch angle, no roll, yaw updates on and
    [secondsFailing] at 0, the other fields of the intent as idle left
    them; the statics of the controller zeroed; the watchdog's statics set
    to the clock, the altitude of the previous tick, 5 and 0; the
    outputs unchanged. *)
Theorem rescue_starts_with_a_climb (cfg : gpsRescueConfig.t) (USE_MAG : bool)
  (e : inputs) (g : gps_rescue) :
  FLIGHT_MODE_GPS_RESCUE e = true ->
  phase (rescueState g) = RESCUE_IDLE ->
  failure (rescueState g) = RESCUE_HEALTHY ->
  newGPSData g = false ->
  STATE_GPS_FIX_HOME e = true ->
  (distanceToHomeM (sensor (rescueState g))
   <? f32.of_int (gpsRescueConfig.minRescueDth cfg))%f32 = false ->
  (cmpTimeUs (micros_sanity e) (micros_start e) <? 1000000) = true ->
  exists g',
    updateGPSRescueState cfg USE_MAG e g = Ok (g', [])
    /\ phase (rescueState g') = RESCUE_ATTAIN_ALT
    /\ intent (rescueState g')
       = set_rollAngleLimitDeg 0
           (set_pitchAngleLimitDeg (to_uint8 (gpsRescueConfig.angle cfg / 2))
              (set_targetVelocityCmS 0
                 (set_updateYaw true (set_secondsFailing 0 (intent (rescueState g))))))
    /\ attain g' = attain_reset
    /\ sanityMem g'
       = {| sanity.previousTimeUs := micros_start e;
            sanity.prevAltitudeCm := currentAltitudeCm (sensor (rescueState g));
            sanity.secondsLowSats := 5;
            sanity.secondsDoingNothing := 0 |}
    /\ outputs_kept g g'.
Proof.
  intros Hm Hp Hf Hn Hh Hfar Hsoon.
  assert (Hd : dispatched_phase e g = RESCUE_INITIALIZE)
    by (unfold dispatched_phase; rewrite Hm, Hp; reflexivity).
  destruct (sensed_frame cfg USE_MAG e g) as (Ps & Is & Fs & Ns & _).
  rewrite Hd in Ps.
  destruct (sensed_fields cfg USE_MAG e g) as (_ & _ & SMs & _ & _ & Ks).
  destruct (Ks Hn) as (_ & Ds & _).
  rewrite (entered_from_idle cfg USE_MAG e g Hm Hp) in SMs. state.
  set (s := sensed cfg USE_MAG e g) in *.
  set (s1 := with_intent
               (fun i =>
                  set_rollAngleLimitDeg 0
                    (set_pitchAngleLimitDeg (to_uint8 (gpsRescueConfig.angle cfg / 2))
                       (set_targetVelocityCmS 0
                          (set_updateYaw true (set_secondsFailing 0 i)))))
               (with_phase RESCUE_ATTAIN_ALT s)).
  assert (Hsw : exists b,
             rescuePhaseSwitch cfg e (to_uint8 (gpsRescueConfig.angle cfg / 2)) true s
             = (s1, b, [])).
  { unfold rescuePhaseSwitch. rewrite Ps, Hh, Ds, Hfar. cbn [negb].
    eexists. reflexivity. }
  destruct Hsw as [b Hsw].
  assert (Hs' : switched cfg USE_MAG e g = s1)
    by (unfold switched; fold s; rewrite Hsw; reflexivity).
  assert (Hw : watched cfg USE_MAG e g = sanity_detect e s1).
  { unfold watched. rewrite Hs'.
    rewrite performSanityChecks_active by (unfold s1; state; split; discriminate).
    cbv zeta.
    assert (Hh1 : sanity_handle_failure cfg e s1 = s1).
    { unfold sanity_handle_failure, s1. state. rewrite Fs, Hf. reflexivity. }
    rewrite Hh1.
    destruct (sanity_detect_frame e s1) as (_ & _ & _ & _ & M & _).
    rewrite M. unfold s1. state. rewrite SMs. state. rewrite Hsoon. reflexivity. }
  destruct (sanity_detect_frame e s1) as (P1 & I1 & _ & _ & M1 & _).
  destruct (watched_fields cfg USE_MAG e g) as (O & Nw & Aw & _).
  rewrite Hn in Nw.
  assert (Pw : phase (rescueState (watched cfg USE_MAG e g)) = RESCUE_ATTAIN_ALT)
    by (rewrite Hw, P1; reflexivity).
  assert (Hctl : rescueAttainPosition cfg e (watched cfg USE_MAG e g)
                 = Ok (watched cfg USE_MAG e g))
    by (unfold rescueAttainPosition; rewrite Pw, Nw; reflexivity).
  eexists. split.
  - rewrite (updateGPSRescueState_completes cfg USE_MAG e g _ Hctl).
    fold s. rewrite Hsw. reflexivity.
  - state. split; [exact Pw|].
    split; [rewrite Hw, I1; unfold s1; state; rewrite Is; reflexivity|].
    split.
    { rewrite Hw.
      rewrite (sanity_detect_preserves _ attain) by reflexivity.
      unfold s1. state.
      destruct (checkGPSRescueIsAvailable_frame e
                  (sensorUpdate cfg e (entered cfg USE_MAG e g)))
        as (_ & _ & _ & _ & A2).
      destruct (sensorUpdate_frame cfg e (entered cfg USE_MAG e g))
        as (_ & _ & _ & _ & _ & _ & A1 & _).
      unfold s, sensed. cbv zeta. state. rewrite A2, A1.
      rewrite (entered_from_idle cfg USE_MAG e g Hm Hp). reflexivity. }
    split; [rewrite Hw, M1; unfold s1; state; exact SMs|].
    unfold outputs_kept in *. state. exact O.
Qed.

Lemma rescue_starts_with_a_climb_witness :
  exists g',
    updateGPSRescueState default_config true (readings_at true 1000 20000 110000)
      after_idle_sample = Ok (g', [])
    /\ phase (rescueState g') = RESCUE_ATTAIN_ALT
    /\ targetVelocityCmS (intent (rescueState g')) = 0
    /\ pitchAngleLimitDeg (intent (rescueState g')) = 16
    /\ attain g' = attain_reset
    /\ sanity.secondsLowSats (sanityMem g') = 5.
Proof.
  destruct (rescue_starts_with_a_climb default_config true
              (readings_at true 1000 20000 110000) after_idle_sample
              eq_refl eq_refl eq_refl eq_refl eq_refl
              ltac:(vm_compute; reflexivity) eq_refl)
    as (g' & H & P & I & A & M & _).
  exists g'. split; [exact H|]. split; [exact P|].
  rewrite I, M. repeat split; try reflexivity. exact A.
Defined.
